(** * Deep Research Clone: the research control loop of [app.py]

    A shallow embedding of the Streamlit driver [main] and of the six
    helper functions it sequences, together with the properties of the
    loop: the iteration cap, de-duplication by query text, the yes/no
    heuristic, the two plan-parsing call sites and the report reset.

    Python strings are sequences of Unicode code points, JSON values are the
    objects [json.loads] builds, the completion service is a script of
    replies consumed call by call, and one execution of [main] (one
    Streamlit rerun) is a computation over the session state.

    What lies outside [app.py] is modelled as follows. A request keeps the
    prompt it is built from and the values interpolated in it, not the
    formatted text. A reply is any response, or an error raised by the
    call. Streamlit calls are recorded on the page in order and never
    fail; a widget returns what the user supplies to the run. [json.loads]
    is a decoder for the grammar Python accepts, which raises as CPython
    does, for the first thing wrong in the text: [JSONDecodeError],
    [ValueError] for an integer longer than the interpreter converts,
    [RecursionError] for nesting deeper than it allows; the two limits
    belong to the world of a run. [str.lower] acts on the ASCII letters.
    The list under ['collected'] is one object shared with the session
    once the key is set, so an append made before a search raises stays in
    the session. *)

From Stdlib Require Import List Bool Arith ZArith NArith Ascii String Lia.
From Stdlib Require Import SpecFloat.
Import ListNotations.

(** ** Python strings *)

Module PyStr.

(** A [str] is a sequence of code points. *)
Definition pystr := list N.

(** String literals of the source that are pure ASCII. *)
Definition lit (s : string) : pystr :=
  map N_of_ascii (list_ascii_of_string s).

(** [a == b] on strings. *)
Fixpoint str_eqb (a b : pystr) : bool :=
  match a, b with
  | [], [] => true
  | x :: a', y :: b' => (x =? y)%N && str_eqb a' b'
  | _, _ => false
  end.

(** [a == b] on lists of strings. *)
Fixpoint strs_eqb (a b : list pystr) : bool :=
  match a, b with
  | [], [] => true
  | x :: a', y :: b' => str_eqb x y && strs_eqb a' b'
  | _, _ => false
  end.

(** [bool(s)]: a string is truthy when it is not empty. *)
Definition truthy (s : pystr) : bool :=
  match s with [] => false | _ :: _ => true end.

(** [c.isspace()] for one code point, the set [str.strip()] removes. *)
Definition isspace (c : N) : bool :=
  ((9 <=? c) && (c <=? 13) || (28 <=? c) && (c <=? 32)
   || (c =? 133) || (c =? 160) || (c =? 5760)
   || (8192 <=? c) && (c <=? 8202)
   || (c =? 8232) || (c =? 8233) || (c =? 8239) || (c =? 8287)
   || (c =? 12288))%N.

Fixpoint lstrip (s : pystr) : pystr :=
  match s with
  | c :: s' => if isspace c then lstrip s' else s
  | [] => []
  end.

Definition rstrip (s : pystr) : pystr := rev (lstrip (rev s)).

(** [s.strip()] *)
Definition strip (s : pystr) : pystr := rstrip (lstrip s).

Fixpoint starts_with (p s : pystr) : bool :=
  match p, s with
  | [], _ => true
  | a :: p', b :: s' => (a =? b)%N && starts_with p' s'
  | _ :: _, [] => false
  end.

(** [p in s] on strings: [p] occurs at some position of [s]. *)
Fixpoint str_in (p s : pystr) : bool :=
  starts_with p s ||
  match s with
  | [] => false
  | _ :: s' => str_in p s'
  end.

(** [s.lower()], on the ASCII letters; other code points are kept. *)
Definition lower_char (c : N) : N :=
  if ((65 <=? c) && (c <=? 90))%N then (c + 32)%N else c.

Definition lower (s : pystr) : pystr := map lower_char s.

(** [s.split(sep)] for a non-empty separator: scan left to right, cut at
    every non-overlapping occurrence; [skip] counts the code points of an
    occurrence still to be passed over, [cur] is the current piece, last
    code point first. *)
Fixpoint split_aux (sep : pystr) (skip : nat) (cur : pystr) (s : pystr)
  : list pystr :=
  match s with
  | [] => [rev cur]
  | c :: s' =>
      match skip with
      | S k => split_aux sep k cur s'
      | O =>
          if starts_with sep s
          then rev cur :: split_aux sep (List.length sep - 1) [] s'
          else split_aux sep 0 (c :: cur) s'
      end
  end.

Definition split (sep s : pystr) : list pystr := split_aux sep 0 [] s.

(** [s.replace(old, new)] for a non-empty [old]. *)
Fixpoint replace_aux (old new : pystr) (skip : nat) (s : pystr) : pystr :=
  match s with
  | [] => []
  | c :: s' =>
      match skip with
      | S k => replace_aux old new k s'
      | O =>
          if starts_with old s
          then new ++ replace_aux old new (List.length old - 1) s'
          else c :: replace_aux old new 0 s'
      end
  end.

Definition replace (old new s : pystr) : pystr := replace_aux old new 0 s.

(** [sep.join(parts)] *)
Fixpoint join (sep : pystr) (parts : list pystr) : pystr :=
  match parts with
  | [] => []
  | [p] => p
  | p :: rest => p ++ sep ++ join sep rest
  end.

(** [s[:n] + "..." if len(s) > n else s], the preview of a search output. *)
Definition preview (n : nat) (s : pystr) : pystr :=
  if n <? List.length s then firstn n s ++ lit "..." else s.

End PyStr.
Import PyStr.

(** ** JSON values and [json.loads] *)

Module Json.

(** The Python objects [json.loads] builds: [None], [bool], [int], [float]
    (binary64), [str], [list] and [dict] with string keys in insertion
    order. *)
Unset Elimination Schemes.
Inductive json : Type :=
| JNull
| JBool (b : bool)
| JInt (z : Z)
| JFloat (f : spec_float)
| JStr (s : pystr)
| JArr (l : list json)
| JObj (kv : list (pystr * json)).
Set Elimination Schemes.

(** [d.get(k)] on the pairs of a dict. *)
Fixpoint dict_get (k : pystr) (kv : list (pystr * json)) : option json :=
  match kv with
  | [] => None
  | (k', v) :: rest => if str_eqb k k' then Some v else dict_get k rest
  end.

(** [d[k] = v]: an existing key keeps its position, a new one goes last. *)
Fixpoint dict_set (k : pystr) (v : json) (kv : list (pystr * json))
  : list (pystr * json) :=
  match kv with
  | [] => [(k, v)]
  | (k', v') :: rest =>
      if str_eqb k k' then (k, v) :: rest else (k', v') :: dict_set k v rest
  end.

Definition dict_keys (kv : list (pystr * json)) : list pystr := map fst kv.

(** *** Equality [a == b] *)

Definition binary64_eqb : spec_float -> spec_float -> bool := SFeqb.

(** An [int] equals a [float] when they denote the same real number. *)
Definition int_float_eqb (z : Z) (f : spec_float) : bool :=
  match f with
  | S754_zero _ => (z =? 0)%Z
  | S754_finite s m e =>
      let v := if s then Z.neg m else Z.pos m in
      if (0 <=? e)%Z then (z =? v * 2 ^ e)%Z else (z * 2 ^ (- e) =? v)%Z
  | _ => false
  end.

(** [bool] is a subclass of [int]: [True == 1]. *)
Definition as_number (a : json) : option (Z + spec_float) :=
  match a with
  | JBool b => Some (inl (if b then 1%Z else 0%Z))
  | JInt z => Some (inl z)
  | JFloat f => Some (inr f)
  | _ => None
  end.

Definition number_eqb (x y : Z + spec_float) : bool :=
  match x, y with
  | inl a, inl b => (a =? b)%Z
  | inl a, inr g => int_float_eqb a g
  | inr f, inl b => int_float_eqb b f
  | inr f, inr g => binary64_eqb f g
  end.

(** [x is y] for two values that are not equal: the items of two lists
    and the values of two dicts are compared by identity before [==]. Of
    the objects [json.loads] builds only NaN differs from itself, and every
    NaN it builds is the one object [json.decoder.NaN]; nothing else in the
    script makes a float. So identity adds one case to equality. *)
Definition same_nan (a b : json) : bool :=
  match a, b with
  | JFloat S754_nan, JFloat S754_nan => true
  | _, _ => false
  end.

(** [a == b]. Two NaN are not equal, but two lists or dicts that hold NaN
    at the same place are: their items are identical. *)
Fixpoint py_eq (a b : json) {struct a} : bool :=
  match a, b with
  | JNull, JNull => true
  | JStr s, JStr t => str_eqb s t
  | JArr l, JArr m =>
      (fix items (l m : list json) {struct l} : bool :=
         match l, m with
         | [], [] => true
         | x :: l', y :: m' => (same_nan x y || py_eq x y) && items l' m'
         | _, _ => false
         end) l m
  | JObj kv, JObj kv' =>
      (List.length kv =? List.length kv') &&
      (fix entries (kv : list (pystr * json)) {struct kv} : bool :=
         match kv with
         | [] => true
         | (k, v) :: rest =>
             match dict_get k kv' with
             | Some v' => same_nan v v' || py_eq v v'
             | None => false
             end && entries rest
         end) kv
  | _, _ =>
      match as_number a, as_number b with
      | Some x, Some y => number_eqb x y
      | _, _ => false
      end
  end.

(** *** Lexical analysis *)

Inductive token : Type :=
| TLBrace | TRBrace | TLBrack | TRBrack | TComma | TColon
| TString (s : pystr)
| TAtom (lexeme : pystr)
| TBad.

(** The scanner's whitespace: space, tab, line feed, carriage return. *)
Definition is_ws (c : N) : bool :=
  ((c =? 32) || (c =? 9) || (c =? 10) || (c =? 13))%N.

Definition punct (c : N) : option token :=
  if (c =? 123)%N then Some TLBrace
  else if (c =? 125)%N then Some TRBrace
  else if (c =? 91)%N then Some TLBrack
  else if (c =? 93)%N then Some TRBrack
  else if (c =? 44)%N then Some TComma
  else if (c =? 58)%N then Some TColon
  else None.

Definition hex_digit (c : N) : option N :=
  if ((48 <=? c) && (c <=? 57))%N then Some (c - 48)%N
  else if ((65 <=? c) && (c <=? 70))%N then Some (c - 55)%N
  else if ((97 <=? c) && (c <=? 102))%N then Some (c - 87)%N
  else None.

Definition is_high_surrogate (c : N) : bool := ((55296 <=? c) && (c <=? 56319))%N.
Definition is_low_surrogate (c : N) : bool := ((56320 <=? c) && (c <=? 57343))%N.
Definition join_surrogates (hi lo : N) : N :=
  (65536 + (hi - 55296) * 1024 + (lo - 56320))%N.

(** The code point of a one-letter escape. *)
Definition simple_escape (c : N) : option N :=
  if ((c =? 34) || (c =? 92) || (c =? 47))%N then Some c
  else if (c =? 98)%N then Some 8%N
  else if (c =? 102)%N then Some 12%N
  else if (c =? 110)%N then Some 10%N
  else if (c =? 114)%N then Some 13%N
  else if (c =? 116)%N then Some 9%N
  else None.

(** Scanner states. In a string, [acc] holds the decoded code points, last
    first, and [hs] tells that the last one is a high surrogate written as
    a [\u] escape ending just here, which a following [\u] escape of a low
    surrogate completes to one code point. *)
Inductive lex_state : Type :=
| LIdle
| LAtom (acc : pystr)
| LStr (acc : pystr) (hs : bool)
| LEsc (acc : pystr) (hs : bool)
| LUni (acc : pystr) (hs : bool) (n : nat) (v : N).


Definition push_escape (acc : pystr) (hs : bool) (v : N) : lex_state :=
  match acc with
  | hi :: acc' =>
      if hs && is_low_surrogate v
      then LStr (join_surrogates hi v :: acc') false
      else LStr (v :: acc) (is_high_surrogate v)
  | [] => LStr [v] (is_high_surrogate v)
  end.

(** The tokens of a text, in order. Where the scanner cannot go on (a
    control character or a wrong escape in a string, a string left open)
    the tokens end with [TBad], which nothing accepts: what the decoder
    finds wrong before that point, it finds first. *)
Fixpoint lex (st : lex_state) (s : pystr) : list token :=
  match s with
  | [] =>
      match st with
      | LIdle => []
      | LAtom acc => [TAtom (rev' acc)]
      | _ => [TBad]
      end
  | c :: s' =>
      match st with
      | LIdle =>
          if is_ws c then lex LIdle s'
          else match punct c with
               | Some t => t :: lex LIdle s'
               | None =>
                   if (c =? 34)%N then lex (LStr [] false) s'
                   else lex (LAtom [c]) s'
               end
      | LAtom acc =>
          if is_ws c then TAtom (rev' acc) :: lex LIdle s'
          else match punct c with
               | Some t => TAtom (rev' acc) :: t :: lex LIdle s'
               | None =>
                   if (c =? 34)%N
                   then TAtom (rev' acc) :: lex (LStr [] false) s'
                   else lex (LAtom (c :: acc)) s'
               end
      | LStr acc hs =>
          if (c =? 34)%N then TString (rev' acc) :: lex LIdle s'
          else if (c =? 92)%N then lex (LEsc acc hs) s'
          else if (c <? 32)%N then [TBad]
          else lex (LStr (c :: acc) false) s'
      | LEsc acc hs =>
          if (c =? 117)%N then lex (LUni acc hs 0 0) s'
          else match simple_escape c with
               | Some v => lex (LStr (v :: acc) false) s'
               | None => [TBad]
               end
      | LUni acc hs n v =>
          match hex_digit c with
          | Some d =>
              let v' := (16 * v + d)%N in
              if (n =? 3)%nat then lex (push_escape acc hs v') s'
              else lex (LUni acc hs (S n) v') s'
          | None => [TBad]
          end
      end
  end.

(** *** Numbers and constants *)

Definition is_digit (c : N) : bool := ((48 <=? c) && (c <=? 57))%N.

(** The longest run of digits at the front of [s], and what follows. *)
Fixpoint span_digits (s : pystr) : pystr * pystr :=
  match s with
  | c :: s' =>
      if is_digit c
      then let '(ds, rest) := span_digits s' in (c :: ds, rest)
      else ([], s)
  | [] => ([], [])
  end.

Definition digits_value (ds : pystr) : Z :=
  fold_left (fun acc c => (10 * acc + Z.of_N (c - 48))%Z) ds 0%Z.

(** The binary64 nearest to [m * 10 ^ e] for [m >= 0], ties to even, as
    [float(...)] converts a decimal literal. *)
Definition float_of_decimal (neg : bool) (m e : Z) : spec_float :=
  match m with
  | Zpos p =>
      if (0 <=? e)%Z
      then binary_round 53 1024 neg (Z.to_pos (Zpos p * 10 ^ e)) 0
      else
        let '(q, e', l) := SFdiv_core_binary 53 1024 (Zpos p) 0 (10 ^ (- e)) 0 in
        binary_round_aux 53 1024 neg q e' l
  | _ => S754_zero neg
  end.

(** What the interpreter allows the decoder: [max_str_digits] is
    [sys.get_int_max_str_digits()], the longest run of digits [int] converts
    (4300 unless set otherwise, 0 for no limit); [max_depth] is the number of
    containers, one inside the other, that the scanner can enter before the
    recursion limit is reached (the limit less the calls under way). *)
Record limits : Type := {
  max_str_digits : nat;
  max_depth : nat
}.

(** The three ways [json.loads] raises: [JSONDecodeError] for a text that is
    not JSON, [ValueError] for an integer with more digits than the limit,
    [RecursionError] for containers nested deeper than the limit. *)
Inductive failure : Type :=
| NotJson
| TooManyDigits
| TooDeep.

Inductive decoding : Type :=
| Decoded (v : json)
| Refused (f : failure).

(** The fraction part: a dot followed by at least one digit. A dot that no
    digit follows is left where it is. *)
Definition scan_frac (s : pystr) : pystr * pystr :=
  match s with
  | 46%N :: s1 =>
      let '(fs, rest) := span_digits s1 in
      match fs with [] => ([], s) | _ :: _ => (fs, rest) end
  | _ => ([], s)
  end.

(** The exponent part: [e] or [E], an optional sign, at least one digit.
    Without a digit the scanner goes back to before the [e]. *)
Definition scan_exp (s : pystr) : option Z * pystr :=
  match s with
  | [] => (None, s)
  | c :: s1 =>
      if ((c =? 101) || (c =? 69))%N then
        let '(neg, s2) :=
          match s1 with
          | 45%N :: r => (true, r)
          | 43%N :: r => (false, r)
          | _ => (false, s1)
          end in
        let '(es, rest) := span_digits s2 in
        match es with
        | _ :: _ =>
            (Some (if neg then (- digits_value es)%Z else digits_value es), rest)
        | [] => (None, s)
        end
      else (None, s)
  end.

Definition too_many_digits (lim : limits) (ds : pystr) : bool :=
  (0 <? max_str_digits lim) && (max_str_digits lim <? List.length ds).

(** A number: an optional minus sign, then zero or a run of digits that
    starts with a non-zero digit, then optionally a fraction, then
    optionally an exponent. The scanner takes the longest such beginning
    of the lexeme and converts it, to an [int] when it has neither fraction
    nor exponent (which is where the digits are counted), to a [float]
    otherwise; what is left of the lexeme after it is not JSON. *)
Definition scan_number (lim : limits) (lexeme : pystr) : decoding :=
  let '(neg, s0) :=
    match lexeme with
    | 45%N :: r => (true, r)
    | _ => (false, lexeme)
    end in
  let '(ds, s1) := span_digits s0 in
  match ds with
  | [] => Refused NotJson
  | d :: more =>
      let '(ds, s1) := if (d =? 48)%N then ([d], more ++ s1) else (ds, s1) in
      let '(fs, s2) := scan_frac s1 in
      let '(ex, s3) := scan_exp s2 in
      match fs, ex with
      | [], None =>
          if too_many_digits lim ds then Refused TooManyDigits
          else
            match s3 with
            | [] => Decoded (JInt (if neg then (- digits_value ds)%Z
                                   else digits_value ds))
            | _ :: _ => Refused NotJson
            end
      | _, _ =>
          match s3 with
          | [] =>
              let e := match ex with Some e => e | None => 0%Z end in
              Decoded (JFloat (float_of_decimal neg
                                 (digits_value (ds ++ fs))
                                 (e - Z.of_nat (List.length fs))))
          | _ :: _ => Refused NotJson
          end
      end
  end.

(** The value of a lexeme that is neither a string nor punctuation. *)
Definition atom_value (lim : limits) (lexeme : pystr) : decoding :=
  if str_eqb lexeme (lit "null") then Decoded JNull
  else if str_eqb lexeme (lit "true") then Decoded (JBool true)
  else if str_eqb lexeme (lit "false") then Decoded (JBool false)
  else if str_eqb lexeme (lit "NaN") then Decoded (JFloat S754_nan)
  else if str_eqb lexeme (lit "Infinity")
       then Decoded (JFloat (S754_infinity false))
  else if str_eqb lexeme (lit "-Infinity")
       then Decoded (JFloat (S754_infinity true))
  else scan_number lim lexeme.

(** *** Parsing *)

(** A container under construction: the items of a list, last first, or
    the pairs of a dict with the key that waits for its value. *)
Inductive frame : Type :=
| FArr (acc : list json)
| FObj (acc : list (pystr * json)) (key : option pystr).

(** What the parser accepts next. *)
Inductive expect : Type :=
| EValue | EValueOrClose | EKeyOrClose | EKey | EColon | ECommaOrClose
| EDone (v : json).

Definition pstate : Type := (expect * list frame)%type.

(** One step of the parser: the next state, or the way it raises. *)
Inductive step : Type :=
| Next (st : pstate)
| Stop (f : failure).

(** A value is complete: it is the document, an item or a dict value. *)
Definition push_value (v : json) (stack : list frame) : step :=
  match stack with
  | [] => Next (EDone v, [])
  | FArr acc :: up => Next (ECommaOrClose, FArr (v :: acc) :: up)
  | FObj acc (Some k) :: up => Next (ECommaOrClose, FObj (dict_set k v acc) None :: up)
  | FObj _ None :: _ => Stop NotJson
  end.

(** A value starts. A number is converted as soon as it is read, and a
    container is entered only while the interpreter allows one more. *)
Definition start_value (lim : limits) (t : token) (stack : list frame) : step :=
  match t with
  | TString s => push_value (JStr s) stack
  | TAtom a =>
      match atom_value lim a with
      | Decoded v => push_value v stack
      | Refused f => Stop f
      end
  | TLBrack =>
      if max_depth lim <=? List.length stack then Stop TooDeep
      else Next (EValueOrClose, FArr [] :: stack)
  | TLBrace =>
      if max_depth lim <=? List.length stack then Stop TooDeep
      else Next (EKeyOrClose, FObj [] None :: stack)
  | _ => Stop NotJson
  end.

Definition start_key (t : token) (stack : list frame) : step :=
  match t, stack with
  | TString k, FObj acc None :: up => Next (EColon, FObj acc (Some k) :: up)
  | _, _ => Stop NotJson
  end.

Definition close (t : token) (stack : list frame) : step :=
  match t, stack with
  | TRBrack, FArr acc :: up => push_value (JArr (rev acc)) up
  | TRBrace, FObj acc None :: up => push_value (JObj acc) up
  | _, _ => Stop NotJson
  end.

Definition pstep (lim : limits) (st : pstate) (t : token) : step :=
  let '(e, stack) := st in
  match e with
  | EValue => start_value lim t stack
  | EValueOrClose =>
      match t with
      | TRBrack => close t stack
      | _ => start_value lim t stack
      end
  | EKeyOrClose =>
      match t with
      | TRBrace => close t stack
      | _ => start_key t stack
      end
  | EKey => start_key t stack
  | EColon =>
      match t with
      | TColon => Next (EValue, stack)
      | _ => Stop NotJson
      end
  | ECommaOrClose =>
      match t, stack with
      | TComma, FArr _ :: _ => Next (EValue, stack)
      | TComma, FObj _ None :: _ => Next (EKey, stack)
      | _, _ => close t stack
      end
  | EDone _ => Stop NotJson
  end.

(** The tokens are taken in order, so the decoder raises for the first
    thing that is wrong in the text. *)
Fixpoint parse (lim : limits) (st : pstate) (ts : list token) : decoding :=
  match ts with
  | [] =>
      match st with
      | (EDone v, []) => Decoded v
      | _ => Refused NotJson
      end
  | t :: ts' =>
      match pstep lim st t with
      | Next st' => parse lim st' ts'
      | Stop f => Refused f
      end
  end.

(** [json.loads(text)] under the limits [lim]: the decoded value, or the
    way Python raises. *)
Definition json_loads (lim : limits) (text : pystr) : decoding :=
  parse lim (EValue, []) (lex LIdle text).

End Json.
Import Json.

(** ** The completion service *)

Module Service.

(** The two models of the source. *)
Inductive model : Type := MODEL | MODEL_MINI.

(** [TOOLS = [{'type': 'web_search'}]] *)
Inductive tool : Type := web_search_tool.
Definition TOOLS : list tool := [web_search_tool].

(** The [input] of a request: one of the six prompts of the source, with
    the values it interpolates. *)
Inductive prompt : Type :=
| prompt_to_clarify (topic : pystr)
| prompt_goals (answers questions : list pystr) (topic : pystr)
| prompt_search (q : json)
| prompt_review (goal : json) (collected : list json)
| prompt_report (goal : json) (collected : list json)
| prompt_more_searches (collected : list json) (goal : json).

(** The keyword arguments of [client.responses.create]; every call passes
    [instructions=DEVELOPER_MESSAGE]. *)
Record request : Type := {
  req_model : model;
  req_input : prompt;
  req_previous_response_id : option pystr;
  req_tools : list tool
}.

(** A content block of a message and its [text]. *)
Record content_block : Type := { text : pystr }.

(** An output item: its [id], and its [content] when it is a message
    (a tool-call item has none). *)
Record output_item : Type := {
  item_id : pystr;
  content : option (list content_block)
}.

(** A response: its [id] and its [output] items. *)
Record response : Type := {
  response_id : pystr;
  output : list output_item
}.

(** What one call to the service yields: a response or a raised error. *)
Inductive reply : Type :=
| Replies (r : response)
| Fails.

End Service.
Import Service.

(** ** One run of the script *)

(** Exceptions raised inside a run. *)
Inductive exn : Type :=
| APIError | IndexError | AttributeError | KeyError | TypeError
| JSONDecodeError | ValueError | RecursionError.

(** What ends a run early: an exception, [st.stop()] or [st.rerun()]. *)
Inductive signal : Type :=
| Exception (e : exn)
| StopScript
| RerunScript.

Inductive outcome (A : Type) : Type :=
| Ret (a : A)
| Abort (s : signal).
Arguments Ret {A} a.
Arguments Abort {A} s.

(** What the script puts on the page, call by call. *)
Inductive ui : Type :=
| PageConfig | Title | Intro
| ErrorNoApiKey
| TopicInput
| InfoEnterTopic
| SpinnerQuestions | SpinnerPlan | SpinnerSearching (q : json)
| SpinnerEvaluating | SpinnerReport | SpinnerNewQueries
| SubheaderAnswers
| AnswerInput (i : nat) (question : pystr)
| InfoAnswerAll
| Rule
| SubheaderGoal
| InfoGoal (goal : json)
| SubheaderQueries
| WriteQuery (i : nat) (query : json)
| StartButton
| SubheaderIteration (n : Z)
| ProgressBar
| Progress (done total : nat)
| ExpanderResults (q : json)
| TextAreaOutput (preview : pystr)
| SubheaderEvaluating
| SuccessSatisfied
| SubheaderFinalReport
| MarkdownReport (final_report : pystr)
| DownloadButton (data file_name : pystr)
| NewResearchButton
| WarningMoreNeeded
| InfoNewQueries
| ErrorNotAList
| ErrorNotJson
| WarningLimit
| SubheaderSummary
| InfoConducted (searches : nat) (iterations : Z)
| ExpanderAll
| MarkdownResult (i : nat) (query : json)
| TextAreaResult (i : nat) (preview : pystr).

(** [st.session_state]: the keys the script writes, each present or not. *)
Record session_state : Type := {
  clarify_data : option (list pystr * pystr);
  last_topic : option pystr;
  goal_plan : option json;
  goal_queries_id : option pystr;
  last_answers : option (list pystr);
  research_started : option bool;
  collected : option (list json);
  current_queries : option (list json);
  iteration_count : option Z
}.

(** A fresh session, and the state after every key is deleted. *)
Definition empty_session : session_state :=
  {| clarify_data := None; last_topic := None; goal_plan := None;
     goal_queries_id := None; last_answers := None;
     research_started := None; collected := None;
     current_queries := None; iteration_count := None |}.

(** What the user and the environment supply to one run. *)
Record inputs : Type := {
  api_key : option pystr;
  topic_text : pystr;
  answer_text : nat -> pystr;
  start_clicked : bool;
  new_clicked : bool
}.

(** The world of a run: the session, the replies the service will give,
    the requests made so far and the page, oldest first, and the limits of
    the interpreter the script runs in. *)
Record world : Type := {
  session : session_state;
  script : list reply;
  calls : list request;
  screen : list ui;
  interpreter : limits
}.

Definition M (A : Type) : Type := world -> outcome A * world.

Definition ret {A} (a : A) : M A := fun w => (Ret a, w).

Definition bind {A B} (m : M A) (k : A -> M B) : M B :=
  fun w =>
    match m w with
    | (Ret a, w') => k a w'
    | (Abort s, w') => (Abort s, w')
    end.

Definition raise {A} (e : exn) : M A := fun w => (Abort (Exception e), w).
Definition stop {A} : M A := fun w => (Abort StopScript, w).
Definition rerun {A} : M A := fun w => (Abort RerunScript, w).

(** [try: m except JSONDecodeError: h] *)
Definition except_JSONDecodeError {A} (m h : M A) : M A :=
  fun w =>
    match m w with
    | (Abort (Exception JSONDecodeError), w') => h w'
    | r => r
    end.

Declare Scope run_scope.
Delimit Scope run_scope with run.
Notation "x <- m ;; k" := (bind m (fun x => k))
  (at level 61, m at next level, right associativity) : run_scope.
Notation "' p <- m ;; k" := (bind m (fun x => let p := x in k))
  (at level 61, p pattern, m at next level, right associativity) : run_scope.
Notation "m ;; k" := (bind m (fun _ => k))
  (at level 61, right associativity) : run_scope.
Open Scope run_scope.

Definition get_session : M session_state := fun w => (Ret (session w), w).

Definition modify_session (f : session_state -> session_state) : M unit :=
  fun w =>
    (Ret tt, {| session := f (session w); script := script w;
                calls := calls w; screen := screen w;
                interpreter := interpreter w |}).

(** A Streamlit call that renders [u]. *)
Definition show (u : ui) : M unit :=
  fun w =>
    (Ret tt, {| session := session w; script := script w;
                calls := calls w; screen := screen w ++ [u];
                interpreter := interpreter w |}).

(** [client.responses.create(...)]: the request goes out and the next
    reply of the service comes back. *)
Definition create (rq : request) : M response :=
  fun w =>
    match script w with
    | Replies r :: rest =>
        (Ret r, {| session := session w; script := rest;
                   calls := calls w ++ [rq]; screen := screen w;
                   interpreter := interpreter w |})
    | Fails :: rest =>
        (Abort (Exception APIError),
         {| session := session w; script := rest;
            calls := calls w ++ [rq]; screen := screen w;
            interpreter := interpreter w |})
    | [] =>
        (Abort (Exception APIError),
         {| session := session w; script := [];
            calls := calls w ++ [rq]; screen := screen w;
            interpreter := interpreter w |})
    end.

(** Writes to the session, key by key. *)
Definition set_clarify_data v (s : session_state) :=
  {| clarify_data := v; last_topic := last_topic s; goal_plan := goal_plan s;
     goal_queries_id := goal_queries_id s; last_answers := last_answers s;
     research_started := research_started s; collected := collected s;
     current_queries := current_queries s;
     iteration_count := iteration_count s |}.
Definition set_last_topic v (s : session_state) :=
  {| clarify_data := clarify_data s; last_topic := v; goal_plan := goal_plan s;
     goal_queries_id := goal_queries_id s; last_answers := last_answers s;
     research_started := research_started s; collected := collected s;
     current_queries := current_queries s;
     iteration_count := iteration_count s |}.
Definition set_goal_plan v (s : session_state) :=
  {| clarify_data := clarify_data s; last_topic := last_topic s; goal_plan := v;
     goal_queries_id := goal_queries_id s; last_answers := last_answers s;
     research_started := research_started s; collected := collected s;
     current_queries := current_queries s;
     iteration_count := iteration_count s |}.
Definition set_goal_queries_id v (s : session_state) :=
  {| clarify_data := clarify_data s; last_topic := last_topic s;
     goal_plan := goal_plan s;
     goal_queries_id := v; last_answers := last_answers s;
     research_started := research_started s; collected := collected s;
     current_queries := current_queries s;
     iteration_count := iteration_count s |}.
Definition set_last_answers v (s : session_state) :=
  {| clarify_data := clarify_data s; last_topic := last_topic s;
     goal_plan := goal_plan s;
     goal_queries_id := goal_queries_id s; last_answers := v;
     research_started := research_started s; collected := collected s;
     current_queries := current_queries s;
     iteration_count := iteration_count s |}.
Definition set_research_started v (s : session_state) :=
  {| clarify_data := clarify_data s; last_topic := last_topic s;
     goal_plan := goal_plan s;
     goal_queries_id := goal_queries_id s; last_answers := last_answers s;
     research_started := v; collected := collected s;
     current_queries := current_queries s;
     iteration_count := iteration_count s |}.
Definition set_collected v (s : session_state) :=
  {| clarify_data := clarify_data s; last_topic := last_topic s;
     goal_plan := goal_plan s;
     goal_queries_id := goal_queries_id s; last_answers := last_answers s;
     research_started := research_started s; collected := v;
     current_queries := current_queries s;
     iteration_count := iteration_count s |}.
Definition set_current_queries v (s : session_state) :=
  {| clarify_data := clarify_data s; last_topic := last_topic s;
     goal_plan := goal_plan s;
     goal_queries_id := goal_queries_id s; last_answers := last_answers s;
     research_started := research_started s; collected := collected s;
     current_queries := v;
     iteration_count := iteration_count s |}.
Definition set_iteration_count v (s : session_state) :=
  {| clarify_data := clarify_data s; last_topic := last_topic s;
     goal_plan := goal_plan s;
     goal_queries_id := goal_queries_id s; last_answers := last_answers s;
     research_started := research_started s; collected := collected s;
     current_queries := current_queries s;
     iteration_count := v |}.

(** ** Python operations that can raise *)

(** [l[i]] on a list. *)
Definition index {A} (l : list A) (i : nat) : M A :=
  match nth_error l i with
  | Some x => ret x
  | None => raise IndexError
  end.

(** [item.content] *)
Definition get_content (item : output_item) : M (list content_block) :=
  match content item with
  | Some blocks => ret blocks
  | None => raise AttributeError
  end.

(** [v[k]] for a string key [k]. *)
Definition getitem (v : json) (k : pystr) : M json :=
  match v with
  | JObj kv =>
      match dict_get k kv with
      | Some x => ret x
      | None => raise KeyError
      end
  | _ => raise TypeError
  end.

(** The items a [for] loop sees: the items of a list, the characters of a
    string, the keys of a dict. *)
Definition py_iter (v : json) : M (list json) :=
  match v with
  | JArr l => ret l
  | JStr s => ret (map (fun c => JStr [c]) s)
  | JObj kv => ret (map JStr (dict_keys kv))
  | _ => raise TypeError
  end.

(** A value used as a string (sliced, measured and joined to one). *)
Definition as_str (v : json) : M pystr :=
  match v with
  | JStr s => ret s
  | _ => raise TypeError
  end.

(** The exception of each way [json.loads] raises. [JSONDecodeError] is a
    subclass of [ValueError], not the other way round. *)
Definition raised (f : failure) : exn :=
  match f with
  | NotJson => JSONDecodeError
  | TooManyDigits => ValueError
  | TooDeep => RecursionError
  end.

(** [json.loads(text)] *)
Definition loads (t : pystr) : M json :=
  fun w =>
    match json_loads (interpreter w) t with
    | Decoded v => (Ret v, w)
    | Refused f => (Abort (Exception (raised f)), w)
    end.


(** ** The functions of [app.py] *)

(** [resp.output[0].content[0].text] *)
Definition first_text (resp : response) : M pystr :=
  item <- index (output resp) 0 ;;
  blocks <- get_content item ;;
  block <- index blocks 0 ;;
  ret (text block).

Definition get_openai_client (inp : inputs) : M unit :=
  match api_key inp with
  | Some k => if truthy k then ret tt else (show ErrorNoApiKey ;; stop)
  | None => show ErrorNoApiKey ;; stop
  end.

(** Step 1 *)
Definition get_topic (inp : inputs) : M pystr :=
  show TopicInput ;;
  ret (strip (topic_text inp)).

(** The separator ["\n"]: the line feed. *)
Definition newline : pystr := [10%N].

(** Step 2 *)
Definition get_clarifying_questions (topic : pystr) : M (list pystr * pystr) :=
  clarify <- create {| req_model := MODEL_MINI;
                       req_input := prompt_to_clarify topic;
                       req_previous_response_id := None;
                       req_tools := [] |} ;;
  t <- first_text clarify ;;
  let questions := split newline t in
  let questions := map strip (filter (fun q => truthy (strip q)) questions) in
  ret (questions, response_id clarify).

(** Step 3 *)
Fixpoint ask_answers (inp : inputs) (i : nat) (questions : list pystr)
  : M (list pystr) :=
  match questions with
  | [] => ret []
  | question :: rest =>
      show (AnswerInput i question) ;;
      answers <- ask_answers inp (S i) rest ;;
      ret (answer_text inp i :: answers)
  end.

Definition get_answers (inp : inputs) (questions : list pystr) : M (list pystr) :=
  show SubheaderAnswers ;;
  ask_answers inp 0 questions.

(** Step 4 *)
Definition get_goal_and_queries (topic : pystr) (questions answers : list pystr)
    (clarify_id : pystr) : M (json * pystr) :=
  goal_and_queries <- create {| req_model := MODEL;
                                req_input := prompt_goals answers questions topic;
                                req_previous_response_id := Some clarify_id;
                                req_tools := [] |} ;;
  t <- first_text goal_and_queries ;;
  plan <- loads t ;;
  ret (plan, response_id goal_and_queries).

(** Step 5 *)
Definition run_search (q : json) : M json :=
  web_search <- create {| req_model := MODEL;
                          req_input := prompt_search q;
                          req_previous_response_id := None;
                          req_tools := TOOLS |} ;;
  item <- index (output web_search) 1 ;;
  let resp_id := item_id item in
  item <- index (output web_search) 1 ;;
  blocks <- get_content item ;;
  block <- index blocks 0 ;;
  ret (JObj [(lit "query", q);
             (lit "resp_id", JStr resp_id);
             (lit "research_output", JStr (text block))]).

(** Step 6 *)
Definition evaluate (goal : json) (collected : list json) : M bool :=
  review <- create {| req_model := MODEL;
                      req_input := prompt_review goal collected;
                      req_previous_response_id := None;
                      req_tools := [] |} ;;
  t <- first_text review ;;
  ret (str_in (lit "yes") (lower t)).

(** Step 7 *)
Definition synthesize (goal : json) (collected : list json) : M pystr :=
  report <- create {| req_model := MODEL;
                      req_input := prompt_report goal collected;
                      req_previous_response_id := None;
                      req_tools := [] |} ;;
  first_text report.

(** ** The driver *)

(** [st.session_state.get(key, default)] for the keys of the research loop;
    [get('research_started')] is read for its truth value. *)
Definition get_collected (s : session_state) : list json :=
  match collected s with Some l => l | None => [] end.

Definition get_current_queries (s : session_state) (queries : json) : json :=
  match current_queries s with Some l => JArr l | None => queries end.

Definition get_iteration_count (s : session_state) : Z :=
  match iteration_count s with Some n => n | None => 0%Z end.

Definition get_research_started (s : session_state) : bool :=
  match research_started s with Some b => b | None => false end.

(** Safety limit for iterations *)
Definition max_iterations : Z := 5.

(** [f"research_report_{topic.replace(' ', '_')}.md"] *)
Definition file_name (topic : pystr) : pystr :=
  lit "research_report_" ++ replace (lit " ") (lit "_") topic ++ lit ".md".

(** [any(item['query'] == q for item in collected)] *)
Fixpoint already_searched (q : json) (items : list json) : M bool :=
  match items with
  | [] => ret false
  | item :: rest =>
      v <- getitem item (lit "query") ;;
      if py_eq v q then ret true else already_searched q rest
  end.

(** The [for] loop over the current queries. [collected] is the list the
    loop appends to; when the session already held a list under
    ['collected'] it is that very object ([aliased]), so every append shows
    in the session at once, also when a later search raises. *)
Fixpoint run_searches (aliased : bool) (total i : nat) (queries : list json)
    (collected : list json) : M (list json) :=
  match queries with
  | [] => ret collected
  | q :: rest =>
      seen <- already_searched q collected ;;
      if negb seen then
        show (Progress (i + 1) total) ;;
        show (SpinnerSearching q) ;;
        result <- run_search q ;;
        let collected := collected ++ [result] in
        (if aliased then modify_session (set_collected (Some collected))
         else ret tt) ;;
        show (ExpanderResults q) ;;
        research_output <- getitem result (lit "research_output") ;;
        research_output <- as_str research_output ;;
        show (TextAreaOutput (preview 300 research_output)) ;;
        run_searches aliased total (i + 1) rest collected
      else run_searches aliased total (i + 1) rest collected
  end.

(** One batch of searches and the update of the session after it. *)
Definition search_phase (aliased : bool) (collected : list json)
    (current_queries : json) (iteration_count : Z) : M (list json) :=
  show Rule ;;
  show (SubheaderIteration (iteration_count + 1)) ;;
  show ProgressBar ;;
  qs <- py_iter current_queries ;;
  collected <- run_searches aliased (List.length qs) 0 qs collected ;;
  modify_session (set_collected (Some collected)) ;;
  modify_session (set_iteration_count (Some (iteration_count + 1)%Z)) ;;
  ret collected.

(** The goal is satisfied: report, download, reset. *)
Definition finish (inp : inputs) (topic : pystr) (goal : json)
    (collected : list json) : M unit :=
  show SuccessSatisfied ;;
  show SpinnerReport ;;
  final_report <- synthesize goal collected ;;
  show Rule ;;
  show SubheaderFinalReport ;;
  show (MarkdownReport final_report) ;;
  show (DownloadButton final_report (file_name topic)) ;;
  modify_session (set_research_started (Some false)) ;;
  modify_session (set_collected (Some [])) ;;
  modify_session (set_iteration_count (Some 0%Z)) ;;
  show NewResearchButton ;;
  if new_clicked inp
  then modify_session (fun _ => empty_session) ;; rerun
  else ret tt.

(** The goal is not satisfied: ask for other searches. *)
Definition replan (goal : json) (collected : list json)
    (goal_queries_id : pystr) : M unit :=
  show WarningMoreNeeded ;;
  show SpinnerNewQueries ;;
  more_searches <- create {| req_model := MODEL;
                             req_input := prompt_more_searches collected goal;
                             req_previous_response_id := Some goal_queries_id;
                             req_tools := [] |} ;;
  except_JSONDecodeError
    (new_queries_text <- first_text more_searches ;;
     new_queries <- loads new_queries_text ;;
     match new_queries with
     | JArr l =>
         modify_session (set_current_queries (Some l)) ;;
         show InfoNewQueries
     | _ => show ErrorNotAList
     end)
    (show ErrorNotJson).

(** The results shown once the limit is reached. *)
Fixpoint show_results (i : nat) (collected : list json) : M unit :=
  match collected with
  | [] => ret tt
  | result :: rest =>
      query <- getitem result (lit "query") ;;
      show (MarkdownResult i query) ;;
      research_output <- getitem result (lit "research_output") ;;
      research_output <- as_str research_output ;;
      show (TextAreaResult i (preview 500 research_output)) ;;
      show Rule ;;
      show_results (S i) rest
  end.

(** Step 5: the research loop, one pass per run. *)
Definition research (inp : inputs) (topic : pystr) (goal queries : json)
    (goal_queries_id : pystr) : M unit :=
  modify_session (set_research_started (Some true)) ;;
  s <- get_session ;;
  let aliased := match collected s with Some _ => true | None => false end in
  let collected := get_collected s in
  let current_queries := get_current_queries s queries in
  let iteration_count := get_iteration_count s in
  if (iteration_count <? max_iterations)%Z then
    collected <- search_phase aliased collected current_queries iteration_count ;;
    show SubheaderEvaluating ;;
    show SpinnerEvaluating ;;
    goal_satisfied <- evaluate goal collected ;;
    if goal_satisfied
    then finish inp topic goal collected
    else replan goal collected goal_queries_id
  else
    show WarningLimit ;;
    match collected with
    | [] => ret tt
    | _ :: _ =>
        show SubheaderSummary ;;
        show (InfoConducted (List.length collected) iteration_count) ;;
        show ExpanderAll ;;
        show_results 1 collected
    end.

Fixpoint write_queries (i : nat) (queries : list json) : M unit :=
  match queries with
  | [] => ret tt
  | query :: rest => show (WriteQuery i query) ;; write_queries (S i) rest
  end.

Definition opt_str_eqb (a : option pystr) (b : pystr) : bool :=
  match a with Some x => str_eqb x b | None => false end.

Definition opt_strs_eqb (a : option (list pystr)) (b : list pystr) : bool :=
  match a with Some x => strs_eqb x b | None => false end.

(** Step 2 when the topic is new: ask, and keep the questions. *)
Definition new_questions (topic : pystr) : M (list pystr * pystr) :=
  show SpinnerQuestions ;;
  cd <- get_clarifying_questions topic ;;
  modify_session (set_clarify_data (Some cd)) ;;
  modify_session (set_last_topic (Some topic)) ;;
  ret cd.

(** Step 4 when the answers are new: plan, and keep the plan. *)
Definition new_plan (topic : pystr) (questions answers : list pystr)
    (clarify_id : pystr) : M (json * pystr) :=
  show SpinnerPlan ;;
  '(plan, goal_queries_id) <-
    get_goal_and_queries topic questions answers clarify_id ;;
  modify_session (set_goal_plan (Some plan)) ;;
  modify_session (set_goal_queries_id (Some goal_queries_id)) ;;
  modify_session (set_last_answers (Some answers)) ;;
  ret (plan, goal_queries_id).

(** One execution of the script. *)
Definition main (inp : inputs) : M unit :=
  show PageConfig ;;
  show Title ;;
  show Intro ;;
  get_openai_client inp ;;
  topic <- get_topic inp ;;
  if negb (truthy topic) then show InfoEnterTopic
  else
    s <- get_session ;;
    '(questions, clarify_id) <-
      match clarify_data s with
      | Some cd =>
          if opt_str_eqb (last_topic s) topic then ret cd
          else new_questions topic
      | None => new_questions topic
      end ;;
    answers <- get_answers inp questions ;;
    if negb (forallb (fun answer => truthy (strip answer)) answers)
    then show InfoAnswerAll
    else
      s <- get_session ;;
      '(plan, goal_queries_id) <-
        match goal_plan s with
        | Some plan =>
            if opt_strs_eqb (last_answers s) answers then
              match goal_queries_id s with
              | Some id => ret (plan, id)
              | None => raise KeyError
              end
            else new_plan topic questions answers clarify_id
        | None => new_plan topic questions answers clarify_id
        end ;;
      goal <- getitem plan (lit "goal") ;;
      queries <- getitem plan (lit "queries") ;;
      show Rule ;;
      show SubheaderGoal ;;
      show (InfoGoal goal) ;;
      show SubheaderQueries ;;
      qs <- py_iter queries ;;
      write_queries 1 qs ;;
      show StartButton ;;
      s <- get_session ;;
      if start_clicked inp || get_research_started s
      then research inp topic goal queries goal_queries_id
      else ret tt.

(** A session: the script runs once per interaction, and the session and
    the service carry over from run to run however a run ends; the page
    is drawn anew. *)
Definition rerun_script (w : world) (inp : inputs) : world :=
  let w' := snd (main inp {| session := session w; script := script w;
                             calls := calls w; screen := [];
                             interpreter := interpreter w |}) in
  w'.

Definition run_session (w : world) (runs : list inputs) : world :=
  fold_left rerun_script runs w.

(** The limits of CPython 3.11 as it comes: 4300 digits, and the 995
    levels that the recursion limit of 1000 leaves a script at its top
    level. Inside the calls of a framework fewer are left. *)
Definition default_limits : limits :=
  {| max_str_digits := 4300; max_depth := 995 |}.

(** The first run of a session against a service that will give [replies]. *)
Definition new_world (replies : list reply) : world :=
  {| session := empty_session; script := replies; calls := []; screen := [];
     interpreter := default_limits |}.

(** * The vocabulary of the properties *)

(** ** Worlds *)

(** The world after [us] is drawn. *)
Definition drawn (us : list ui) (w : world) : world :=
  {| session := session w; script := script w; calls := calls w;
     screen := screen w ++ us;
     interpreter := interpreter w |}.

(** The world after the session is rewritten by [f]. *)
Definition with_session (f : session_state -> session_state) (w : world)
  : world :=
  {| session := f (session w); script := script w; calls := calls w;
     screen := screen w;
     interpreter := interpreter w |}.

(** The world after one call to the service: the request is on record and
    the reply is used up. *)
Definition after_call (rq : request) (w : world) : world :=
  {| session := session w; script := tl (script w);
     calls := calls w ++ [rq]; screen := screen w;
     interpreter := interpreter w |}.

(** ** The requests of the six call sites *)

Definition clarify_request (topic : pystr) : request :=
  {| req_model := MODEL_MINI; req_input := prompt_to_clarify topic;
     req_previous_response_id := None; req_tools := [] |}.

Definition goals_request (topic : pystr) (questions answers : list pystr)
    (clarify_id : pystr) : request :=
  {| req_model := MODEL; req_input := prompt_goals answers questions topic;
     req_previous_response_id := Some clarify_id; req_tools := [] |}.

Definition search_request (q : json) : request :=
  {| req_model := MODEL; req_input := prompt_search q;
     req_previous_response_id := None; req_tools := TOOLS |}.

Definition review_request (goal : json) (collected : list json) : request :=
  {| req_model := MODEL; req_input := prompt_review goal collected;
     req_previous_response_id := None; req_tools := [] |}.

Definition report_request (goal : json) (collected : list json) : request :=
  {| req_model := MODEL; req_input := prompt_report goal collected;
     req_previous_response_id := None; req_tools := [] |}.

Definition more_searches_request (goal : json) (collected : list json)
    (goal_queries_id : pystr) : request :=
  {| req_model := MODEL; req_input := prompt_more_searches collected goal;
     req_previous_response_id := Some goal_queries_id; req_tools := [] |}.

(** A request for a web search. *)
Definition is_search (rq : request) : bool :=
  match req_input rq with
  | prompt_search _ => true
  | _ => false
  end.

(** ** Replies *)

(** [resp.output[0].content[0].text], or the exception it raises. *)
Definition first_text_value (r : response) : outcome pystr :=
  match output r with
  | item :: _ =>
      match content item with
      | Some (block :: _) => Ret (text block)
      | Some [] => Abort (Exception IndexError)
      | None => Abort (Exception AttributeError)
      end
  | [] => Abort (Exception IndexError)
  end.

(** A response whose second output item is missing, or is a message with
    no content block. *)
Definition second_item_faulty (r : response) : Prop :=
  List.length (output r) < 2 \/
  exists item, nth_error (output r) 1 = Some item /\ content item = Some [].

(** ** Collected results *)

(** The dict [run_search] builds. *)
Definition result_of (q : json) (resp_id research_output : pystr) : json :=
  JObj [(lit "query", q);
        (lit "resp_id", JStr resp_id);
        (lit "research_output", JStr research_output)].

(** An item that [run_search] built. *)
Definition is_result (item : json) : Prop :=
  exists q resp_id research_output, item = result_of q resp_id research_output.

(** [item['query']], when the item has the key. *)
Definition query_of (item : json) : option json :=
  match item with
  | JObj kv => dict_get (lit "query") kv
  | _ => None
  end.

(** The query texts of a collected list, in order: one for every item
    whose query is a string. *)
Definition query_texts (collected : list json) : list pystr :=
  flat_map (fun item => match query_of item with
                        | Some (JStr s) => [s]
                        | _ => []
                        end) collected.

(** The test the loop makes before a search, on a list of results. *)
Definition seen_in (q : json) (collected : list json) : bool :=
  existsb (fun item => match query_of item with
                       | Some v => py_eq v q
                       | None => false
                       end) collected.

(** A collected list the search loop can hold: results only, no query text
    twice. *)
Definition deduplicated (collected : list json) : Prop :=
  Forall is_result collected /\ NoDup (query_texts collected).

(** ** Invariants *)

(** The invariant of the session across runs. *)
Definition session_ok (s : session_state) : Prop :=
  (0 <= get_iteration_count s <= max_iterations)%Z /\
  deduplicated (get_collected s).

(** An invariant of the session, as an invariant of the world. *)
Definition on_session (J : session_state -> Prop) : world -> Prop :=
  fun w => J (session w).

Definition world_ok : world -> Prop := on_session session_ok.

(** The session at the limit, with the search requests made so far. *)
Definition at_limit (searches : list request) (w : world) : Prop :=
  get_iteration_count (session w) = max_iterations /\
  session_ok (session w) /\
  filter is_search (calls w) = searches.

(** [m] keeps the invariant [I] of the world however it ends, and what it
    returns satisfies [Q]. *)
Definition preserves {A} (I : world -> Prop) (m : M A) (Q : A -> Prop) : Prop :=
  forall w, I w ->
    I (snd (m w)) /\ forall a, fst (m w) = Ret a -> Q a.

(** ** Pages *)

(** The world in which the searches of a pass start. *)
Definition pass_start (w : world) : world :=
  drawn [Rule; SubheaderIteration (get_iteration_count (session w) + 1);
         ProgressBar]
    (with_session (set_research_started (Some true)) w).

(** The world in which the reply to the re-planning request is read. *)
Definition replan_asked (goal : json) (collected : list json)
    (goal_queries_id : pystr) (w : world) : world :=
  after_call (more_searches_request goal collected goal_queries_id)
    (drawn [WarningMoreNeeded; SpinnerNewQueries] w).

(** The answer fields drawn for the questions, numbered from [i]. *)
Fixpoint answer_inputs (i : nat) (questions : list pystr) : list ui :=
  match questions with
  | [] => []
  | question :: rest => AnswerInput i question :: answer_inputs (S i) rest
  end.


(** The keys the reset writes. *)
Definition reset_research (s : session_state) : session_state :=
  set_iteration_count (Some 0%Z)
    (set_collected (Some []) (set_research_started (Some false) s)).

(** What the page shows of one collected result. *)
Definition result_lines (i : nat) (item : json) : list ui :=
  match item with
  | JObj kv =>
      match dict_get (lit "query") kv, dict_get (lit "research_output") kv with
      | Some query, Some (JStr research_output) =>
          [MarkdownResult i query;
           TextAreaResult i (preview 500 research_output); Rule]
      | _, _ => []
      end
  | _ => []
  end.

(** What the page shows of the collected results, numbered from [i]. *)
Fixpoint results_page (i : nat) (collected : list json) : list ui :=
  match collected with
  | [] => []
  | item :: rest => result_lines i item ++ results_page (S i) rest
  end.

(** The page at the limit: the warning and, when something was collected,
    the summary of all of it. *)
Definition limit_page (collected : list json) (iteration_count : Z) : list ui :=
  WarningLimit ::
  match collected with
  | [] => []
  | _ :: _ =>
      [SubheaderSummary; InfoConducted (List.length collected) iteration_count;
       ExpanderAll] ++ results_page 1 collected
  end.

(** ** Canned replies and a scripted session *)

(** A JSON text, written with ['] where the text has the double quote. *)
Definition json_text (s : string) : pystr :=
  map (fun c => if (c =? 39)%N then 34%N else c) (lit s).

(** The canned plan reply. *)
Definition canned_plan : pystr :=
  json_text "{'goal':'G','queries':['a','b','c','d','e']}".

(** The queries of the canned plan. *)
Definition canned_queries : list json :=
  [JStr (lit "a"); JStr (lit "b"); JStr (lit "c"); JStr (lit "d");
   JStr (lit "e")].

(** A reply that is one message with one text block. *)
Definition message_reply (id : string) (t : pystr) : reply :=
  Replies {| response_id := lit id;
             output := [{| item_id := lit "msg_1";
                           content := Some [{| text := t |}] |}] |}.

(** A reply to a search: the tool call, then the message. *)
Definition search_reply (id : string) (t : string) : reply :=
  Replies {| response_id := lit id;
             output := [{| item_id := lit "ws_1"; content := None |};
                        {| item_id := lit "msg_2";
                           content := Some [{| text := lit t |}] |}] |}.

(** A reply to a search that holds the tool call only. *)
Definition short_reply (id : string) : reply :=
  Replies {| response_id := lit id;
             output := [{| item_id := lit "ws_1"; content := None |}] |}.

(** A user who has entered a topic and answered every question, and
    presses the start button. *)
Definition user : inputs :=
  {| api_key := Some (lit "sk-test");
     topic_text := lit " solar power ";
     answer_text := fun _ => lit "for a report";
     start_clicked := true;
     new_clicked := false |}.

(** A canned reply to the request for questions, line by line. *)
Definition five_questions : list pystr :=
  [lit "1. Why?"; lit "2. For whom?"; lit "3. How deep?"; lit "4. Which years?";
   lit "5. Which region?"].

(** A pass whose evaluation says no, followed by other searches: the
    searches of the pass, the review, the new queries. *)
Definition unsatisfied_pass (searches : list reply) (next : string)
  : list reply :=
  searches ++ [message_reply "review" (lit "No, insufficient.");
               message_reply "more" (json_text next)].

(** Questions, the canned plan, then five passes that never satisfy the
    goal; the second pass is asked for a query of the first again. *)
Definition five_passes : list reply :=
  [message_reply "clarify" (join newline five_questions);
   message_reply "plan" canned_plan]
  ++ unsatisfied_pass
       [search_reply "s1" "about a"; search_reply "s2" "about b";
        search_reply "s3" "about c"; search_reply "s4" "about d";
        search_reply "s5" "about e"] "['f', 'a']"
  ++ unsatisfied_pass [search_reply "s6" "about f"] "['g']"
  ++ unsatisfied_pass [search_reply "s7" "about g"] "['h']"
  ++ unsatisfied_pass [search_reply "s8" "about h"] "['i']"
  ++ unsatisfied_pass [search_reply "s9" "about i"] "['j']".



(** The user presses start five times. *)
Definition five_runs : list inputs := [user; user; user; user; user].

(** A service that answers one search, says yes, and writes the report. *)
Definition one_pass : world :=
  new_world [search_reply "s1" "about a";
             message_reply "review" (lit "Yes.");
             message_reply "report" (lit "REPORT")].

(** That world after the searches of the pass. *)
Definition one_pass_searched : world :=
  snd (search_phase false [] (JArr [JStr (lit "a")]) 0
         (with_session (set_research_started (Some true)) one_pass)).

(** And after the review. *)
Definition one_pass_reviewed : world :=
  snd (evaluate (JStr (lit "G"))
         [result_of (JStr (lit "a")) (lit "msg_2") (lit "about a")]
         (drawn [SubheaderEvaluating; SpinnerEvaluating] one_pass_searched)).

(** ** The steps of the driver *)

(** [if not api_key]: the key is missing or empty. *)
Definition key_missing (inp : inputs) : bool :=
  match api_key inp with
  | Some k => negb (truthy k)
  | None => true
  end.

(** The topic of a run. *)
Definition topic_of (inp : inputs) : pystr := strip (topic_text inp).

(** The answers of a run to [questions]. *)
Definition answers_of (inp : inputs) (questions : list pystr) : list pystr :=
  map (answer_text inp) (seq 0 (List.length questions)).

(** [all(answer.strip() for answer in answers)] *)
Definition all_answered (inp : inputs) (questions : list pystr) : bool :=
  forallb (fun answer => truthy (strip answer)) (answers_of inp questions).

(** The page down to the answer fields. *)
Definition page_to_answers (questions : list pystr) : list ui :=
  [PageConfig; Title; Intro; TopicInput; SubheaderAnswers]
  ++ answer_inputs 0 questions.

(** The queries as they are listed, numbered from [i]. *)
Fixpoint query_lines (i : nat) (queries : list json) : list ui :=
  match queries with
  | [] => []
  | query :: rest => WriteQuery i query :: query_lines (S i) rest
  end.

(** The goal, the queries and the start button. *)
Definition plan_page (goal : json) (queries : list json) : list ui :=
  [Rule; SubheaderGoal; InfoGoal goal; SubheaderQueries]
  ++ query_lines 1 queries ++ [StartButton].

(** Step 2 of [main]: the questions of the session, or new ones. *)
Definition questions_step (topic : pystr) (s : session_state)
  : M (list pystr * pystr) :=
  match clarify_data s with
  | Some cd =>
      if opt_str_eqb (last_topic s) topic then ret cd
      else new_questions topic
  | None => new_questions topic
  end.

(** Step 4 of [main]: the plan of the session, or a new one. *)
Definition plan_step (topic : pystr) (questions answers : list pystr)
    (clarify_id : pystr) (s : session_state) : M (json * pystr) :=
  match goal_plan s with
  | Some plan =>
      if opt_strs_eqb (last_answers s) answers then
        match goal_queries_id s with
        | Some id => ret (plan, id)
        | None => raise KeyError
        end
      else new_plan topic questions answers clarify_id
  | None => new_plan topic questions answers clarify_id
  end.

(** [main] from the plan on: the goal and the queries are read and shown,
    and the research loop is entered when it is started. *)
Definition main_from_plan (inp : inputs) (topic : pystr) (plan : json)
    (goal_queries_id : pystr) : M unit :=
  goal <- getitem plan (lit "goal") ;;
  queries <- getitem plan (lit "queries") ;;
  show Rule ;;
  show SubheaderGoal ;;
  show (InfoGoal goal) ;;
  show SubheaderQueries ;;
  qs <- py_iter queries ;;
  write_queries 1 qs ;;
  show StartButton ;;
  s <- get_session ;;
  if start_clicked inp || get_research_started s
  then research inp topic goal queries goal_queries_id
  else ret tt.

(** [main] from the answers on. *)
Definition main_from_answers (inp : inputs) (topic : pystr)
    (questions : list pystr) (clarify_id : pystr) : M unit :=
  answers <- get_answers inp questions ;;
  if negb (forallb (fun answer => truthy (strip answer)) answers)
  then show InfoAnswerAll
  else
    s <- get_session ;;
    '(plan, goal_queries_id) <-
      plan_step topic questions answers clarify_id s ;;
    main_from_plan inp topic plan goal_queries_id.

(** The items a [for] loop sees in [v], when [v] can be iterated. *)
Definition items_of (v : json) : option (list json) :=
  match v with
  | JArr l => Some l
  | JStr s => Some (map (fun c => JStr [c]) s)
  | JObj kv => Some (map JStr (dict_keys kv))
  | _ => None
  end.

(** [v[k]], or the exception it raises. *)
Definition getitem_value (v : json) (k : pystr) : outcome json :=
  match v with
  | JObj kv =>
      match dict_get k kv with
      | Some x => Ret x
      | None => Abort (Exception KeyError)
      end
  | _ => Abort (Exception TypeError)
  end.

(** A plan the driver can show: a dict with a goal and with queries that
    can be iterated. *)
Definition plan_shows (plan goal queries : json) (qs : list json) : Prop :=
  getitem_value plan (lit "goal") = Ret goal /\
  getitem_value plan (lit "queries") = Ret queries /\
  items_of queries = Some qs.

(** The questions read from the text of a reply. *)
Definition questions_of (t : pystr) : list pystr :=
  map strip (filter (fun q => truthy (strip q)) (split newline t)).

(** The session once the questions of [topic] are kept. *)
Definition keep_questions (topic : pystr) (questions : list pystr)
    (clarify_id : pystr) (s : session_state) : session_state :=
  set_last_topic (Some topic)
    (set_clarify_data (Some (questions, clarify_id)) s).

(** The session once the plan made from [answers] is kept. *)
Definition keep_plan (plan : json) (goal_queries_id : pystr)
    (answers : list pystr) (s : session_state) : session_state :=
  set_last_answers (Some answers)
    (set_goal_queries_id (Some goal_queries_id)
       (set_goal_plan (Some plan) s)).

(** The session holds the questions of [topic]. *)
Definition questions_cached (topic : pystr) (s : session_state) : bool :=
  match clarify_data s with
  | Some _ => opt_str_eqb (last_topic s) topic
  | None => false
  end.

(** The session holds a plan made from [answers]. *)
Definition plan_cached (answers : list pystr) (s : session_state) : bool :=
  match goal_plan s with
  | Some _ => opt_strs_eqb (last_answers s) answers
  | None => false
  end.

(** The inputs of a run, with the start button pressed or not. *)
Definition with_start (b : bool) (inp : inputs) : inputs :=
  {| api_key := api_key inp;
     topic_text := topic_text inp;
     answer_text := answer_text inp;
     start_clicked := b;
     new_clicked := new_clicked inp |}.

(** ** The search loop, query by query *)

(** The world after one search that gave a result: progress and spinner,
    the call, the write through the shared list, the expander. *)
Definition searched (aliased : bool) (total i : nat) (q : json)
    (collected : list json) (research_output : pystr) (w : world) : world :=
  drawn [ExpanderResults q; TextAreaOutput (preview 300 research_output)]
    ((if aliased then with_session (set_collected (Some collected))
      else fun w0 => w0)
       (after_call (search_request q)
          (drawn [Progress (i + 1) total; SpinnerSearching q] w))).

(** The queries of a collected list, in order. *)
Definition queries_of (collected : list json) : list json :=
  flat_map (fun item => match query_of item with
                        | Some v => [v]
                        | None => []
                        end) collected.

(** The queries the loop searches: those equal, by [==], neither to a query
    searched before nor to an earlier one of the batch. *)
Fixpoint fresh_queries (queries seen : list json) : list json :=
  match queries with
  | [] => []
  | q :: rest =>
      if existsb (fun v => py_eq v q) seen then fresh_queries rest seen
      else q :: fresh_queries rest (seen ++ [q])
  end.

(** What [run_search] makes of a reply, when the reply has the shape. *)
Definition search_result (q : json) (r : response) : option json :=
  match nth_error (output r) 1 with
  | Some item =>
      match content item with
      | Some (block :: _) => Some (result_of q (item_id item) (text block))
      | _ => None
      end
  | None => None
  end.

(** The results of the queries [qs] from the replies [rs], one for one. *)
Fixpoint search_results (qs : list json) (rs : list response)
  : option (list json) :=
  match qs, rs with
  | [], [] => Some []
  | q :: qs', r :: rs' =>
      match search_result q r, search_results qs' rs' with
      | Some result, Some results => Some (result :: results)
      | _, _ => None
      end
  | _, _ => None
  end.

(** The previews the loop puts in the text areas of [results]. *)
Definition previews_of (results : list json) : list pystr :=
  flat_map (fun item =>
              match item with
              | JObj kv =>
                  match dict_get (lit "research_output") kv with
                  | Some (JStr research_output) => [preview 300 research_output]
                  | _ => []
                  end
              | _ => []
              end) results.

(** The session after the loop appended [results]: the appends show in the
    session when the list is the one the session holds. *)
Definition appended (aliased : bool) (collected results : list json)
    (s : session_state) : session_state :=
  if aliased then
    match results with
    | [] => s
    | _ :: _ => set_collected (Some (collected ++ results)) s
    end
  else s.

(** What a run has drawn since the page was [page], all of it within [P]. *)
Definition drawn_within (P : ui -> Prop) (page : list ui) (w : world) : Prop :=
  exists us, screen w = page ++ us /\ Forall P us.

(** A progress value of a batch of [total] queries, between [lo] and
    [hi]. *)
Definition progress_within (lo hi total : nat) (u : ui) : Prop :=
  match u with
  | Progress done total' => total' = total /\ lo < done <= hi
  | _ => True
  end.

(** A value the progress bar accepts: a part of the whole, not nothing. *)
Definition in_range (u : ui) : Prop :=
  match u with
  | Progress done total => 0 < done <= total
  | _ => True
  end.

(** ** More canned sessions *)

(** The response of [message_reply]. *)
Definition message_response (id : string) (t : pystr) : response :=
  {| response_id := lit id;
     output := [{| item_id := lit "msg_1";
                   content := Some [{| text := t |}] |}] |}.

(** The response of [search_reply]. *)
Definition search_response (id : string) (t : string) : response :=
  {| response_id := lit id;
     output := [{| item_id := lit "ws_1"; content := None |};
                {| item_id := lit "msg_2";
                   content := Some [{| text := lit t |}] |}] |}.

(** The user before the start button is pressed. *)
Definition reader : inputs := with_start false user.

(** A user without a key, one who has entered blanks for a topic, and one
    who has left the third answer blank. *)
Definition keyless : inputs :=
  {| api_key := None; topic_text := lit "solar power";
     answer_text := fun _ => []; start_clicked := false;
     new_clicked := false |}.

Definition undecided : inputs :=
  {| api_key := Some (lit "sk-test"); topic_text := lit "   ";
     answer_text := fun _ => []; start_clicked := false;
     new_clicked := false |}.

Definition hesitant : inputs :=
  {| api_key := Some (lit "sk-test"); topic_text := lit " solar power ";
     answer_text := fun i => if Nat.eqb i 2 then lit "  "
                             else lit "for a report";
     start_clicked := true; new_clicked := false |}.

(** A user who presses the button for a new research. *)
Definition restarter : inputs :=
  {| api_key := Some (lit "sk-test"); topic_text := lit " solar power ";
     answer_text := fun _ => lit "for a report";
     start_clicked := false; new_clicked := true |}.

(** The answers of [user] to the five questions. *)
Definition five_answers : list pystr :=
  [lit "for a report"; lit "for a report"; lit "for a report";
   lit "for a report"; lit "for a report"].

(** The plan the canned reply decodes to, and one without a goal. *)
Definition decoded_plan : json :=
  JObj [(lit "goal", JStr (lit "G")); (lit "queries", JArr canned_queries)].

Definition goalless_plan : json := JObj [(lit "queries", JArr canned_queries)].

(** A world whose session is [s] and whose service will give [replies]. *)
Definition world_of (s : session_state) (replies : list reply) : world :=
  {| session := s; script := replies; calls := []; screen := [];
     interpreter := default_limits |}.

(** The session after the questions of the topic were asked, and after the
    plan was made from the answers. *)
Definition asked : session_state :=
  keep_questions (lit "solar power") five_questions (lit "clarify")
    empty_session.

Definition planned : session_state :=
  keep_plan decoded_plan (lit "plan") five_answers asked.

(** The session of someone who planned under another topic. *)
Definition planned_elsewhere : session_state :=
  keep_plan decoded_plan (lit "plan") five_answers
    (keep_questions (lit "wind power") five_questions (lit "clarify-0")
       empty_session).

(** One result collected for the query ["a"]. *)
Definition result_a : json :=
  result_of (JStr (lit "a")) (lit "msg_2") (lit "about a").

Definition result_c : json :=
  result_of (JStr (lit "c")) (lit "msg_2") (lit "about c").

(** A service that answers one search and then fails. *)
Definition failing_review : world :=
  new_world [search_reply "s1" "about a"; Fails].

Definition failing_review_searched : world :=
  snd (search_phase false [] (JArr [JStr (lit "a")]) 0
         (with_session (set_research_started (Some true)) failing_review)).

Definition failing_review_ended : world :=
  snd (evaluate (JStr (lit "G")) [result_a]
         (drawn [SubheaderEvaluating; SpinnerEvaluating]
            failing_review_searched)).

(** A session that holds one result, and a service that answers one search
    and cuts the next one short. *)
Definition second_search_short : world :=
  world_of (set_collected (Some [result_a]) empty_session)
    [search_reply "s2" "about b"; short_reply "s3"].

(** * Properties *)

(** ** Strings *)

Lemma str_eqb_refl (a : pystr) : str_eqb a a = true.
Proof.
  induction a as [|x a IH]; simpl; [reflexivity|].
  now rewrite N.eqb_refl, IH.
Qed.

Lemma str_eqb_eq (a b : pystr) : str_eqb a b = true <-> a = b.
Proof.
  split.
  - revert b; induction a as [|x a IH]; intros [|y b]; simpl; try discriminate.
    + reflexivity.
    + intros H. apply andb_true_iff in H as [Hx Hr].
      apply N.eqb_eq in Hx. apply IH in Hr. now subst.
  - intros ->. apply str_eqb_refl.
Qed.

(** ** Reasoning about runs *)

Section Preserves.

Variable I : world -> Prop.

Lemma preserves_ret {A} (a : A) (Q : A -> Prop) :
  Q a -> preserves I (ret a) Q.
Proof.
  intros Ha w Hw; simpl; split; [assumption|].
  intros a' [= <-]; assumption.
Qed.

Lemma preserves_bind {A B} (m : M A) (k : A -> M B) (Q : A -> Prop)
    (Q' : B -> Prop) :
  preserves I m Q ->
  (forall a, Q a -> preserves I (k a) Q') ->
  preserves I (bind m k) Q'.
Proof.
  intros Hm Hk w Hw. unfold bind.
  destruct (Hm w Hw) as [Hi Hq].
  destruct (m w) as [[a|sg] w1]; simpl in *.
  - apply (Hk a (Hq a eq_refl) w1 Hi).
  - split; [assumption|discriminate].
Qed.

Lemma preserves_weaken {A} (m : M A) (Q Q' : A -> Prop) :
  preserves I m Q -> (forall a, Q a -> Q' a) -> preserves I m Q'.
Proof.
  intros Hm Hq w Hw. destruct (Hm w Hw) as [Hi Ha].
  split; [assumption|]. intros a E; apply Hq, Ha, E.
Qed.

Lemma preserves_raise {A} (e : exn) (Q : A -> Prop) : preserves I (raise e) Q.
Proof. intros w Hw; simpl; split; [assumption|discriminate]. Qed.

Lemma preserves_stop {A} (Q : A -> Prop) : preserves I stop Q.
Proof. intros w Hw; simpl; split; [assumption|discriminate]. Qed.

Lemma preserves_rerun {A} (Q : A -> Prop) : preserves I rerun Q.
Proof. intros w Hw; simpl; split; [assumption|discriminate]. Qed.

(** A computation that leaves the world as it is. *)
Lemma preserves_pure {A} (m : M A) :
  (forall w, snd (m w) = w) -> preserves I m (fun _ => True).
Proof. intros Hm w Hw. rewrite Hm. split; trivial. Qed.

Lemma preserves_except {A} (m h : M A) (Q : A -> Prop) :
  preserves I m Q -> preserves I h Q ->
  preserves I (except_JSONDecodeError m h) Q.
Proof.
  intros Hm Hh w Hw. unfold except_JSONDecodeError.
  destruct (Hm w Hw) as [Hi Hq].
  destruct (m w) as [[a|[[]| |]] w1]; simpl in *;
    try (split; [assumption|]; first [exact Hq | discriminate]).
  apply (Hh w1 Hi).
Qed.

End Preserves.

(** Invariants of the session alone are untouched by drawing and by the
    service. *)
Section SessionInvariant.

Variable J : session_state -> Prop.

Lemma preserves_show (u : ui) :
  preserves (on_session J) (show u) (fun _ => True).
Proof. intros w Hw; simpl; split; [exact Hw|trivial]. Qed.

Lemma preserves_create (rq : request) :
  preserves (on_session J) (create rq) (fun _ => True).
Proof.
  intros w Hw. unfold create.
  destruct (script w) as [|[r|] rest]; simpl; split; trivial.
Qed.

Lemma preserves_get_session : preserves (on_session J) get_session J.
Proof.
  intros w Hw; simpl; split; [exact Hw|].
  intros s [= <-]; exact Hw.
Qed.

Lemma preserves_modify (f : session_state -> session_state) :
  (forall s, J s -> J (f s)) ->
  preserves (on_session J) (modify_session f) (fun _ => True).
Proof. intros Hf w Hw; simpl; split; [apply Hf, Hw|trivial]. Qed.

End SessionInvariant.

(** The operations that only compute or raise. *)
Lemma index_pure {A} (l : list A) (i : nat) w : snd (index l i w) = w.
Proof. unfold index. destruct (nth_error l i); reflexivity. Qed.

Lemma get_content_pure item w : snd (get_content item w) = w.
Proof. unfold get_content. destruct (content item); reflexivity. Qed.

Lemma getitem_pure v k w : snd (getitem v k w) = w.
Proof.
  unfold getitem. destruct v; try reflexivity.
  destruct (dict_get k kv); reflexivity.
Qed.

Lemma py_iter_pure v w : snd (py_iter v w) = w.
Proof. destruct v; reflexivity. Qed.

Lemma as_str_pure v w : snd (as_str v w) = w.
Proof. destruct v; reflexivity. Qed.

Lemma loads_pure t w : snd (loads t w) = w.
Proof. unfold loads. destruct (json_loads (interpreter w) t); reflexivity. Qed.

Lemma first_text_pure resp w : snd (first_text resp w) = w.
Proof.
  unfold first_text, bind.
  destruct (index (output resp) 0 w) as [[item|sg] w1] eqn:E1;
    pose proof (index_pure (output resp) 0 w) as P1; rewrite E1 in P1;
    simpl in P1; subst w1; [|reflexivity].
  destruct (get_content item w) as [[blocks|sg] w2] eqn:E2;
    pose proof (get_content_pure item w) as P2; rewrite E2 in P2;
    simpl in P2; subst w2; [|reflexivity].
  destruct (index blocks 0 w) as [[block|sg] w3] eqn:E3;
    pose proof (index_pure blocks 0 w) as P3; rewrite E3 in P3;
    simpl in P3; subst w3; reflexivity.
Qed.

(** One step of a preservation proof, by the shape of the computation. *)
Ltac keep_step :=
  lazymatch goal with
  | |- preserves _ (bind _ _) _ => eapply preserves_bind; [|intros ? ?]
  | |- preserves _ (ret _) _ => apply preserves_ret
  | |- preserves _ (raise _) _ => apply preserves_raise
  | |- preserves _ stop _ => apply preserves_stop
  | |- preserves _ rerun _ => apply preserves_rerun
  | |- preserves _ (show _) _ => apply preserves_show
  | |- preserves _ (create _) _ => apply preserves_create
  | |- preserves _ get_session _ => apply preserves_get_session
  | |- preserves _ (index _ _) _ => apply preserves_pure, index_pure
  | |- preserves _ (get_content _) _ => apply preserves_pure, get_content_pure
  | |- preserves _ (getitem _ _) _ => apply preserves_pure, getitem_pure
  | |- preserves _ (py_iter _) _ => apply preserves_pure, py_iter_pure
  | |- preserves _ (as_str _) _ => apply preserves_pure, as_str_pure
  | |- preserves _ (loads _) _ => apply preserves_pure, loads_pure
  | |- preserves _ (first_text _) _ => apply preserves_pure, first_text_pure
  end.

Tactic Notation "keep_bind" ident(x) ident(H) :=
  eapply preserves_bind; [|intros x H].

Tactic Notation "keep_bind_any" ident(x) :=
  eapply preserves_bind with (Q := fun _ => True); [|intros x _].

(** A step that is drawn or computed and whose result is not named. *)
Ltac keep_then := eapply preserves_bind; [keep_step|intros _ _].

(** The steps of [main] before the research loop keep every invariant of
    the world that drawing, the requests other than searches and the
    writes of these steps keep. *)
Section BeforeResearch.

Variable I : world -> Prop.

Hypothesis I_show : forall u, preserves I (show u) (fun _ => True).
Hypothesis I_create :
  forall rq, is_search rq = false -> preserves I (create rq) (fun _ => True).
Hypothesis I_clarify_data :
  forall v, preserves I (modify_session (set_clarify_data v)) (fun _ => True).
Hypothesis I_last_topic :
  forall v, preserves I (modify_session (set_last_topic v)) (fun _ => True).
Hypothesis I_goal_plan :
  forall v, preserves I (modify_session (set_goal_plan v)) (fun _ => True).
Hypothesis I_goal_queries_id :
  forall v, preserves I (modify_session (set_goal_queries_id v)) (fun _ => True).
Hypothesis I_last_answers :
  forall v, preserves I (modify_session (set_last_answers v)) (fun _ => True).

Lemma get_session_keeps : preserves I get_session (fun _ => True).
Proof. intros w Hw; simpl; split; [exact Hw|trivial]. Qed.

Ltac early_step :=
  lazymatch goal with
  | |- preserves _ (show _) _ => apply I_show
  | |- preserves _ (create _) _ => apply I_create; reflexivity
  | |- preserves _ get_session _ => apply get_session_keeps
  | |- preserves _ (modify_session (set_clarify_data _)) _ =>
      apply I_clarify_data
  | |- preserves _ (modify_session (set_last_topic _)) _ => apply I_last_topic
  | |- preserves _ (modify_session (set_goal_plan _)) _ => apply I_goal_plan
  | |- preserves _ (modify_session (set_goal_queries_id _)) _ =>
      apply I_goal_queries_id
  | |- preserves _ (modify_session (set_last_answers _)) _ =>
      apply I_last_answers
  | |- _ => keep_step
  end.

Ltac early_then := eapply preserves_bind; [early_step|intros _ _].

Lemma get_openai_client_keeps inp :
  preserves I (get_openai_client inp) (fun _ => True).
Proof.
  unfold get_openai_client.
  destruct (api_key inp) as [k|]; [destruct (truthy k)|];
    repeat early_step; trivial.
Qed.

Lemma get_topic_keeps inp : preserves I (get_topic inp) (fun _ => True).
Proof. unfold get_topic. repeat early_step; trivial. Qed.

Lemma get_clarifying_questions_keeps topic :
  preserves I (get_clarifying_questions topic) (fun _ => True).
Proof. unfold get_clarifying_questions. repeat early_step; trivial. Qed.

Lemma new_questions_keeps topic :
  preserves I (new_questions topic) (fun _ => True).
Proof.
  unfold new_questions. early_then.
  keep_bind cd Hcd; [apply get_clarifying_questions_keeps|].
  do 2 early_then. early_step; trivial.
Qed.

Lemma ask_answers_keeps inp questions : forall i,
  preserves I (ask_answers inp i questions) (fun _ => True).
Proof.
  induction questions as [|question rest IH]; intros i; simpl.
  - early_step; trivial.
  - early_then. keep_bind answers Ha; [apply IH|]. early_step; trivial.
Qed.

Lemma get_goal_and_queries_keeps topic questions answers clarify_id :
  preserves I (get_goal_and_queries topic questions answers clarify_id)
    (fun _ => True).
Proof. unfold get_goal_and_queries. repeat early_step; trivial. Qed.

Lemma new_plan_keeps topic questions answers clarify_id :
  preserves I (new_plan topic questions answers clarify_id) (fun _ => True).
Proof.
  unfold new_plan. early_then.
  keep_bind pl Hpl; [apply get_goal_and_queries_keeps|].
  destruct pl as [plan id].
  do 3 early_then. early_step; trivial.
Qed.

Lemma write_queries_keeps queries : forall i,
  preserves I (write_queries i queries) (fun _ => True).
Proof.
  induction queries as [|q rest IH]; intros i; simpl.
  - early_step; trivial.
  - early_then. apply IH.
Qed.

(** [main] keeps the invariant as soon as the research loop does. *)
Lemma main_keeps inp :
  (forall topic goal queries goal_queries_id,
     preserves I (research inp topic goal queries goal_queries_id)
       (fun _ => True)) ->
  preserves I (main inp) (fun _ => True).
Proof.
  intros Hresearch. unfold main.
  do 3 early_then.
  keep_bind u Hu; [apply get_openai_client_keeps|].
  keep_bind topic Ht; [apply get_topic_keeps|].
  destruct (negb (truthy topic)); [early_step|].
  keep_bind s Hs; [early_step|].
  keep_bind_any cd.
  { destruct (clarify_data s) as [cd|].
    - destruct (opt_str_eqb (last_topic s) topic).
      + early_step. exact Logic.I.
      + apply new_questions_keeps.
    - apply new_questions_keeps. }
  destruct cd as [questions clarify_id].
  keep_bind answers Ha;
    [unfold get_answers; early_then; apply ask_answers_keeps|].
  destruct (negb (forallb _ answers)); [early_step|].
  keep_bind s' Hs'; [early_step|].
  keep_bind_any pl.
  { destruct (goal_plan s') as [plan|].
    - destruct (opt_strs_eqb (last_answers s') answers).
      + destruct (goal_queries_id s'); early_step. exact Logic.I.
      + apply new_plan_keeps.
    - apply new_plan_keeps. }
  destruct pl as [plan goal_queries_id].
  keep_bind goal Hg; [early_step|].
  keep_bind queries Hq; [early_step|].
  do 4 early_then.
  keep_bind qs Hqs; [early_step|].
  keep_bind u' Hu'; [apply write_queries_keeps|].
  early_then.
  keep_bind s'' Hs''; [early_step|].
  destruct (start_clicked inp || get_research_started s'').
  - apply Hresearch.
  - early_step; trivial.
Qed.

End BeforeResearch.

(** ** The search loop *)

(** What [run_search] does, by the reply the service gives. *)
Lemma run_search_unfold q w :
  run_search q w =
  (match script w with
   | Replies r :: _ =>
       match nth_error (output r) 1 with
       | Some item =>
           match content item with
           | Some (block :: _) => Ret (result_of q (item_id item) (text block))
           | Some [] => Abort (Exception IndexError)
           | None => Abort (Exception AttributeError)
           end
       | None => Abort (Exception IndexError)
       end
   | _ => Abort (Exception APIError)
   end, after_call (search_request q) w).
Proof.
  unfold run_search, bind, create, after_call, search_request.
  destruct (script w) as [|[r|] rest]; try reflexivity.
  unfold index; cbn -[nth_error].
  destruct (nth_error (output r) 1) as [item|]; cbn -[nth_error];
    [|reflexivity].
  unfold get_content. destruct (content item) as [[|block blocks]|]; reflexivity.
Qed.

Lemma already_searched_unfold q collected w :
  Forall is_result collected ->
  already_searched q collected w = (Ret (seen_in q collected), w).
Proof.
  induction 1 as [|item rest [q' [i [t ->]]] _ IH]; [reflexivity|].
  change (already_searched q (result_of q' i t :: rest) w)
    with (bind (getitem (result_of q' i t) (lit "query"))
            (fun v => if py_eq v q then ret true else already_searched q rest)
            w).
  unfold bind.
  change (getitem (result_of q' i t) (lit "query") w) with (Ret q', w).
  change (seen_in q (result_of q' i t :: rest))
    with (py_eq q' q || seen_in q rest).
  cbv beta iota. destruct (py_eq q' q); [reflexivity|].
  rewrite IH. reflexivity.
Qed.

Lemma py_eq_str (s t : pystr) : py_eq (JStr s) (JStr t) = str_eqb s t.
Proof. reflexivity. Qed.

(** A query text the test does not find is not among the texts of the
    list. *)
Lemma not_seen_not_in s collected :
  seen_in (JStr s) collected = false -> ~ In s (query_texts collected).
Proof.
  induction collected as [|item rest IH]; simpl; [tauto|].
  intros H. apply orb_false_iff in H as [Hi Hr].
  rewrite in_app_iff. intros [Hin|Hin]; [|exact (IH Hr Hin)].
  destruct (query_of item) as [[| | | |s'| |]|]; simpl in Hin; try tauto.
  destruct Hin as [->|[]]. rewrite py_eq_str, str_eqb_refl in Hi. discriminate.
Qed.

Lemma seen_in_text s collected :
  In s (query_texts collected) -> seen_in (JStr s) collected = true.
Proof.
  intros Hin. destruct (seen_in (JStr s) collected) eqn:E; [reflexivity|].
  exfalso. exact (not_seen_not_in _ _ E Hin).
Qed.

Lemma query_texts_app a b : query_texts (a ++ b) = query_texts a ++ query_texts b.
Proof. unfold query_texts. apply flat_map_app. Qed.

Lemma deduplicated_nil : deduplicated [].
Proof. split; constructor. Qed.

(** Appending the result of a query the test did not find keeps the list
    free of repeated texts. *)
Lemma deduplicated_snoc q i t collected :
  deduplicated collected ->
  seen_in q collected = false ->
  deduplicated (collected ++ [result_of q i t]).
Proof.
  intros [Hres Hnd] Hseen. split.
  - apply Forall_app; split; [assumption|].
    constructor; [|constructor]. now exists q, i, t.
  - rewrite query_texts_app. simpl. rewrite app_nil_r.
    destruct q; rewrite ?app_nil_r; try assumption.
    apply NoDup_app; repeat split; try assumption.
    + constructor; [simpl; tauto|constructor].
    + intros x Hx [<-|[]]. exact (not_seen_not_in _ _ Hseen Hx).
Qed.

Lemma session_ok_collected c s :
  session_ok s -> deduplicated c -> session_ok (set_collected (Some c) s).
Proof. intros [Hc _] Hd. split; assumption. Qed.

Lemma session_ok_count n s :
  session_ok s -> (0 <= n <= max_iterations)%Z ->
  session_ok (set_iteration_count (Some n) s).
Proof. intros [_ Hd] Hn. split; assumption. Qed.

Lemma session_ok_empty : session_ok empty_session.
Proof.
  split; [vm_compute; split; discriminate|apply deduplicated_nil].
Qed.

(** The search loop keeps an invariant of the session that every write of
    a deduplicated list keeps, and the list it hands back is the one it was
    given with results appended, no query text twice. *)
Section SearchLoop.

Variable J : session_state -> Prop.
Hypothesis J_collected :
  forall c s, J s -> deduplicated c -> J (set_collected (Some c) s).

Lemma run_searches_keeps aliased total queries : forall i collected,
  deduplicated collected ->
  preserves (on_session J) (run_searches aliased total i queries collected)
    (fun collected' =>
       deduplicated collected' /\ exists more, collected' = collected ++ more).
Proof.
  induction queries as [|q rest IH]; intros i collected Hd; simpl.
  - apply preserves_ret. split; [assumption|].
    exists []. now rewrite app_nil_r.
  - eapply preserves_bind with (Q := fun seen => seen = seen_in q collected).
    { intros w Hw. rewrite (already_searched_unfold q collected w (proj1 Hd)).
      split; [exact Hw|]. now intros a [= <-]. }
    intros seen ->.
    destruct (seen_in q collected) eqn:Hseen; cbv beta iota delta [negb];
      [apply IH; assumption|].
    do 2 keep_then.
    eapply preserves_bind
      with (Q := fun result => exists i t, result = result_of q i t).
    { intros w Hw. rewrite run_search_unfold. unfold fst, snd.
      split; [exact Hw|].
      intros a Ha.
      destruct (script w) as [|[r|] rest']; try discriminate.
      destruct (nth_error (output r) 1) as [item|]; try discriminate.
      destruct (content item) as [[|block blocks]|]; try discriminate.
      injection Ha as <-. eauto. }
    intros result [i' [t ->]].
    pose proof (@deduplicated_snoc q i' t collected Hd Hseen) as Hd'.
    keep_bind u Hu.
    { destruct aliased.
      - apply preserves_modify. intros s Hs.
        apply J_collected; assumption.
      - apply preserves_ret. exact Logic.I. }
    keep_then.
    keep_bind ro Hro; [keep_step|].
    keep_bind ro' Hro'; [keep_step|].
    keep_then.
    eapply preserves_weaken; [apply IH; assumption|].
    intros c [Hc [more ->]]. split; [assumption|].
    exists (result_of q i' t :: more). now rewrite <- app_assoc.
Qed.

End SearchLoop.

(** ** The invariant of a session *)

Lemma search_phase_keeps aliased collected current_queries iteration_count :
  deduplicated collected ->
  (0 <= iteration_count < max_iterations)%Z ->
  preserves world_ok
    (search_phase aliased collected current_queries iteration_count)
    deduplicated.
Proof.
  intros Hd Hn. unfold search_phase.
  do 3 keep_then.
  keep_bind qs Hqs; [keep_step|].
  keep_bind collected' Hd'.
  { apply run_searches_keeps; [|assumption].
    intros c s Hs Hc. apply session_ok_collected; assumption. }
  destruct Hd' as [Hd' _].
  keep_bind u Hu.
  { apply preserves_modify. intros s Hs.
    apply session_ok_collected; assumption. }
  keep_bind u' Hu'.
  { apply preserves_modify. intros s Hs.
    apply session_ok_count; [assumption|]. unfold max_iterations in *. lia. }
  apply preserves_ret; assumption.
Qed.

Lemma synthesize_keeps goal collected :
  preserves world_ok (synthesize goal collected) (fun _ => True).
Proof. unfold synthesize. keep_bind r Hr; keep_step. Qed.

Lemma evaluate_keeps goal collected :
  preserves world_ok (evaluate goal collected) (fun _ => True).
Proof.
  unfold evaluate. keep_bind r Hr; [keep_step|].
  keep_bind t Ht; [keep_step|]. keep_step; trivial.
Qed.

Lemma finish_keeps inp topic goal collected :
  preserves world_ok (finish inp topic goal collected) (fun _ => True).
Proof.
  unfold finish. do 2 keep_then.
  keep_bind final_report Hr; [apply synthesize_keeps|].
  do 4 keep_then.
  keep_bind u1 Hu1; [apply preserves_modify; intros s Hs; exact Hs|].
  keep_bind u2 Hu2.
  { apply preserves_modify. intros s Hs.
    apply session_ok_collected; [assumption|apply deduplicated_nil]. }
  keep_bind u3 Hu3.
  { apply preserves_modify. intros s Hs.
    apply session_ok_count; [assumption|]. unfold max_iterations. lia. }
  keep_then.
  destruct (new_clicked inp).
  - keep_bind u4 Hu4; [|keep_step].
    apply preserves_modify. intros s Hs. apply session_ok_empty.
  - keep_step; trivial.
Qed.

Lemma replan_keeps goal collected goal_queries_id :
  preserves world_ok (replan goal collected goal_queries_id) (fun _ => True).
Proof.
  unfold replan. do 2 keep_then.
  keep_bind more_searches Hm; [keep_step|].
  apply preserves_except; [|keep_step].
  keep_bind new_queries_text Ht; [keep_step|].
  keep_bind new_queries Hq; [keep_step|].
  destruct new_queries; try solve [keep_step].
  keep_bind u Hu; [|keep_step].
  apply preserves_modify. intros s Hs. exact Hs.
Qed.

Lemma show_results_keeps collected : forall i,
  preserves world_ok (show_results i collected) (fun _ => True).
Proof.
  induction collected as [|result rest IH]; intros i; simpl.
  - keep_step; trivial.
  - keep_bind query Hq; [keep_step|]. keep_then.
    keep_bind ro Hro; [keep_step|].
    keep_bind ro' Hro'; [keep_step|].
    do 2 keep_then. apply IH.
Qed.

Lemma research_keeps inp topic goal queries goal_queries_id :
  preserves world_ok (research inp topic goal queries goal_queries_id)
    (fun _ => True).
Proof.
  unfold research.
  keep_bind u Hu; [apply preserves_modify; intros s Hs; exact Hs|].
  keep_bind s Hs; [keep_step|].
  destruct Hs as [Hn Hd].
  destruct (get_iteration_count s <? max_iterations)%Z eqn:Hlt.
  - apply Z.ltb_lt in Hlt.
    keep_bind collected' Hd'; [apply search_phase_keeps; [assumption|lia]|].
    do 2 keep_then.
    keep_bind goal_satisfied Hg; [apply evaluate_keeps|].
    destruct goal_satisfied; [apply finish_keeps|apply replan_keeps].
  - keep_then.
    destruct (get_collected s) as [|r rest] eqn:Hc; [keep_step; trivial|].
    do 3 keep_then. apply show_results_keeps.
Qed.

Lemma main_ok inp : preserves world_ok (main inp) (fun _ => True).
Proof.
  apply main_keeps;
    try (intros v; apply preserves_modify; intros s Hs; exact Hs).
  - apply preserves_show.
  - intros rq _. apply preserves_create.
  - apply research_keeps.
Qed.

Lemma rerun_script_ok w inp : world_ok w -> world_ok (rerun_script w inp).
Proof.
  intros Hw. unfold rerun_script.
  apply (main_ok inp). exact Hw.
Qed.

Lemma run_session_ok runs : forall w,
  world_ok w -> world_ok (run_session w runs).
Proof.
  induction runs as [|inp runs IH]; intros w Hw; simpl; [assumption|].
  apply IH, rerun_script_ok, Hw.
Qed.

Lemma new_world_ok replies : world_ok (new_world replies).
Proof. apply session_ok_empty. Qed.

(** ** Equations of a run *)

Lemma bind_ret {A B} (m : M A) (k : A -> M B) w a w' :
  m w = (Ret a, w') -> bind m k w = k a w'.
Proof. intros E. unfold bind. now rewrite E. Qed.

Lemma bind_abort {A B} (m : M A) (k : A -> M B) w sg w' :
  m w = (Abort sg, w') -> bind m k w = (Abort sg, w').
Proof. intros E. unfold bind. now rewrite E. Qed.

Lemma show_then {B} (u : ui) (k : unit -> M B) w :
  bind (show u) k w = k tt (drawn [u] w).
Proof. reflexivity. Qed.

Lemma drawn_drawn us vs w : drawn vs (drawn us w) = drawn (us ++ vs) w.
Proof. unfold drawn; simpl. now rewrite app_assoc. Qed.

(** A fault of the first search of a pass ends the pass: nothing between
    [run_search] and the top of the script handles it. *)
Lemma run_searches_fault aliased total i q rest collected w sg w' :
  Forall is_result collected ->
  seen_in q collected = false ->
  run_search q (drawn [Progress (i + 1) total; SpinnerSearching q] w)
    = (Abort sg, w') ->
  run_searches aliased total i (q :: rest) collected w = (Abort sg, w').
Proof.
  intros Hres Hseen Hfault.
  change (run_searches aliased total i (q :: rest) collected w)
    with (bind (already_searched q collected)
            (fun seen =>
               if negb seen then
                 show (Progress (i + 1) total) ;;
                 show (SpinnerSearching q) ;;
                 result <- run_search q ;;
                 (if aliased
                  then modify_session
                         (set_collected (Some (collected ++ [result])))
                  else ret tt) ;;
                 show (ExpanderResults q) ;;
                 research_output <- getitem result (lit "research_output") ;;
                 research_output <- as_str research_output ;;
                 show (TextAreaOutput (preview 300 research_output)) ;;
                 run_searches aliased total (i + 1) rest (collected ++ [result])
               else run_searches aliased total (i + 1) rest collected) w).
  rewrite (bind_ret _ _ _ _ _ (already_searched_unfold q collected w Hres)).
  rewrite Hseen. cbv beta iota delta [negb].
  rewrite !show_then, drawn_drawn.
  apply bind_abort. exact Hfault.
Qed.

Lemma modify_then {B} f (k : unit -> M B) w :
  bind (modify_session f) k w = k tt (with_session f w).
Proof. reflexivity. Qed.

Lemma get_session_then {B} (k : session_state -> M B) w :
  bind get_session k w = k (session w) w.
Proof. reflexivity. Qed.

Lemma ret_then {A B} (a : A) (k : A -> M B) w : bind (ret a) k w = k a w.
Proof. reflexivity. Qed.

Lemma bind_assoc {A B C} (m : M A) (k : A -> M B) (h : B -> M C) w :
  bind (bind m k) h w = bind m (fun a => bind (k a) h) w.
Proof. unfold bind. destruct (m w) as [[a|sg] w1]; reflexivity. Qed.

Lemma research_search_fault inp topic goal queries goal_queries_id w q rest
    sg w' :
  (get_iteration_count (session w) <? max_iterations)%Z = true ->
  get_current_queries (session w) queries = JArr (q :: rest) ->
  Forall is_result (get_collected (session w)) ->
  seen_in q (get_collected (session w)) = false ->
  run_search q
    (drawn [Progress 1 (S (List.length rest)); SpinnerSearching q]
       (pass_start w)) = (Abort sg, w') ->
  research inp topic goal queries goal_queries_id w = (Abort sg, w').
Proof.
  intros Hlt Hq Hres Hseen Hfault.
  unfold research. rewrite modify_then, get_session_then.
  change (get_iteration_count (session (with_session _ w)))
    with (get_iteration_count (session w)).
  change (get_collected (session (with_session _ w)))
    with (get_collected (session w)).
  change (get_current_queries (session (with_session _ w)) queries)
    with (get_current_queries (session w) queries).
  rewrite Hlt, Hq.
  apply bind_abort.
  unfold search_phase. rewrite !show_then, !drawn_drawn.
  change (py_iter (JArr (q :: rest))) with (@ret (list json) (q :: rest)).
  rewrite ret_then.
  apply bind_abort.
  apply run_searches_fault; assumption.
Qed.

(** ** Search execution *)

Lemma faulty_run_search q w r rest :
  script w = Replies r :: rest ->
  second_item_faulty r ->
  run_search q w = (Abort (Exception IndexError), after_call (search_request q) w).
Proof.
  intros Hs Hf. rewrite run_search_unfold, Hs.
  destruct Hf as [Hlen|[item [Hit Hc]]].
  - assert (Hn : nth_error (output r) 1 = None)
      by (apply nth_error_None; lia).
    now rewrite Hn.
  - now rewrite Hit, Hc.
Qed.

(** C8. Search execution takes the result text from the first content
    block of the second output item of the response and the continuation
    token from the identifier of that same item, after one request with
    the web-search tool. A response with fewer than two output items, or
    whose second item has an empty content, raises [IndexError] after that
    single request; nothing retries or replaces the result, and the
    research pass that issued the search ends with the same exception. *)
Theorem search_takes_second_output_item
    (q : json) (w : world) (r : response) (rest : list reply) :
  script w = Replies r :: rest ->
  run_search q w =
    (match nth_error (output r) 1 with
     | Some item =>
         match content item with
         | Some (block :: _) =>
             Ret (JObj [(lit "query", q);
                        (lit "resp_id", JStr (item_id item));
                        (lit "research_output", JStr (text block))])
         | Some [] => Abort (Exception IndexError)
         | None => Abort (Exception AttributeError)
         end
     | None => Abort (Exception IndexError)
     end,
     {| session := session w; script := rest;
        calls := calls w ++ [search_request q]; screen := screen w;
        interpreter := interpreter w |})
  /\ (second_item_faulty r ->
      run_search q w =
        (Abort (Exception IndexError),
         {| session := session w; script := rest;
            calls := calls w ++ [search_request q]; screen := screen w;
            interpreter := interpreter w |}))
  /\ (forall inp topic goal queries goal_queries_id w0 more,
        second_item_faulty r ->
        (get_iteration_count (session w0) < max_iterations)%Z ->
        get_current_queries (session w0) queries = JArr (q :: more) ->
        Forall is_result (get_collected (session w0)) ->
        seen_in q (get_collected (session w0)) = false ->
        w = drawn [Progress 1 (S (List.length more)); SpinnerSearching q]
              (pass_start w0) ->
        research inp topic goal queries goal_queries_id w0 =
          (Abort (Exception IndexError),
           {| session := session w; script := rest;
              calls := calls w0 ++ [search_request q];
              screen := screen w;
              interpreter := interpreter w0 |})).
Proof.
  intros Hs. split; [|split].
  - rewrite run_search_unfold. unfold after_call. rewrite Hs. reflexivity.
  - intros Hf. rewrite (faulty_run_search q w r rest Hs Hf).
    unfold after_call. now rewrite Hs.
  - intros inp topic goal queries goal_queries_id w0 more Hf Hlt Hq Hres
      Hseen Hw.
    apply research_search_fault with (q := q) (rest := more); try assumption.
    + now apply Z.ltb_lt.
    + rewrite <- Hw. rewrite (faulty_run_search q w r rest Hs Hf).
      unfold after_call. rewrite Hs. subst w. reflexivity.
Qed.

(** C9. Whenever [run_search] returns, what it returns is a dict with
    exactly the keys ['query'], ['resp_id'] and ['research_output'], in
    that order, and its ['query'] is the argument [q] itself; and it does
    return whenever the response has a second output item with a content
    block. *)
Theorem run_search_returns_three_fields (q : json) (w : world) :
  (forall result w',
     run_search q w = (Ret result, w') ->
     exists kv,
       result = JObj kv /\
       dict_keys kv = [lit "query"; lit "resp_id"; lit "research_output"] /\
       dict_get (lit "query") kv = Some q /\
       getitem result (lit "query") w' = (Ret q, w')) /\
  (forall r rest item block blocks,
     script w = Replies r :: rest ->
     nth_error (output r) 1 = Some item ->
     content item = Some (block :: blocks) ->
     exists result w', run_search q w = (Ret result, w')).
Proof.
  split.
  - intros result w'. rewrite run_search_unfold. intros E.
    destruct (script w) as [|[r|] rest]; try discriminate.
    destruct (nth_error (output r) 1) as [item|]; try discriminate.
    destruct (content item) as [[|block blocks]|]; try discriminate.
    injection E as <- <-.
    eexists. split; [reflexivity|]. repeat split.
  - intros r rest item block blocks Hs Hit Hc.
    rewrite run_search_unfold, Hs, Hit, Hc. eauto.
Qed.

(** ** Reading a reply *)

Lemma first_text_unfold r w : first_text r w = (first_text_value r, w).
Proof.
  unfold first_text, first_text_value, bind, index, get_content.
  destruct (output r) as [|item items]; [reflexivity|]. simpl.
  destruct (content item) as [[|block blocks]|]; reflexivity.
Qed.

(** ** Substrings *)

Lemma starts_with_iff (p s : pystr) :
  starts_with p s = true <-> exists post, s = p ++ post.
Proof.
  revert s. induction p as [|a p IH]; intros s; simpl.
  - split; [intros _; now exists s|reflexivity].
  - destruct s as [|b s].
    + split; [discriminate|intros [post H]; discriminate].
    + rewrite andb_true_iff, N.eqb_eq, IH. split.
      * intros [-> [post ->]]. now exists post.
      * intros [post [= -> ->]]. split; [reflexivity|now exists post].
Qed.

Lemma str_in_iff (p s : pystr) :
  str_in p s = true <-> exists pre post, s = pre ++ p ++ post.
Proof.
  induction s as [|c s IH].
  - simpl. rewrite orb_false_r, starts_with_iff. split.
    + intros [post H]. now exists [], post.
    + intros [[|x pre] [post H]]; [now exists post|discriminate].
  - change (str_in p (c :: s)) with (starts_with p (c :: s) || str_in p s).
    rewrite orb_true_iff, starts_with_iff, IH. split.
    + intros [[post H]|[pre [post H]]].
      * now exists [], post.
      * exists (c :: pre), post. now rewrite H.
    + intros [[|x pre] [post H]].
      * left. now exists post.
      * right. injection H as -> ->. now exists pre, post.
Qed.

Lemma lower_app (a b : pystr) : lower (a ++ b) = lower a ++ lower b.
Proof. apply map_app. Qed.

(** ** Completeness evaluation *)

Lemma evaluate_unfold goal collected w :
  evaluate goal collected w =
  (match script w with
   | Replies r :: _ =>
       match first_text_value r with
       | Ret t => Ret (str_in (lit "yes") (lower t))
       | Abort sg => Abort sg
       end
   | _ => Abort (Exception APIError)
   end, after_call (review_request goal collected) w).
Proof.
  unfold evaluate, bind, create, after_call, review_request.
  destruct (script w) as [|[r|] rest]; try reflexivity.
  rewrite first_text_unfold.
  destruct (first_text_value r); reflexivity.
Qed.

(** C3. When the review reply carries a text, [evaluate] returns a boolean
    that is true exactly when the lowercased text contains ["yes"]
    somewhere: true for every reply containing ["Yes."], false for the
    reply ["No, insufficient."], and false for any text without the
    substring. *)
Theorem evaluate_true_iff_yes
    (goal : json) (collected : list json) (w : world)
    (r : response) (rest : list reply) (t : pystr) :
  script w = Replies r :: rest ->
  fst (first_text r w) = Ret t ->
  exists b,
    fst (evaluate goal collected w) = Ret b /\
    (b = true <-> exists pre post, lower t = pre ++ lit "yes" ++ post) /\
    ((exists pre post, t = pre ++ lit "Yes." ++ post) -> b = true) /\
    (t = lit "No, insufficient." -> b = false) /\
    ((forall pre post, lower t <> pre ++ lit "yes" ++ post) -> b = false).
Proof.
  intros Hs Ht. rewrite first_text_unfold in Ht. simpl in Ht.
  exists (str_in (lit "yes") (lower t)).
  split; [rewrite evaluate_unfold, Hs, Ht; reflexivity|].
  split; [apply str_in_iff|]. split; [|split].
  - intros [pre [post ->]]. apply str_in_iff.
    exists (lower pre), (lit "." ++ lower post).
    rewrite !lower_app. reflexivity.
  - intros ->. reflexivity.
  - intros Hno. destruct (str_in (lit "yes") (lower t)) eqn:E; [|reflexivity].
    apply str_in_iff in E as [pre [post E]]. exact (False_ind _ (Hno _ _ E)).
Qed.

(** ** Splitting into lines *)

Lemma split_aux_newline_cons cur c s :
  split_aux newline 0 cur (c :: s) =
  if (10 =? c)%N then rev cur :: split_aux newline 0 [] s
  else split_aux newline 0 (c :: cur) s.
Proof. simpl. now rewrite andb_true_r. Qed.

(** A line without line feed is passed over as a whole. *)
Lemma split_aux_line line : forall cur s,
  ~ In 10%N line ->
  split_aux newline 0 cur (line ++ s) = split_aux newline 0 (rev line ++ cur) s.
Proof.
  induction line as [|c line IH]; intros cur s Hnl; [reflexivity|].
  change ((c :: line) ++ s) with (c :: line ++ s).
  rewrite split_aux_newline_cons.
  destruct (N.eqb_spec 10 c) as [E|Hc]; [exfalso; apply Hnl; now left|].
  rewrite IH by (intros H; apply Hnl; now right).
  simpl. now rewrite <- app_assoc.
Qed.

Lemma split_join_lines line lines :
  Forall (fun l => ~ In 10%N l) (line :: lines) ->
  split newline (join newline (line :: lines)) = line :: lines.
Proof.
  revert line. induction lines as [|l2 lines IH]; intros line Hnl;
    inversion Hnl as [|? ? H1 H2]; subst.
  - unfold split, join.
    rewrite <- (app_nil_r line) at 1. rewrite split_aux_line by assumption.
    simpl. now rewrite app_nil_r, rev_involutive.
  - unfold split.
    change (join newline (line :: l2 :: lines))
      with (line ++ 10%N :: join newline (l2 :: lines)).
    rewrite split_aux_line by assumption.
    rewrite split_aux_newline_cons. simpl N.eqb. cbv iota.
    rewrite app_nil_r, rev_involutive. f_equal.
    apply IH. assumption.
Qed.

Lemma filter_all {A} (f : A -> bool) (l : list A) :
  Forall (fun x => f x = true) l -> filter f l = l.
Proof.
  induction 1 as [|x l Hx _ IH]; simpl; [reflexivity|].
  now rewrite Hx, IH.
Qed.

Lemma truthy_iff (s : pystr) : truthy s = true <-> s <> [].
Proof. destruct s; simpl; split; congruence. Qed.

(** ** Question generation *)

Lemma get_clarifying_questions_unfold topic w :
  get_clarifying_questions topic w =
  (match script w with
   | Replies r :: _ =>
       match first_text_value r with
       | Ret t =>
           Ret (map strip (filter (fun q => truthy (strip q)) (split newline t)),
                response_id r)
       | Abort sg => Abort sg
       end
   | _ => Abort (Exception APIError)
   end, after_call (clarify_request topic) w).
Proof.
  unfold get_clarifying_questions, bind, create, after_call, clarify_request.
  destruct (script w) as [|[r|] rest]; try reflexivity.
  rewrite first_text_unfold.
  destruct (first_text_value r); reflexivity.
Qed.

(** C6. The questions are the lines of the reply, cut at line feeds, each
    stripped, those that are empty once stripped left out. So a reply made
    of lines joined by line feeds, each with something other than
    whitespace, yields as many questions as lines (five for five), none
    empty, in the order of the reply; and whatever their number the
    questions are returned as they are, with no check on the count. *)
Theorem questions_are_the_stripped_lines
    (topic : pystr) (w : world) (r : response) (rest : list reply)
    (lines : list pystr) :
  script w = Replies r :: rest ->
  fst (first_text r w) = Ret (join newline lines) ->
  Forall (fun line => ~ In 10%N line /\ strip line <> []) lines ->
  exists questions,
    fst (get_clarifying_questions topic w) = Ret (questions, response_id r) /\
    questions =
      map strip (filter (fun q => truthy (strip q))
                        (split newline (join newline lines))) /\
    questions = map strip lines /\
    List.length questions = List.length lines /\
    (List.length lines = 5 -> List.length questions = 5) /\
    Forall (fun q => q <> []) questions.
Proof.
  intros Hs Ht Hlines. rewrite first_text_unfold in Ht. simpl in Ht.
  eexists. split.
  { rewrite get_clarifying_questions_unfold, Hs, Ht. reflexivity. }
  split; [reflexivity|].
  assert (E : filter (fun q => truthy (strip q))
                (split newline (join newline lines)) = lines).
  { destruct lines as [|line lines]; [reflexivity|].
    rewrite split_join_lines.
    - apply filter_all. eapply Forall_impl; [|exact Hlines].
      intros l [_ Hl]. now apply truthy_iff.
    - eapply Forall_impl; [|exact Hlines]. now intros l [Hl _]. }
  rewrite E. split; [reflexivity|].
  split; [apply length_map|]. split; [now rewrite length_map|].
  apply Forall_map. eapply Forall_impl; [|exact Hlines]. now intros l [_ Hl].
Qed.

(** A line of whitespace between two questions is left out, like an empty
    one. *)
Example blank_lines_are_left_out :
  fst (get_clarifying_questions (lit "solar power")
         (new_world [message_reply "clarify"
                       (join newline [lit "1. Why?"; lit "  "; [];
                                      lit " 2. For whom? "])]))
  = Ret ([lit "1. Why?"; lit "2. For whom?"], lit "clarify").
Proof. vm_compute. reflexivity. Qed.

(** ** Plan generation and re-planning *)

Lemma get_goal_and_queries_unfold topic questions answers clarify_id w :
  get_goal_and_queries topic questions answers clarify_id w =
  (match script w with
   | Replies r :: _ =>
       match first_text_value r with
       | Ret t =>
           match json_loads (interpreter w) t with
           | Decoded plan => Ret (plan, response_id r)
           | Refused f => Abort (Exception (raised f))
           end
       | Abort sg => Abort sg
       end
   | _ => Abort (Exception APIError)
   end, after_call (goals_request topic questions answers clarify_id) w).
Proof.
  unfold get_goal_and_queries, bind, create, after_call, goals_request.
  destruct (script w) as [|[r|] rest]; try reflexivity.
  rewrite first_text_unfold.
  destruct (first_text_value r) as [t|sg]; [|reflexivity].
  unfold loads. cbn [interpreter].
  destruct (json_loads (interpreter w) t); reflexivity.
Qed.

(** Reading the text of a reply never raises a decoding error. *)
Lemma first_text_value_cases r :
  (exists t, first_text_value r = Ret t) \/
  first_text_value r = Abort (Exception IndexError) \/
  first_text_value r = Abort (Exception AttributeError).
Proof.
  unfold first_text_value.
  destruct (output r) as [|item items]; [now right; left|].
  destruct (content item) as [[|block blocks]|]; eauto.
Qed.

Lemma replan_unfold goal collected goal_queries_id w :
  replan goal collected goal_queries_id w =
  let w1 := replan_asked goal collected goal_queries_id w in
  match script w with
  | Replies r :: _ =>
      match first_text_value r with
      | Ret t =>
          match json_loads (interpreter w) t with
          | Decoded (JArr l) =>
              (Ret tt, drawn [InfoNewQueries]
                         (with_session (set_current_queries (Some l)) w1))
          | Decoded _ => (Ret tt, drawn [ErrorNotAList] w1)
          | Refused NotJson => (Ret tt, drawn [ErrorNotJson] w1)
          | Refused f => (Abort (Exception (raised f)), w1)
          end
      | Abort sg => (Abort sg, w1)
      end
  | _ => (Abort (Exception APIError), w1)
  end.
Proof.
  unfold replan. rewrite !show_then, drawn_drawn.
  unfold bind at 1, create, replan_asked, after_call.
  change (script (drawn _ w)) with (script w).
  destruct (script w) as [|[r|] rest]; try reflexivity.
  cbv beta iota zeta. unfold except_JSONDecodeError, bind.
  rewrite first_text_unfold.
  destruct (first_text_value_cases r) as [[t E]|[E|E]]; rewrite E;
    try reflexivity.
  unfold loads. cbn [interpreter drawn].
  destruct (json_loads (interpreter w) t) as [v|[| |]]; try reflexivity.
  destruct v; reflexivity.
Qed.

(** ** The path to the first plan *)

Lemma drawn_nil w : drawn [] w = w.
Proof. destruct w. unfold drawn; simpl. now rewrite app_nil_r. Qed.

Lemma ask_answers_unfold inp questions : forall i w,
  ask_answers inp i questions w =
  (Ret (map (answer_text inp) (seq i (List.length questions))),
   drawn (answer_inputs i questions) w).
Proof.
  induction questions as [|question rest IH]; intros i w.
  - simpl. now rewrite drawn_nil.
  - change (ask_answers inp i (question :: rest) w)
      with (bind (show (AnswerInput i question))
              (fun _ => bind (ask_answers inp (S i) rest)
                          (fun answers => ret (answer_text inp i :: answers)))
              w).
    rewrite show_then, (bind_ret _ _ _ _ _ (IH (S i) _)), drawn_drawn.
    reflexivity.
Qed.




Lemma canned_plan_loads lim :
  2 <= max_depth lim ->
  json_loads lim canned_plan =
  Decoded (JObj [(lit "goal", JStr (lit "G"));
                 (lit "queries", JArr canned_queries)]).
Proof.
  destruct lim as [digits [|[|depth]]]; simpl; try lia.
  intros _. vm_compute. reflexivity.
Qed.

(** C7. The plan is the reply decoded by [json.loads], and nothing else is
    tried: for the canned reply (two containers deep, which the interpreter
    must allow) the goal read from the plan is ["G"] and the queries are
    the five strings of the array in the order of the text, while any
    reply on which [json.loads] raises, such as the canned reply after a
    word of prose, makes plan generation raise the same exception after
    its single request. *)
Theorem canned_plan_is_decoded
    (topic : pystr) (questions answers : list pystr) (clarify_id : pystr)
    (w : world) (r : response) (rest : list reply) :
  script w = Replies r :: rest ->
  fst (first_text r w) = Ret canned_plan ->
  2 <= max_depth (interpreter w) ->
  (exists plan w',
     get_goal_and_queries topic questions answers clarify_id w =
       (Ret (plan, response_id r), w') /\
     getitem plan (lit "goal") w' = (Ret (JStr (lit "G")), w') /\
     getitem plan (lit "queries") w' = (Ret (JArr canned_queries), w') /\
     py_iter (JArr canned_queries) w' = (Ret canned_queries, w') /\
     List.length canned_queries = 5)
  /\ (forall w2 r2 rest2 t2 f,
        script w2 = Replies r2 :: rest2 ->
        fst (first_text r2 w2) = Ret t2 ->
        json_loads (interpreter w2) t2 = Refused f ->
        get_goal_and_queries topic questions answers clarify_id w2 =
          (Abort (Exception (raised f)),
           after_call (goals_request topic questions answers clarify_id) w2))
  /\ json_loads (interpreter w) (lit "Plan: " ++ canned_plan) = Refused NotJson.
Proof.
  intros Hs Ht Hdepth. rewrite first_text_unfold in Ht. simpl in Ht.
  split; [|split].
  - eexists. eexists. split.
    + rewrite get_goal_and_queries_unfold, Hs, Ht, canned_plan_loads
        by exact Hdepth.
      reflexivity.
    + repeat split.
  - intros w2 r2 rest2 t2 f Hs2 Ht2 Hj2.
    rewrite first_text_unfold in Ht2. simpl in Ht2.
    rewrite get_goal_and_queries_unfold, Hs2, Ht2, Hj2. reflexivity.
  - vm_compute. reflexivity.
Qed.

(** ** The report and the reset *)

Lemma synthesize_unfold goal collected w :
  synthesize goal collected w =
  (match script w with
   | Replies r :: _ => first_text_value r
   | _ => Abort (Exception APIError)
   end, after_call (report_request goal collected) w).
Proof.
  unfold synthesize, bind, create, after_call, report_request.
  destruct (script w) as [|[r|] rest]; try reflexivity.
  rewrite first_text_unfold. destruct (first_text_value r); reflexivity.
Qed.

Lemma finish_unfold inp topic goal collected w :
  finish inp topic goal collected w =
  match script w with
  | Replies r :: _ =>
      match first_text_value r with
      | Ret final_report =>
          let w1 :=
            drawn [NewResearchButton]
              (with_session reset_research
                 (drawn [Rule; SubheaderFinalReport;
                         MarkdownReport final_report;
                         DownloadButton final_report (file_name topic)]
                    (after_call (report_request goal collected)
                       (drawn [SuccessSatisfied; SpinnerReport] w)))) in
          if new_clicked inp
          then (Abort RerunScript, with_session (fun _ => empty_session) w1)
          else (Ret tt, w1)
      | Abort sg =>
          (Abort sg,
           after_call (report_request goal collected)
             (drawn [SuccessSatisfied; SpinnerReport] w))
      end
  | _ =>
      (Abort (Exception APIError),
       after_call (report_request goal collected)
         (drawn [SuccessSatisfied; SpinnerReport] w))
  end.
Proof.
  unfold finish. rewrite !show_then, drawn_drawn.
  unfold bind at 1. rewrite synthesize_unfold.
  change (script (drawn _ w)) with (script w).
  destruct (script w) as [|[r|] rest]; try reflexivity.
  destruct (first_text_value r) as [final_report|sg]; [|reflexivity].
  rewrite !show_then, !drawn_drawn, !modify_then, show_then.
  cbv zeta. destruct (new_clicked inp); reflexivity.
Qed.

(** Replacing the space by the underscore changes the spaces and nothing
    else. *)
Lemma replace_space (topic : pystr) :
  replace (lit " ") (lit "_") topic =
  map (fun c => if (c =? 32)%N then 95%N else c) topic.
Proof.
  unfold replace. induction topic as [|c topic IH]; [reflexivity|].
  change (replace_aux (lit " ") (lit "_") 0 (c :: topic))
    with (if (32 =? c)%N && true
          then 95%N :: replace_aux (lit " ") (lit "_") 0 topic
          else c :: replace_aux (lit " ") (lit "_") 0 topic).
  rewrite andb_true_r, N.eqb_sym, IH.
  change (map ?f (c :: topic)) with (f c :: map f topic). cbv beta.
  destruct (c =? 32)%N; reflexivity.
Qed.

(** A pass that completes its searches goes on with the evaluation, and
    from there to the report or to re-planning. *)
Lemma research_pass inp topic goal queries goal_queries_id w collected' w2
    satisfied w3 :
  (get_iteration_count (session w) <? max_iterations)%Z = true ->
  search_phase
    (match collected (session w) with Some _ => true | None => false end)
    (get_collected (session w))
    (get_current_queries (session w) queries)
    (get_iteration_count (session w))
    (with_session (set_research_started (Some true)) w) = (Ret collected', w2) ->
  evaluate goal collected' (drawn [SubheaderEvaluating; SpinnerEvaluating] w2)
    = (Ret satisfied, w3) ->
  research inp topic goal queries goal_queries_id w =
    if satisfied then finish inp topic goal collected' w3
    else replan goal collected' goal_queries_id w3.
Proof.
  intros Hlt Hsearch Heval.
  unfold research. rewrite modify_then, get_session_then.
  change (session (with_session (set_research_started (Some true)) w))
    with (set_research_started (Some true) (session w)).
  change (collected (set_research_started (Some true) (session w)))
    with (collected (session w)).
  change (get_iteration_count (set_research_started (Some true) (session w)))
    with (get_iteration_count (session w)).
  change (get_collected (set_research_started (Some true) (session w)))
    with (get_collected (session w)).
  change (get_current_queries (set_research_started (Some true) (session w))
            queries)
    with (get_current_queries (session w) queries).
  rewrite Hlt.
  rewrite (bind_ret _ _ _ _ _ Hsearch).
  rewrite !show_then, drawn_drawn.
  rewrite (bind_ret _ _ _ _ _ Heval). destruct satisfied; reflexivity.
Qed.

(** C10. When a pass ends with a satisfied evaluation and the report is
    written, the research state is reset: the session then holds
    [research_started = False], an empty collected list and
    [iteration_count = 0] (and reads the same if the user at once starts a
    new research, which deletes every key). The report is offered for
    download under ["research_report_" + topic + ".md"] where each space
    of the topic, and no other character, has become an underscore. *)
Theorem satisfied_pass_resets_research
    (inp : inputs) (topic : pystr) (goal queries : json)
    (goal_queries_id : pystr) (w : world)
    (collected' : list json) (w2 w3 : world)
    (r : response) (rest : list reply) (final_report : pystr) :
  (get_iteration_count (session w) < max_iterations)%Z ->
  search_phase
    (match collected (session w) with Some _ => true | None => false end)
    (get_collected (session w))
    (get_current_queries (session w) queries)
    (get_iteration_count (session w))
    (with_session (set_research_started (Some true)) w) = (Ret collected', w2) ->
  evaluate goal collected' (drawn [SubheaderEvaluating; SpinnerEvaluating] w2)
    = (Ret true, w3) ->
  script w3 = Replies r :: rest ->
  fst (first_text r w3) = Ret final_report ->
  let w' := snd (research inp topic goal queries goal_queries_id w) in
  get_research_started (session w') = false /\
  get_collected (session w') = [] /\
  get_iteration_count (session w') = 0%Z /\
  (new_clicked inp = false ->
   fst (research inp topic goal queries goal_queries_id w) = Ret tt /\
   research_started (session w') = Some false /\
   collected (session w') = Some [] /\
   iteration_count (session w') = Some 0%Z) /\
  In (DownloadButton final_report (file_name topic)) (screen w') /\
  file_name topic =
    lit "research_report_"
    ++ map (fun c => if (c =? 32)%N then 95%N else c) topic ++ lit ".md" /\
  List.length (file_name topic) = 16 + List.length topic + 3.
Proof.
  intros Hlt Hsearch Heval Hs Ht w'. subst w'.
  apply Z.ltb_lt in Hlt.
  rewrite (research_pass inp topic goal queries goal_queries_id w collected'
             w2 true w3 Hlt Hsearch Heval).
  rewrite first_text_unfold in Ht. simpl in Ht.
  rewrite finish_unfold, Hs, Ht. cbv zeta.
  assert (Hname : file_name topic =
            lit "research_report_"
            ++ map (fun c => if (c =? 32)%N then 95%N else c) topic
            ++ lit ".md")
    by (unfold file_name; now rewrite replace_space).
  assert (Hlen : List.length (file_name topic) = 16 + List.length topic + 3).
  { rewrite Hname, !length_app, length_map. simpl. lia. }
  destruct (new_clicked inp); unfold fst, snd;
    (repeat split; try discriminate; try assumption);
    cbn [screen drawn with_session after_call]; rewrite !in_app_iff;
    left; right; right; right; right; left; reflexivity.
Qed.

(** ** De-duplication *)

(** A query whose text is already in the list is passed over: the loop
    goes on with the next query, in the same world. *)
Lemma run_searches_skip aliased total i s rest collected w :
  Forall is_result collected ->
  In s (query_texts collected) ->
  run_searches aliased total i (JStr s :: rest) collected w =
  run_searches aliased total (i + 1) rest collected w.
Proof.
  intros Hres Hin.
  change (run_searches aliased total i (JStr s :: rest) collected w)
    with (bind (already_searched (JStr s) collected)
            (fun seen =>
               if negb seen then
                 show (Progress (i + 1) total) ;;
                 show (SpinnerSearching (JStr s)) ;;
                 result <- run_search (JStr s) ;;
                 (if aliased
                  then modify_session
                         (set_collected (Some (collected ++ [result])))
                  else ret tt) ;;
                 show (ExpanderResults (JStr s)) ;;
                 research_output <- getitem result (lit "research_output") ;;
                 research_output <- as_str research_output ;;
                 show (TextAreaOutput (preview 300 research_output)) ;;
                 run_searches aliased total (i + 1) rest (collected ++ [result])
               else run_searches aliased total (i + 1) rest collected) w).
  rewrite (bind_ret _ _ _ _ _ (already_searched_unfold _ collected w Hres)).
  now rewrite (seen_in_text s collected Hin).
Qed.

(** C2. The collected list never holds two entries with the same query
    text. Whatever the replies of the service and the runs of a session,
    the query texts of the collected list are pairwise distinct; the search
    loop only appends to a list that has this property and hands back one
    that has it; and a query whose text is in the list already is skipped:
    the loop continues with the next query without a request and without
    an append. *)
Theorem collected_is_deduplicated_by_query :
  (forall replies runs,
     NoDup (query_texts
              (get_collected (session (run_session (new_world replies) runs)))))
  /\ (forall aliased total i queries collected w collected' w',
        deduplicated collected ->
        run_searches aliased total i queries collected w = (Ret collected', w') ->
        (exists more, collected' = collected ++ more) /\
        NoDup (query_texts collected'))
  /\ (forall aliased total i s rest collected w,
        Forall is_result collected ->
        In s (query_texts collected) ->
        run_searches aliased total i (JStr s :: rest) collected w =
        run_searches aliased total (i + 1) rest collected w).
Proof.
  split; [|split].
  - intros replies runs.
    apply (run_session_ok runs (new_world replies) (new_world_ok replies)).
  - intros aliased total i queries collected w collected' w' Hd Hrun.
    destruct (run_searches_keeps (fun _ => True) (fun _ _ _ _ => Logic.I)
                aliased total queries i collected Hd w Logic.I) as [_ Hq].
    rewrite Hrun in Hq. destruct (Hq collected' eq_refl) as [[_ Hnd] Hmore].
    split; assumption.
  - intros. now apply run_searches_skip.
Qed.

(** ** The iteration cap *)

Lemma search_phase_count aliased collected current_queries iteration_count
    w collected' w' :
  search_phase aliased collected current_queries iteration_count w
    = (Ret collected', w') ->
  get_iteration_count (session w') = (iteration_count + 1)%Z.
Proof.
  unfold search_phase. rewrite !show_then, drawn_drawn.
  unfold bind at 1.
  destruct (py_iter current_queries _) as [[qs|sg] w1]; [|discriminate].
  unfold bind at 1.
  destruct (run_searches aliased _ 0 qs collected w1) as [[c|sg] w2];
    [|discriminate].
  rewrite !modify_then. intros [= _ <-]. reflexivity.
Qed.

Lemma evaluate_session goal collected w :
  session (snd (evaluate goal collected w)) = session w.
Proof. rewrite evaluate_unfold. reflexivity. Qed.

Lemma replan_count goal collected goal_queries_id w :
  get_iteration_count (session (snd (replan goal collected goal_queries_id w)))
  = get_iteration_count (session w).
Proof.
  rewrite replan_unfold. cbv zeta.
  destruct (script w) as [|[r|] rest]; try reflexivity.
  destruct (first_text_value r) as [t|sg]; [|reflexivity].
  destruct (json_loads (interpreter w) t) as [[| | | | | |]|[| |]];
    reflexivity.
Qed.

Lemma show_results_unfold collected : forall i w,
  Forall is_result collected ->
  show_results i collected w = (Ret tt, drawn (results_page i collected) w).
Proof.
  induction collected as [|item rest IH]; intros i w Hres.
  - simpl. now rewrite drawn_nil.
  - inversion Hres as [|? ? [q [rid [t ->]]] Hrest]; subst.
    change (show_results i (result_of q rid t :: rest) w)
      with (bind (show (MarkdownResult i q))
              (fun _ => bind (show (TextAreaResult i (preview 500 t)))
                 (fun _ => bind (show Rule)
                    (fun _ => show_results (S i) rest))) w).
    rewrite !show_then, !drawn_drawn, IH by assumption.
    rewrite drawn_drawn. reflexivity.
Qed.

(** At the limit the pass is not run: the page shows the warning and the
    summary, and nothing else changes. *)
Lemma research_at_limit inp topic goal queries goal_queries_id w :
  (max_iterations <= get_iteration_count (session w))%Z ->
  Forall is_result (get_collected (session w)) ->
  research inp topic goal queries goal_queries_id w =
  (Ret tt,
   drawn (limit_page (get_collected (session w))
            (get_iteration_count (session w)))
     (with_session (set_research_started (Some true)) w)).
Proof.
  intros Hge Hres.
  unfold research. rewrite modify_then, get_session_then.
  change (session (with_session (set_research_started (Some true)) w))
    with (set_research_started (Some true) (session w)).
  change (get_iteration_count (set_research_started (Some true) (session w)))
    with (get_iteration_count (session w)).
  change (get_collected (set_research_started (Some true) (session w)))
    with (get_collected (session w)).
  apply Z.ltb_ge in Hge. rewrite Hge.
  rewrite show_then. unfold limit_page.
  destruct (get_collected (session w)) as [|item rest] eqn:Hc.
  - reflexivity.
  - rewrite !show_then, !drawn_drawn.
    rewrite show_results_unfold by assumption.
    rewrite drawn_drawn. reflexivity.
Qed.

Lemma at_limit_show searches u :
  preserves (at_limit searches) (show u) (fun _ => True).
Proof. intros w Hw; simpl; split; [exact Hw|trivial]. Qed.

Lemma at_limit_create searches rq :
  is_search rq = false ->
  preserves (at_limit searches) (create rq) (fun _ => True).
Proof.
  intros Hrq w [Hn [Hok Hc]].
  assert (Hc' : filter is_search (calls w ++ [rq]) = searches).
  { rewrite filter_app. simpl. rewrite Hrq. now rewrite app_nil_r. }
  unfold create.
  destruct (script w) as [|[r|] rest]; simpl; (split; [|trivial]);
    (split; [exact Hn|split; [exact Hok|exact Hc']]).
Qed.

Lemma at_limit_modify searches f :
  (forall s, get_iteration_count (f s) = get_iteration_count s) ->
  (forall s, get_collected (f s) = get_collected s) ->
  preserves (at_limit searches) (modify_session f) (fun _ => True).
Proof.
  intros Hcount Hcoll w [Hn [[Hb Hd] Hc]].
  unfold modify_session, at_limit, session_ok.
  cbn [fst snd session calls]. split; [|trivial].
  rewrite Hcount, Hcoll.
  split; [exact Hn|split; [split; [exact Hb|exact Hd]|exact Hc]].
Qed.

Lemma at_limit_show_results searches collected : forall i,
  preserves (at_limit searches) (show_results i collected) (fun _ => True).
Proof.
  induction collected as [|result rest IH]; intros i; simpl.
  - apply preserves_ret. exact Logic.I.
  - keep_bind query Hq; [keep_step|].
    eapply preserves_bind; [apply at_limit_show|intros _ _].
    keep_bind ro Hro; [keep_step|].
    keep_bind ro' Hro'; [keep_step|].
    eapply preserves_bind; [apply at_limit_show|intros _ _].
    eapply preserves_bind; [apply at_limit_show|intros _ _].
    apply IH.
Qed.

Lemma at_limit_research searches inp topic goal queries goal_queries_id :
  preserves (at_limit searches)
    (research inp topic goal queries goal_queries_id) (fun _ => True).
Proof.
  unfold research.
  keep_bind u Hu; [apply at_limit_modify; reflexivity|].
  eapply preserves_bind
    with (Q := fun s => get_iteration_count s = max_iterations).
  { intros w Hw. simpl. split; [exact Hw|].
    intros s [= <-]. exact (proj1 Hw). }
  intros s Hs. rewrite Hs, Z.ltb_irrefl.
  eapply preserves_bind; [apply at_limit_show|intros _ _].
  destruct (get_collected s) as [|item rest]; [apply preserves_ret; trivial|].
  do 3 (eapply preserves_bind; [apply at_limit_show|intros _ _]).
  apply at_limit_show_results.
Qed.

Lemma at_limit_main searches inp :
  preserves (at_limit searches) (main inp) (fun _ => True).
Proof.
  apply main_keeps;
    try (intros v; apply at_limit_modify; reflexivity).
  - apply at_limit_show.
  - apply at_limit_create.
  - apply at_limit_research.
Qed.

Lemma at_limit_run_session searches runs : forall w,
  at_limit searches w -> at_limit searches (run_session w runs).
Proof.
  induction runs as [|inp runs IH]; intros w Hw; simpl; [assumption|].
  apply IH. unfold rerun_script. apply (at_limit_main searches inp).
  exact Hw.
Qed.

(** C1. The iteration counter never exceeds 5. In every session, whatever
    the service replies, it stays between 0 and 5. A pass that completes
    its searches stores the counter it read plus one, and that is what the
    run leaves when the goal is not yet satisfied. A pass is run only
    below the limit: once the counter is at 5, the loop makes no request,
    raises nothing, shows the warning and the summary of everything
    collected, and leaves the collected list and the counter as they are;
    and from then on no run of the session makes another search or moves
    the counter. *)
Theorem iteration_count_never_exceeds_limit :
  (forall replies runs,
     (0 <= get_iteration_count
             (session (run_session (new_world replies) runs))
        <= 5)%Z)
  /\ (forall aliased collected current_queries iteration_count w
             collected' w',
        search_phase aliased collected current_queries iteration_count w
          = (Ret collected', w') ->
        get_iteration_count (session w') = (iteration_count + 1)%Z)
  /\ (forall inp topic goal queries goal_queries_id w collected' w2 w3,
        (get_iteration_count (session w) < max_iterations)%Z ->
        search_phase
          (match collected (session w) with Some _ => true | None => false end)
          (get_collected (session w))
          (get_current_queries (session w) queries)
          (get_iteration_count (session w))
          (with_session (set_research_started (Some true)) w)
          = (Ret collected', w2) ->
        evaluate goal collected'
          (drawn [SubheaderEvaluating; SpinnerEvaluating] w2)
          = (Ret false, w3) ->
        get_iteration_count
          (session (snd (research inp topic goal queries goal_queries_id w)))
        = (get_iteration_count (session w) + 1)%Z)
  /\ (forall replies runs inp topic goal queries goal_queries_id,
        let w := run_session (new_world replies) runs in
        (max_iterations <= get_iteration_count (session w))%Z ->
        research inp topic goal queries goal_queries_id w =
          (Ret tt,
           {| session := set_research_started (Some true) (session w);
              script := script w;
              calls := calls w;
              screen := screen w
                        ++ limit_page (get_collected (session w))
                             (get_iteration_count (session w));
              interpreter := interpreter w |}))
  /\ (forall replies runs more,
        let w := run_session (new_world replies) runs in
        get_iteration_count (session w) = max_iterations ->
        get_iteration_count (session (run_session w more)) = max_iterations /\
        filter is_search (calls (run_session w more))
          = filter is_search (calls w)).
Proof.
  split; [|split; [|split; [|split]]].
  - intros replies runs.
    apply (run_session_ok runs (new_world replies) (new_world_ok replies)).
  - intros *. apply search_phase_count.
  - intros inp topic goal queries goal_queries_id w collected' w2 w3
      Hlt Hsearch Heval.
    apply Z.ltb_lt in Hlt.
    rewrite (research_pass inp topic goal queries goal_queries_id w collected'
               w2 false w3 Hlt Hsearch Heval).
    rewrite replan_count.
    pose proof (evaluate_session goal collected'
                  (drawn [SubheaderEvaluating; SpinnerEvaluating] w2)) as Hses.
    rewrite Heval in Hses. simpl in Hses. rewrite Hses.
    apply (search_phase_count _ _ _ _ _ _ _ Hsearch).
  - intros replies runs inp topic goal queries goal_queries_id w Hge.
    pose proof (run_session_ok runs (new_world replies) (new_world_ok replies))
      as [_ [Hres _]].
    fold w in Hres.
    rewrite (research_at_limit inp topic goal queries goal_queries_id w Hge Hres).
    reflexivity.
  - intros replies runs more w Hn.
    pose proof (run_session_ok runs (new_world replies) (new_world_ok replies))
      as Hok.
    fold w in Hok.
    destruct (at_limit_run_session (filter is_search (calls w)) more w)
      as [Hn' [_ Hc']].
    { split; [exact Hn|]. split; [exact Hok|reflexivity]. }
    split; assumption.
Qed.

(** ** The properties on canned replies *)

(** After five passes the session is at the limit: the next pass is not
    run, and the run ends normally, the warning and the summary on the
    page, without a request. *)
Lemma iteration_count_never_exceeds_limit_witness :
  (max_iterations
   <= get_iteration_count
        (session (run_session (new_world five_passes) five_runs)))%Z /\
  research user (lit "solar power") (JStr (lit "G")) (JArr canned_queries)
    (lit "plan") (run_session (new_world five_passes) five_runs)
  = (Ret tt,
     {| session :=
          set_research_started (Some true)
            (session (run_session (new_world five_passes) five_runs));
        script := script (run_session (new_world five_passes) five_runs);
        calls := calls (run_session (new_world five_passes) five_runs);
        screen :=
          screen (run_session (new_world five_passes) five_runs)
          ++ limit_page
               (get_collected
                  (session (run_session (new_world five_passes) five_runs)))
               (get_iteration_count
                  (session (run_session (new_world five_passes) five_runs)));
        interpreter := interpreter (run_session (new_world five_passes) five_runs) |}).
Proof.
  assert (H : (max_iterations
               <= get_iteration_count
                    (session (run_session (new_world five_passes) five_runs)))%Z)
    by (vm_compute; discriminate).
  split; [exact H|].
  destruct iteration_count_never_exceeds_limit as [_ [_ [_ [Hlimit _]]]].
  exact (Hlimit five_passes five_runs user
                (lit "solar power") (JStr (lit "G")) (JArr canned_queries)
                (lit "plan") H).
Defined.

(** The query ["a"] was searched: meeting it again, the loop passes on. *)
Lemma collected_is_deduplicated_by_query_witness :
  run_searches true 2 0 [JStr (lit "a"); JStr (lit "b")]
    [result_of (JStr (lit "a")) (lit "msg_2") (lit "about a")]
    (new_world [search_reply "s2" "about b"])
  = run_searches true 2 1 [JStr (lit "b")]
      [result_of (JStr (lit "a")) (lit "msg_2") (lit "about a")]
      (new_world [search_reply "s2" "about b"]).
Proof.
  destruct collected_is_deduplicated_by_query as [_ [_ Hskip]].
  apply (Hskip true 2 0 (lit "a")).
  - constructor; [|constructor].
    exists (JStr (lit "a")), (lit "msg_2"), (lit "about a"). reflexivity.
  - simpl. left. reflexivity.
Defined.

(** The review says ["Yes."]: the goal is satisfied. *)
Lemma evaluate_true_iff_yes_witness :
  exists b,
    fst (evaluate (JStr (lit "G")) []
           (new_world [message_reply "review" (lit "Yes.")])) = Ret b /\
    b = true.
Proof.
  destruct (evaluate_true_iff_yes (JStr (lit "G")) []
              (new_world [message_reply "review" (lit "Yes.")])
              _ [] (lit "Yes.") eq_refl eq_refl)
    as [b [Hb [_ [Hyes _]]]].
  exists b. split; [exact Hb|].
  apply Hyes. exists [], []. reflexivity.
Defined.





(** Five numbered questions, one per line. *)
Lemma questions_are_the_stripped_lines_witness :
  fst (get_clarifying_questions (lit "solar power")
         (new_world [message_reply "clarify" (join newline five_questions)]))
  = Ret (five_questions, lit "clarify").
Proof.
  destruct (questions_are_the_stripped_lines (lit "solar power")
              (new_world [message_reply "clarify" (join newline five_questions)])
              _ [] five_questions eq_refl eq_refl)
    as [questions [Hq [_ [Hmap _]]]].
  { repeat constructor; try (vm_compute; intuition discriminate);
      vm_compute; discriminate. }
  rewrite Hq, Hmap. reflexivity.
Defined.

(** The canned plan, as the reply to the plan request. *)
Lemma canned_plan_is_decoded_witness :
  exists plan w',
    get_goal_and_queries (lit "solar power") five_questions [] (lit "clarify")
      (new_world [message_reply "plan" canned_plan])
    = (Ret (plan, lit "plan"), w') /\
    getitem plan (lit "queries") w' = (Ret (JArr canned_queries), w').
Proof.
  destruct (canned_plan_is_decoded (lit "solar power") five_questions []
              (lit "clarify") (new_world [message_reply "plan" canned_plan])
              _ [] eq_refl eq_refl)
    as [[plan [w' [Hrun [_ [Hqueries _]]]]] _].
  { vm_compute. lia. }
  exists plan, w'. split; assumption.
Defined.

(** The tool call alone: no second item, the search raises. *)
Lemma search_takes_second_output_item_witness :
  fst (run_search (JStr (lit "a")) (new_world [short_reply "s1"]))
  = Abort (Exception IndexError).
Proof.
  destruct (search_takes_second_output_item (JStr (lit "a"))
              (new_world [short_reply "s1"]) _ [] eq_refl)
    as [_ [Hfault _]].
  rewrite Hfault; [reflexivity|].
  left. simpl. lia.
Defined.

(** The tool call and the message: the search returns its three fields. *)
Lemma run_search_returns_three_fields_witness :
  exists result w',
    run_search (JStr (lit "a")) (new_world [search_reply "s1" "about a"])
    = (Ret result, w').
Proof.
  destruct (run_search_returns_three_fields (JStr (lit "a"))
              (new_world [search_reply "s1" "about a"])) as [_ Hreturns].
  eapply Hreturns; reflexivity.
Defined.

(** One query, a review that says yes, a report: the state is reset and
    the file is named after the topic, its slash kept. *)
Lemma satisfied_pass_resets_research_witness :
  get_research_started
    (session (snd (research user (lit "solar power/2024 costs") (JStr (lit "G"))
                     (JArr [JStr (lit "a")]) (lit "plan") one_pass))) = false /\
  get_collected
    (session (snd (research user (lit "solar power/2024 costs") (JStr (lit "G"))
                     (JArr [JStr (lit "a")]) (lit "plan") one_pass))) = [] /\
  get_iteration_count
    (session (snd (research user (lit "solar power/2024 costs") (JStr (lit "G"))
                     (JArr [JStr (lit "a")]) (lit "plan") one_pass))) = 0%Z /\
  file_name (lit "solar power/2024 costs")
  = lit "research_report_"
    ++ map (fun c => if (c =? 32)%N then 95%N else c)
         (lit "solar power/2024 costs") ++ lit ".md".
Proof.
  pose proof (satisfied_pass_resets_research user
                (lit "solar power/2024 costs") (JStr (lit "G"))
                (JArr [JStr (lit "a")]) (lit "plan") one_pass
                [result_of (JStr (lit "a")) (lit "msg_2") (lit "about a")]
                one_pass_searched one_pass_reviewed
                {| response_id := lit "report";
                   output := [{| item_id := lit "msg_1";
                                 content := Some [{| text := lit "REPORT" |}] |}] |}
                [] (lit "REPORT")) as H.
  cbv zeta in H.
  destruct H as [H1 [H2 [H3 [_ [_ [H6 _]]]]]];
    try (vm_compute; reflexivity).
  repeat split; assumption.
Defined.

(** * More of the driver *)

(** ** The stages of [main] *)

Lemma stop_then {A B} (k : A -> M B) w : bind stop k w = (Abort StopScript, w).
Proof. reflexivity. Qed.

Lemma bind_ext {A B} (m : M A) (k1 k2 : A -> M B) w :
  (forall a w', k1 a w' = k2 a w') -> bind m k1 w = bind m k2 w.
Proof.
  intros H. unfold bind. destruct (m w) as [[a|sg] w1]; [apply H|reflexivity].
Qed.

(** With a key and a topic, [main] comes to the questions. *)
Lemma main_to_questions inp w k :
  api_key inp = Some k -> truthy k = true ->
  truthy (topic_of inp) = true ->
  main inp w =
  bind (questions_step (topic_of inp) (session w))
    (fun cd => main_from_answers inp (topic_of inp) (fst cd) (snd cd))
    (drawn [PageConfig; Title; Intro; TopicInput] w).
Proof.
  intros Hkey Hk Htopic. unfold topic_of in *.
  unfold main. rewrite !show_then, !drawn_drawn.
  unfold get_openai_client. rewrite Hkey, Hk, ret_then.
  unfold get_topic. rewrite bind_assoc, show_then, ret_then, drawn_drawn.
  rewrite Htopic. cbv beta iota delta [negb].
  rewrite get_session_then.
  change (session (drawn _ w)) with (session w).
  simpl app. unfold questions_step.
  apply bind_ext. intros [questions clarify_id] w'. reflexivity.
Qed.

(** With the questions of the session, [main] comes to the answers. *)
Lemma main_to_answers inp w k questions clarify_id :
  api_key inp = Some k -> truthy k = true ->
  truthy (topic_of inp) = true ->
  clarify_data (session w) = Some (questions, clarify_id) ->
  opt_str_eqb (last_topic (session w)) (topic_of inp) = true ->
  main inp w =
  main_from_answers inp (topic_of inp) questions clarify_id
    (drawn [PageConfig; Title; Intro; TopicInput] w).
Proof.
  intros Hkey Hk Htopic Hcd Hlast.
  rewrite (main_to_questions inp w k Hkey Hk Htopic).
  unfold questions_step. rewrite Hcd, Hlast, ret_then. reflexivity.
Qed.

(** With all its answers, [main] comes to the plan. *)
Lemma main_from_answers_to_plan inp topic questions clarify_id w :
  all_answered inp questions = true ->
  main_from_answers inp topic questions clarify_id w =
  bind (plan_step topic questions (answers_of inp questions) clarify_id
          (session w))
    (fun pl => main_from_plan inp topic (fst pl) (snd pl))
    (drawn (SubheaderAnswers :: answer_inputs 0 questions) w).
Proof.
  intros Hans. unfold all_answered, answers_of in *.
  unfold main_from_answers, get_answers.
  rewrite bind_assoc, show_then.
  rewrite (bind_ret _ _ _ _ _ (ask_answers_unfold inp questions 0 _)).
  rewrite Hans, drawn_drawn. cbv beta iota delta [negb].
  rewrite get_session_then.
  change (session (drawn _ w)) with (session w).
  simpl app.
  apply bind_ext. intros [plan id] w'. reflexivity.
Qed.

Lemma write_queries_unfold queries : forall i w,
  write_queries i queries w = (Ret tt, drawn (query_lines i queries) w).
Proof.
  induction queries as [|query rest IH]; intros i w.
  - simpl. now rewrite drawn_nil.
  - change (write_queries i (query :: rest) w)
      with (bind (show (WriteQuery i query))
              (fun _ => write_queries (S i) rest) w).
    rewrite show_then, IH, drawn_drawn. reflexivity.
Qed.

(** ** Before the questions *)

(** X1. Without an API key, or with an empty one, the run stops at once:
    the page shows the error, no request is made and the session is as it
    was. *)
Theorem missing_key_stops_the_run (inp : inputs) (w : world) :
  key_missing inp = true ->
  main inp w =
    (Abort StopScript,
     {| session := session w; script := script w; calls := calls w;
        screen := screen w ++ [PageConfig; Title; Intro; ErrorNoApiKey];
        interpreter := interpreter w |}).
Proof.
  intros Hkey. unfold key_missing in Hkey.
  unfold main. rewrite !show_then, !drawn_drawn.
  unfold get_openai_client.
  destruct (api_key inp) as [k|].
  - destruct (truthy k); [discriminate|].
    rewrite bind_assoc, show_then, stop_then, drawn_drawn. reflexivity.
  - rewrite bind_assoc, show_then, stop_then, drawn_drawn. reflexivity.
Qed.

(** X2. With a key, a topic that is empty once stripped ends the run
    normally with the invitation to enter one: no request is made and the
    session is as it was. *)
Theorem blank_topic_ends_the_run (inp : inputs) (w : world) :
  key_missing inp = false ->
  topic_of inp = [] ->
  main inp w =
    (Ret tt,
     {| session := session w; script := script w; calls := calls w;
        screen := screen w
                  ++ [PageConfig; Title; Intro; TopicInput; InfoEnterTopic];
        interpreter := interpreter w |}).
Proof.
  intros Hkey Htopic. unfold key_missing, topic_of in *.
  destruct (api_key inp) as [k|] eqn:Ek; [|discriminate].
  apply negb_false_iff in Hkey.
  unfold main. rewrite !show_then, !drawn_drawn.
  unfold get_openai_client. rewrite Ek, Hkey, ret_then.
  unfold get_topic. rewrite bind_assoc, show_then, ret_then, drawn_drawn.
  rewrite Htopic. change (negb (truthy [])) with true. cbv iota.
  unfold show, drawn. simpl. rewrite <- !app_assoc. reflexivity.
Qed.

(** X3. With the questions of the topic in the session, a run in which
    some answer is empty once stripped shows the questions and the
    invitation to answer them all, and ends there: no request is made and
    the session is as it was. *)
Theorem blank_answer_ends_the_run
    (inp : inputs) (w : world) (questions : list pystr) (clarify_id : pystr) :
  key_missing inp = false ->
  topic_of inp <> [] ->
  clarify_data (session w) = Some (questions, clarify_id) ->
  last_topic (session w) = Some (topic_of inp) ->
  all_answered inp questions = false ->
  main inp w =
    (Ret tt,
     {| session := session w; script := script w; calls := calls w;
        screen := screen w ++ page_to_answers questions ++ [InfoAnswerAll];
        interpreter := interpreter w |}).
Proof.
  intros Hkey Htopic Hcd Hlast Hans. unfold key_missing in Hkey.
  destruct (api_key inp) as [k|] eqn:Ek; [|discriminate].
  apply negb_false_iff in Hkey. apply truthy_iff in Htopic.
  rewrite (main_to_answers inp w k questions clarify_id Ek Hkey Htopic Hcd)
    by (rewrite Hlast; apply str_eqb_refl).
  unfold all_answered, answers_of in Hans.
  unfold main_from_answers, get_answers.
  rewrite bind_assoc, show_then.
  rewrite (bind_ret _ _ _ _ _ (ask_answers_unfold inp questions 0 _)).
  rewrite Hans, !drawn_drawn. cbv beta iota delta [negb].
  unfold show, page_to_answers. simpl. rewrite <- !app_assoc. reflexivity.
Qed.

(** ** The plan *)

Lemma getitem_unfold v k w : getitem v k w = (getitem_value v k, w).
Proof.
  unfold getitem, getitem_value. destruct v; try reflexivity.
  destruct (dict_get k kv); reflexivity.
Qed.

Lemma py_iter_unfold v w :
  py_iter v w =
  (match items_of v with
   | Some l => Ret l
   | None => Abort (Exception TypeError)
   end, w).
Proof. destruct v; reflexivity. Qed.

Lemma strs_eqb_refl (a : list pystr) : strs_eqb a a = true.
Proof.
  induction a as [|x a IH]; simpl; [reflexivity|].
  now rewrite str_eqb_refl, IH.
Qed.

(** From a plan that can be shown, [main] draws it and enters the research
    loop when it is started. *)
Lemma main_from_plan_shown inp topic plan goal_queries_id goal queries qs w :
  plan_shows plan goal queries qs ->
  main_from_plan inp topic plan goal_queries_id w =
  (if start_clicked inp || get_research_started (session w)
   then research inp topic goal queries goal_queries_id
   else ret tt) (drawn (plan_page goal qs) w).
Proof.
  intros [Hg [Hq Hi]]. unfold main_from_plan.
  rewrite (bind_ret _ _ _ _ _ (eq_trans (getitem_unfold _ _ _)
             (f_equal (fun o => (o, w)) Hg))).
  rewrite (bind_ret _ _ _ _ _ (eq_trans (getitem_unfold _ _ _)
             (f_equal (fun o => (o, w)) Hq))).
  rewrite !show_then, !drawn_drawn.
  unfold bind at 1. rewrite py_iter_unfold, Hi.
  rewrite (bind_ret _ _ _ _ _ (write_queries_unfold qs 1 _)).
  rewrite show_then, !drawn_drawn, get_session_then.
  change (session (drawn _ w)) with (session w).
  unfold plan_page. simpl app. reflexivity.
Qed.

(** From a plan whose goal cannot be read, [main] raises. *)
Lemma main_from_plan_no_goal inp topic plan goal_queries_id sg w :
  getitem_value plan (lit "goal") = Abort sg ->
  main_from_plan inp topic plan goal_queries_id w = (Abort sg, w).
Proof.
  intros Hg. unfold main_from_plan. apply bind_abort.
  rewrite getitem_unfold, Hg. reflexivity.
Qed.

(** X4. A run that finds the questions and the plan of its topic and
    answers in the session, and in which research is not started, makes no
    request and changes nothing in the session: it draws the questions,
    the goal and the queries, and ends. *)
Theorem cached_run_makes_no_request
    (inp : inputs) (w : world) (questions : list pystr) (clarify_id : pystr)
    (plan : json) (plan_id : pystr) (goal queries : json)
    (qs : list json) :
  key_missing inp = false ->
  topic_of inp <> [] ->
  clarify_data (session w) = Some (questions, clarify_id) ->
  last_topic (session w) = Some (topic_of inp) ->
  all_answered inp questions = true ->
  goal_plan (session w) = Some plan ->
  last_answers (session w) = Some (answers_of inp questions) ->
  goal_queries_id (session w) = Some plan_id ->
  plan_shows plan goal queries qs ->
  start_clicked inp = false ->
  get_research_started (session w) = false ->
  main inp w =
    (Ret tt,
     {| session := session w; script := script w; calls := calls w;
        screen := screen w ++ page_to_answers questions
                  ++ plan_page goal qs;
        interpreter := interpreter w |}).
Proof.
  intros Hkey Htopic Hcd Hlast Hans Hplan Hla Hid Hshows Hstart Hrs.
  unfold key_missing in Hkey.
  destruct (api_key inp) as [k|] eqn:Ek; [|discriminate].
  apply negb_false_iff in Hkey. apply truthy_iff in Htopic.
  rewrite (main_to_answers inp w k questions clarify_id Ek Hkey Htopic Hcd)
    by (rewrite Hlast; apply str_eqb_refl).
  rewrite (main_from_answers_to_plan inp _ questions clarify_id _ Hans).
  change (session (drawn _ w)) with (session w).
  unfold plan_step. rewrite Hplan, Hla. unfold opt_strs_eqb.
  rewrite strs_eqb_refl, Hid, ret_then. cbn [fst snd].
  rewrite (main_from_plan_shown inp _ plan plan_id goal queries qs _
             Hshows).
  change (session (drawn _ (drawn _ w))) with (session w).
  rewrite Hstart, Hrs. unfold ret, drawn, page_to_answers. simpl.
  rewrite <- !app_assoc. reflexivity.
Qed.

(** ** New questions and a new plan *)

Lemma questions_step_new topic s :
  questions_cached topic s = false ->
  questions_step topic s = new_questions topic.
Proof.
  unfold questions_cached, questions_step.
  destruct (clarify_data s); [|reflexivity]. now intros ->.
Qed.

Lemma plan_step_new topic questions answers clarify_id s :
  plan_cached answers s = false ->
  plan_step topic questions answers clarify_id s =
  new_plan topic questions answers clarify_id.
Proof.
  unfold plan_cached, plan_step.
  destruct (goal_plan s); [|reflexivity]. now intros ->.
Qed.

Lemma new_questions_unfold topic w :
  new_questions topic w =
  let w1 := after_call (clarify_request topic) (drawn [SpinnerQuestions] w) in
  match script w with
  | Replies r :: _ =>
      match first_text_value r with
      | Ret t =>
          (Ret (questions_of t, response_id r),
           with_session
             (keep_questions topic (questions_of t) (response_id r)) w1)
      | Abort sg => (Abort sg, w1)
      end
  | _ => (Abort (Exception APIError), w1)
  end.
Proof.
  unfold new_questions. rewrite show_then.
  unfold bind at 1. rewrite get_clarifying_questions_unfold.
  change (script (drawn _ w)) with (script w).
  destruct (script w) as [|[r|] rest]; try reflexivity.
  destruct (first_text_value r) as [t|sg]; reflexivity.
Qed.

Lemma new_plan_unfold topic questions answers clarify_id w :
  new_plan topic questions answers clarify_id w =
  let w1 := after_call (goals_request topic questions answers clarify_id)
              (drawn [SpinnerPlan] w) in
  match script w with
  | Replies r :: _ =>
      match first_text_value r with
      | Ret t =>
          match json_loads (interpreter w) t with
          | Decoded plan =>
              (Ret (plan, response_id r),
               with_session (keep_plan plan (response_id r) answers) w1)
          | Refused f => (Abort (Exception (raised f)), w1)
          end
      | Abort sg => (Abort sg, w1)
      end
  | _ => (Abort (Exception APIError), w1)
  end.
Proof.
  unfold new_plan. rewrite show_then.
  unfold bind at 1. rewrite get_goal_and_queries_unfold.
  change (script (drawn _ w)) with (script w).
  destruct (script w) as [|[r|] rest]; try reflexivity.
  destruct (first_text_value r) as [t|sg]; [|reflexivity].
  change (interpreter (drawn _ w)) with (interpreter w).
  destruct (json_loads (interpreter w) t) as [plan|f]; reflexivity.
Qed.

(** X5. The first run of a topic with all answers given and research not
    started makes two requests, the second chained to the first: the
    questions are asked with the small model, the plan with the questions,
    the answers and the identifier of the first response. The session then
    holds the questions with that identifier, the topic, the plan with the
    identifier of the second response and the answers; the page shows
    goal and queries. *)
Theorem first_run_asks_questions_then_plan
    (inp : inputs) (w : world) (r1 r2 : response) (rest : list reply)
    (t1 t2 : pystr) (plan goal queries : json) (qs : list json) :
  key_missing inp = false ->
  topic_of inp <> [] ->
  questions_cached (topic_of inp) (session w) = false ->
  script w = Replies r1 :: Replies r2 :: rest ->
  first_text_value r1 = Ret t1 ->
  all_answered inp (questions_of t1) = true ->
  plan_cached (answers_of inp (questions_of t1)) (session w) = false ->
  first_text_value r2 = Ret t2 ->
  json_loads (interpreter w) t2 = Decoded plan ->
  plan_shows plan goal queries qs ->
  start_clicked inp = false ->
  get_research_started (session w) = false ->
  main inp w =
    (Ret tt,
     {| session :=
          keep_plan plan (response_id r2) (answers_of inp (questions_of t1))
            (keep_questions (topic_of inp) (questions_of t1) (response_id r1)
               (session w));
        script := rest;
        calls := calls w
                 ++ [clarify_request (topic_of inp);
                     goals_request (topic_of inp) (questions_of t1)
                       (answers_of inp (questions_of t1)) (response_id r1)];
        screen := screen w
                  ++ [PageConfig; Title; Intro; TopicInput; SpinnerQuestions;
                      SubheaderAnswers]
                  ++ answer_inputs 0 (questions_of t1)
                  ++ [SpinnerPlan] ++ plan_page goal qs;
        interpreter := interpreter w |}).
Proof.
  intros Hkey Htopic Hqc Hs Ht1 Hans Hpc Ht2 Hj Hshows Hstart Hrs.
  unfold key_missing in Hkey.
  destruct (api_key inp) as [k|] eqn:Ek; [|discriminate].
  apply negb_false_iff in Hkey. apply truthy_iff in Htopic.
  rewrite (main_to_questions inp w k Ek Hkey Htopic).
  rewrite (questions_step_new _ _ Hqc).
  unfold bind at 1. rewrite new_questions_unfold.
  change (script (drawn _ w)) with (script w). rewrite Hs, Ht1.
  cbv zeta beta iota. cbn [fst snd].
  rewrite (main_from_answers_to_plan inp _ (questions_of t1) _ _ Hans).
  rewrite plan_step_new by exact Hpc.
  unfold bind at 1. rewrite new_plan_unfold.
  cbn [script interpreter drawn with_session after_call tl].
  rewrite Hs. cbn [tl].
  rewrite Ht2, Hj. cbv zeta beta iota. cbn [fst snd].
  rewrite (main_from_plan_shown inp _ plan _ goal queries qs _ Hshows).
  cbn [session drawn with_session after_call].
  change (get_research_started
            (keep_plan plan (response_id r2) (answers_of inp (questions_of t1))
               (keep_questions (topic_of inp) (questions_of t1)
                  (response_id r1) (session w))))
    with (get_research_started (session w)).
  rewrite Hstart, Hrs. unfold ret, drawn, with_session, after_call. simpl.
  rewrite Hs. simpl. rewrite <- !app_assoc. reflexivity.
Qed.

(** X6. The plan is kept by the answers alone. A run with a new topic asks
    for new questions, but when the session holds a plan made from the
    same answers it makes no plan request and shows the plan it holds. *)
Theorem plan_cache_ignores_the_topic
    (inp : inputs) (w : world) (r1 : response) (rest : list reply)
    (t1 : pystr) (plan : json) (plan_id : pystr) (goal queries : json)
    (qs : list json) :
  key_missing inp = false ->
  topic_of inp <> [] ->
  questions_cached (topic_of inp) (session w) = false ->
  script w = Replies r1 :: rest ->
  first_text_value r1 = Ret t1 ->
  all_answered inp (questions_of t1) = true ->
  goal_plan (session w) = Some plan ->
  last_answers (session w) = Some (answers_of inp (questions_of t1)) ->
  goal_queries_id (session w) = Some plan_id ->
  plan_shows plan goal queries qs ->
  start_clicked inp = false ->
  get_research_started (session w) = false ->
  main inp w =
    (Ret tt,
     {| session :=
          keep_questions (topic_of inp) (questions_of t1) (response_id r1)
            (session w);
        script := rest;
        calls := calls w ++ [clarify_request (topic_of inp)];
        screen := screen w
                  ++ [PageConfig; Title; Intro; TopicInput; SpinnerQuestions;
                      SubheaderAnswers]
                  ++ answer_inputs 0 (questions_of t1)
                  ++ plan_page goal qs;
        interpreter := interpreter w |}).
Proof.
  intros Hkey Htopic Hqc Hs Ht1 Hans Hplan Hla Hid Hshows Hstart Hrs.
  unfold key_missing in Hkey.
  destruct (api_key inp) as [k|] eqn:Ek; [|discriminate].
  apply negb_false_iff in Hkey. apply truthy_iff in Htopic.
  rewrite (main_to_questions inp w k Ek Hkey Htopic).
  rewrite (questions_step_new _ _ Hqc).
  unfold bind at 1. rewrite new_questions_unfold.
  change (script (drawn _ w)) with (script w). rewrite Hs, Ht1.
  cbv zeta beta iota. cbn [fst snd].
  rewrite (main_from_answers_to_plan inp _ (questions_of t1) _ _ Hans).
  unfold plan_step.
  cbn [session drawn with_session after_call].
  change (goal_plan (keep_questions (topic_of inp) (questions_of t1)
                       (response_id r1) (session w)))
    with (goal_plan (session w)).
  change (last_answers (keep_questions (topic_of inp) (questions_of t1)
                          (response_id r1) (session w)))
    with (last_answers (session w)).
  change (goal_queries_id (keep_questions (topic_of inp) (questions_of t1)
                             (response_id r1) (session w)))
    with (goal_queries_id (session w)).
  rewrite Hplan, Hla. unfold opt_strs_eqb.
  rewrite strs_eqb_refl, Hid, ret_then. cbn [fst snd].
  rewrite (main_from_plan_shown inp _ plan plan_id goal queries qs _ Hshows).
  cbn [session drawn with_session after_call].
  change (get_research_started
            (keep_questions (topic_of inp) (questions_of t1)
               (response_id r1) (session w)))
    with (get_research_started (session w)).
  rewrite Hstart, Hrs. unfold ret, drawn, with_session, after_call. simpl.
  rewrite Hs. simpl. rewrite <- !app_assoc. reflexivity.
Qed.

(** ** Plans that cannot be read, requests that fail *)

(** X7. The plan is kept before it is read. When the reply to the plan
    request decodes to a value whose ['goal'] cannot be read (a dict
    without the key: [KeyError]; not a dict: [TypeError]), the run ends
    with that exception, the plan already in the session; and every later
    run with the same topic and answers ends with the same exception
    without a request, the session unchanged. *)
Theorem unreadable_plan_is_kept
    (inp : inputs) (w : world) (questions : list pystr) (clarify_id : pystr)
    (r2 : response) (rest : list reply) (t2 : pystr) (plan : json)
    (sg : signal) :
  key_missing inp = false ->
  topic_of inp <> [] ->
  clarify_data (session w) = Some (questions, clarify_id) ->
  last_topic (session w) = Some (topic_of inp) ->
  all_answered inp questions = true ->
  plan_cached (answers_of inp questions) (session w) = false ->
  script w = Replies r2 :: rest ->
  first_text_value r2 = Ret t2 ->
  json_loads (interpreter w) t2 = Decoded plan ->
  getitem_value plan (lit "goal") = Abort sg ->
  main inp w =
    (Abort sg,
     {| session :=
          keep_plan plan (response_id r2) (answers_of inp questions)
            (session w);
        script := rest;
        calls := calls w
                 ++ [goals_request (topic_of inp) questions
                       (answers_of inp questions) clarify_id];
        screen := screen w ++ page_to_answers questions ++ [SpinnerPlan];
        interpreter := interpreter w |})
  /\ forall w1,
       session w1 =
         keep_plan plan (response_id r2) (answers_of inp questions)
           (session w) ->
       main inp w1 =
         (Abort sg,
          {| session := session w1; script := script w1; calls := calls w1;
             screen := screen w1 ++ page_to_answers questions;
             interpreter := interpreter w1 |}).
Proof.
  intros Hkey Htopic Hcd Hlast Hans Hpc Hs Ht2 Hj Hg.
  unfold key_missing in Hkey.
  destruct (api_key inp) as [k|] eqn:Ek; [|discriminate].
  apply negb_false_iff in Hkey. apply truthy_iff in Htopic.
  split.
  - rewrite (main_to_answers inp w k questions clarify_id Ek Hkey Htopic Hcd)
      by (rewrite Hlast; apply str_eqb_refl).
    rewrite (main_from_answers_to_plan inp _ questions clarify_id _ Hans).
    rewrite plan_step_new by exact Hpc.
    unfold bind at 1. rewrite new_plan_unfold.
    cbn [script interpreter drawn]. rewrite Hs, Ht2, Hj. cbv zeta beta iota.
    cbn [fst snd]. rewrite (main_from_plan_no_goal _ _ _ _ sg _ Hg).
    unfold drawn, with_session, after_call, page_to_answers. simpl.
    rewrite Hs. simpl. rewrite <- !app_assoc. reflexivity.
  - intros w1 Hw1.
    assert (Hcd1 : clarify_data (session w1) = Some (questions, clarify_id))
      by (rewrite Hw1; exact Hcd).
    assert (Hlast1 : last_topic (session w1) = Some (topic_of inp))
      by (rewrite Hw1; exact Hlast).
    rewrite (main_to_answers inp w1 k questions clarify_id Ek Hkey Htopic Hcd1)
      by (rewrite Hlast1; apply str_eqb_refl).
    rewrite (main_from_answers_to_plan inp _ questions clarify_id _ Hans).
    change (session (drawn _ w1)) with (session w1).
    assert (Hp1 : goal_plan (session w1) = Some plan)
      by (rewrite Hw1; reflexivity).
    assert (Ha1 : last_answers (session w1)
                  = Some (answers_of inp questions))
      by (rewrite Hw1; reflexivity).
    assert (Hi1 : goal_queries_id (session w1) = Some (response_id r2))
      by (rewrite Hw1; reflexivity).
    unfold plan_step. rewrite Hp1, Ha1, Hi1.
    unfold opt_strs_eqb. rewrite strs_eqb_refl, ret_then. cbn [fst snd].
    rewrite (main_from_plan_no_goal _ _ _ _ sg _ Hg).
    unfold drawn, page_to_answers. simpl.
    rewrite <- !app_assoc. reflexivity.
Qed.

(** X8. Whatever makes plan generation fail (the service, the shape of the
    response, the decoding) ends the run with that failure, after the one
    request, and leaves the session as it was: nothing is kept, and the
    next run asks again. *)
Theorem failed_plan_request_keeps_nothing
    (inp : inputs) (w : world) (questions : list pystr) (clarify_id : pystr)
    (sg : signal) :
  key_missing inp = false ->
  topic_of inp <> [] ->
  clarify_data (session w) = Some (questions, clarify_id) ->
  last_topic (session w) = Some (topic_of inp) ->
  all_answered inp questions = true ->
  plan_cached (answers_of inp questions) (session w) = false ->
  fst (get_goal_and_queries (topic_of inp) questions
         (answers_of inp questions) clarify_id w) = Abort sg ->
  main inp w =
    (Abort sg,
     {| session := session w;
        script := tl (script w);
        calls := calls w
                 ++ [goals_request (topic_of inp) questions
                       (answers_of inp questions) clarify_id];
        screen := screen w ++ page_to_answers questions ++ [SpinnerPlan];
        interpreter := interpreter w |}).
Proof.
  intros Hkey Htopic Hcd Hlast Hans Hpc Hfail.
  unfold key_missing in Hkey.
  destruct (api_key inp) as [k|] eqn:Ek; [|discriminate].
  apply negb_false_iff in Hkey. apply truthy_iff in Htopic.
  rewrite (main_to_answers inp w k questions clarify_id Ek Hkey Htopic Hcd)
    by (rewrite Hlast; apply str_eqb_refl).
  rewrite (main_from_answers_to_plan inp _ questions clarify_id _ Hans).
  rewrite plan_step_new by exact Hpc.
  rewrite get_goal_and_queries_unfold in Hfail. cbn [fst] in Hfail.
  unfold bind at 1. rewrite new_plan_unfold.
  cbn [script interpreter drawn]. cbv zeta.
  unfold drawn, after_call, page_to_answers.
  cbn [session script calls screen interpreter].
  rewrite <- !app_assoc.
  change ([PageConfig; Title; Intro; TopicInput; SubheaderAnswers]
          ++ answer_inputs 0 questions ++ [SpinnerPlan])
    with ([PageConfig; Title; Intro; TopicInput]
          ++ (SubheaderAnswers :: answer_inputs 0 questions)
          ++ [SpinnerPlan]).
  destruct (script w) as [|[r|] rest].
  - injection Hfail as <-. reflexivity.
  - destruct (first_text_value r) as [t|sg'].
    + destruct (json_loads (interpreter w) t) as [plan|f]; [discriminate|].
      injection Hfail as <-. reflexivity.
    + injection Hfail as <-. reflexivity.
  - injection Hfail as <-. reflexivity.
Qed.

(** X9. Whatever makes question generation fail ends the run with that
    failure, after the one request, and leaves the session as it was. *)
Theorem failed_questions_request_keeps_nothing
    (inp : inputs) (w : world) (sg : signal) :
  key_missing inp = false ->
  topic_of inp <> [] ->
  questions_cached (topic_of inp) (session w) = false ->
  fst (get_clarifying_questions (topic_of inp) w) = Abort sg ->
  main inp w =
    (Abort sg,
     {| session := session w;
        script := tl (script w);
        calls := calls w ++ [clarify_request (topic_of inp)];
        screen := screen w
                  ++ [PageConfig; Title; Intro; TopicInput;
                      SpinnerQuestions];
        interpreter := interpreter w |}).
Proof.
  intros Hkey Htopic Hqc Hfail.
  unfold key_missing in Hkey.
  destruct (api_key inp) as [k|] eqn:Ek; [|discriminate].
  apply negb_false_iff in Hkey. apply truthy_iff in Htopic.
  rewrite (main_to_questions inp w k Ek Hkey Htopic).
  rewrite (questions_step_new _ _ Hqc).
  rewrite get_clarifying_questions_unfold in Hfail. cbn [fst] in Hfail.
  unfold bind at 1. rewrite new_questions_unfold.
  cbn [script interpreter drawn]. cbv zeta.
  unfold drawn, after_call.
  cbn [session script calls screen interpreter].
  rewrite <- !app_assoc.
  destruct (script w) as [|[r|] rest].
  - injection Hfail as <-. reflexivity.
  - destruct (first_text_value r) as [t|sg']; [discriminate|].
    injection Hfail as <-. reflexivity.
  - injection Hfail as <-. reflexivity.
Qed.

(** ** After the searches *)

Lemma search_phase_collected aliased collected current_queries iteration_count
    w collected' w' :
  search_phase aliased collected current_queries iteration_count w
    = (Ret collected', w') ->
  get_collected (session w') = collected'.
Proof.
  unfold search_phase. rewrite !show_then, drawn_drawn.
  unfold bind at 1.
  destruct (py_iter current_queries _) as [[qs|sg] w1]; [|discriminate].
  unfold bind at 1.
  destruct (run_searches aliased _ 0 qs collected w1) as [[c|sg] w2];
    [|discriminate].
  rewrite !modify_then. intros [= <- <-]. reflexivity.
Qed.

(** X10. The results and the counter are stored before the evaluation.
    When the searches of a pass complete and the evaluation then fails, the
    run ends with that failure, and the session holds the results of the
    pass and a counter one higher: the failed pass counts against the
    limit. *)
Theorem failed_evaluation_uses_up_a_pass
    (inp : inputs) (topic : pystr) (goal queries : json) (plan_id : pystr)
    (w : world) (collected' : list json) (w2 w3 : world) (sg : signal) :
  (get_iteration_count (session w) < max_iterations)%Z ->
  search_phase
    (match collected (session w) with Some _ => true | None => false end)
    (get_collected (session w))
    (get_current_queries (session w) queries)
    (get_iteration_count (session w))
    (with_session (set_research_started (Some true)) w) = (Ret collected', w2) ->
  evaluate goal collected' (drawn [SubheaderEvaluating; SpinnerEvaluating] w2)
    = (Abort sg, w3) ->
  research inp topic goal queries plan_id w = (Abort sg, w3) /\
  get_iteration_count (session w3) = (get_iteration_count (session w) + 1)%Z /\
  get_collected (session w3) = collected'.
Proof.
  intros Hlt Hsearch Heval. apply Z.ltb_lt in Hlt.
  pose proof (evaluate_session goal collected'
                (drawn [SubheaderEvaluating; SpinnerEvaluating] w2)) as Hses.
  rewrite Heval in Hses. cbn [snd] in Hses.
  change (session (drawn _ w2)) with (session w2) in Hses.
  split; [|split].
  - unfold research. rewrite modify_then, get_session_then.
    change (session (with_session (set_research_started (Some true)) w))
      with (set_research_started (Some true) (session w)).
    change (collected (set_research_started (Some true) (session w)))
      with (collected (session w)).
    change (get_iteration_count (set_research_started (Some true) (session w)))
      with (get_iteration_count (session w)).
    change (get_collected (set_research_started (Some true) (session w)))
      with (get_collected (session w)).
    change (get_current_queries (set_research_started (Some true) (session w))
              queries)
      with (get_current_queries (session w) queries).
    rewrite Hlt.
    rewrite (bind_ret _ _ _ _ _ Hsearch).
    rewrite !show_then, drawn_drawn.
    apply bind_abort. exact Heval.
  - rewrite Hses. apply (search_phase_count _ _ _ _ _ _ _ Hsearch).
  - rewrite Hses. apply (search_phase_collected _ _ _ _ _ _ _ Hsearch).
Qed.

(** X11. Re-planning writes one key only. Whatever the reply, after the
    step the session is as it was or differs in ['current_queries'] alone;
    and the step makes exactly one request, chained to the response that
    gave the plan. *)
Theorem replan_writes_current_queries_only
    (goal : json) (collected : list json) (plan_id : pystr) (w : world) :
  (session (snd (replan goal collected plan_id w)) = session w \/
   exists l,
     session (snd (replan goal collected plan_id w))
     = set_current_queries (Some l) (session w))
  /\ calls (snd (replan goal collected plan_id w))
     = calls w ++ [more_searches_request goal collected plan_id].
Proof.
  rewrite replan_unfold. cbv zeta.
  destruct (script w) as [|[r|] rest]; try (split; [left|]; reflexivity).
  destruct (first_text_value r) as [t|sg]; [|split; [left|]; reflexivity].
  destruct (json_loads (interpreter w) t) as [[| | | | |l|]|[| |]];
    try (split; [left|]; reflexivity).
  split; [right; exists l|]; reflexivity.
Qed.

(** Once the session holds current queries, the queries of the plan are
    not read. *)
Lemma research_reads_current_queries inp topic goal queries queries' plan_id
    w l :
  current_queries (session w) = Some l ->
  research inp topic goal queries plan_id w
  = research inp topic goal queries' plan_id w.
Proof.
  intros Hl. unfold research. rewrite !modify_then, !get_session_then.
  change (session (with_session (set_research_started (Some true)) w))
    with (set_research_started (Some true) (session w)).
  unfold get_current_queries.
  change (current_queries (set_research_started (Some true) (session w)))
    with (current_queries (session w)).
  rewrite Hl. reflexivity.
Qed.

(** X12. The reset after a report leaves the current queries in place.
    When re-planning has stored queries, a finished research keeps them,
    and the pass of the next research reads them and never the queries of
    the plan. *)
Theorem replanned_queries_outlive_the_report
    (inp : inputs) (topic : pystr) (goal : json) (collected : list json)
    (w : world) (l : list json) :
  current_queries (session w) = Some l ->
  new_clicked inp = false ->
  current_queries (session (snd (finish inp topic goal collected w))) = Some l
  /\ forall inp' topic' goal' queries queries' plan_id,
       research inp' topic' goal' queries plan_id
         (snd (finish inp topic goal collected w))
       = research inp' topic' goal' queries' plan_id
           (snd (finish inp topic goal collected w)).
Proof.
  intros Hl Hnew.
  assert (H : current_queries
                (session (snd (finish inp topic goal collected w))) = Some l).
  { rewrite finish_unfold, Hnew. cbv zeta.
    destruct (script w) as [|[r|] rest]; try exact Hl.
    destruct (first_text_value r) as [t|sg]; exact Hl. }
  split; [exact H|].
  intros. apply (research_reads_current_queries _ _ _ _ _ _ _ l H).
Qed.

(** X13. Starting a new research deletes every key. After a report, with
    the button pressed, the run ends asking for a rerun and the session is
    empty: the questions and the plan are gone with the research state, so
    the next run asks the service for questions again. *)
Theorem new_research_empties_the_session
    (inp : inputs) (topic : pystr) (goal : json) (collected : list json)
    (w : world) (r : response) (rest : list reply) (final_report : pystr) :
  script w = Replies r :: rest ->
  first_text_value r = Ret final_report ->
  new_clicked inp = true ->
  fst (finish inp topic goal collected w) = Abort RerunScript /\
  session (snd (finish inp topic goal collected w)) = empty_session /\
  forall topic', questions_cached topic'
                   (session (snd (finish inp topic goal collected w))) = false.
Proof.
  intros Hs Ht Hnew. rewrite finish_unfold, Hs, Ht, Hnew. cbv zeta.
  repeat split.
Qed.

(** ** The start button *)

(** Two computations that agree step by step, under an invariant the first
    steps keep. *)
Lemma bind_sim {A B} (I : world -> Prop) (Q : A -> Prop) (m1 m2 : M A)
    (k1 k2 : A -> M B) w :
  (forall w0, m1 w0 = m2 w0) ->
  preserves I m2 Q ->
  I w ->
  (forall a w', Q a -> I w' -> k1 a w' = k2 a w') ->
  bind m1 k1 w = bind m2 k2 w.
Proof.
  intros Hm Hp Hw Hk. unfold bind. rewrite Hm.
  destruct (Hp w Hw) as [Hi Hq].
  destruct (m2 w) as [[a|sg] w1]; simpl in *; [|reflexivity].
  apply Hk; [apply Hq; reflexivity|exact Hi].
Qed.

Lemma get_answers_with_start b inp questions w :
  get_answers (with_start b inp) questions w = get_answers inp questions w.
Proof.
  unfold get_answers. rewrite !show_then, !ask_answers_unfold. reflexivity.
Qed.

(** X14. Once research is started the start button is not read. In a
    session whose ['research_started'] is true a run does the same, request
    by request and write by write, whether the button is pressed or not:
    every rerun goes on with the research. *)
Theorem started_research_goes_on_by_itself
    (inp : inputs) (w : world) (b : bool) :
  get_research_started (session w) = true ->
  main (with_start b inp) w = main inp w.
Proof.
  set (J := fun s : session_state => get_research_started s = true).
  intros Hw. change (on_session J w) in Hw.
  assert (I_show : forall u, preserves (on_session J) (show u) (fun _ => True))
    by (intros u; apply preserves_show).
  assert (I_create : forall rq, is_search rq = false ->
            preserves (on_session J) (create rq) (fun _ => True))
    by (intros rq _; apply preserves_create).
  assert (I_set : forall f,
            (forall s, research_started (f s) = research_started s) ->
            preserves (on_session J) (modify_session f) (fun _ => True)).
  { intros f Hf. apply preserves_modify. intros s Hs. unfold J in *.
    unfold get_research_started in *. now rewrite Hf. }
  unfold main.
  do 3 (apply (bind_sim (on_session J) (fun _ => True));
        [reflexivity|apply I_show|exact Hw|clear w Hw; intros _ w _ Hw]).
  apply (bind_sim (on_session J) (fun _ => True));
    [reflexivity|apply get_openai_client_keeps; apply I_show|exact Hw
    |clear w Hw; intros _ w _ Hw].
  apply (bind_sim (on_session J) (fun _ => True));
    [reflexivity|apply get_topic_keeps; apply I_show|exact Hw
    |clear w Hw; intros topic w _ Hw].
  destruct (negb (truthy topic)); [reflexivity|].
  apply (bind_sim (on_session J) (fun _ => True));
    [reflexivity|apply get_session_keeps|exact Hw
    |clear w Hw; intros s w _ Hw].
  assert (Hnq : preserves (on_session J) (new_questions topic) (fun _ => True)).
  { apply new_questions_keeps; try assumption;
      intros v; apply I_set; reflexivity. }
  apply (bind_sim (on_session J) (fun _ => True)); [reflexivity| |exact Hw|].
  { destruct (clarify_data s) as [cd|]; [|exact Hnq].
    destruct (opt_str_eqb (last_topic s) topic); [|exact Hnq].
    apply preserves_ret. exact Logic.I. }
  clear w Hw. intros [questions clarify_id] w _ Hw. cbv beta iota zeta.
  apply (bind_sim (on_session J) (fun _ => True));
    [apply get_answers_with_start| |exact Hw|].
  { unfold get_answers. eapply preserves_bind; [apply I_show|intros _ _].
    apply ask_answers_keeps. apply I_show. }
  clear w Hw. intros answers w _ Hw.
  destruct (negb (forallb _ answers)); [reflexivity|].
  apply (bind_sim (on_session J) J);
    [reflexivity|apply preserves_get_session|exact Hw
    |clear w Hw; intros s' w _ Hw].
  assert (Hnp : preserves (on_session J)
                  (new_plan topic questions answers clarify_id)
                  (fun _ => True)).
  { apply new_plan_keeps; try assumption;
      intros v; apply I_set; reflexivity. }
  apply (bind_sim (on_session J) (fun _ => True)); [reflexivity| |exact Hw|].
  { destruct (goal_plan s') as [plan|]; [|exact Hnp].
    destruct (opt_strs_eqb (last_answers s') answers); [|exact Hnp].
    destruct (goal_queries_id s');
      [apply preserves_ret; exact Logic.I|apply preserves_raise]. }
  clear w Hw. intros [plan plan_id] w _ Hw. cbv beta iota zeta.
  apply (bind_sim (on_session J) (fun _ => True));
    [reflexivity|apply preserves_pure, getitem_pure|exact Hw
    |clear w Hw; intros goal w _ Hw].
  apply (bind_sim (on_session J) (fun _ => True));
    [reflexivity|apply preserves_pure, getitem_pure|exact Hw
    |clear w Hw; intros queries w _ Hw].
  do 4 (apply (bind_sim (on_session J) (fun _ => True));
        [reflexivity|apply I_show|exact Hw|clear w Hw; intros _ w _ Hw]).
  apply (bind_sim (on_session J) (fun _ => True));
    [reflexivity|apply preserves_pure, py_iter_pure|exact Hw
    |clear w Hw; intros qs w _ Hw].
  apply (bind_sim (on_session J) (fun _ => True));
    [reflexivity|apply write_queries_keeps; apply I_show|exact Hw
    |clear w Hw; intros _ w _ Hw].
  apply (bind_sim (on_session J) (fun _ => True));
    [reflexivity|apply I_show|exact Hw|clear w Hw; intros _ w _ Hw].
  apply (bind_sim (on_session J) J);
    [reflexivity|apply preserves_get_session|exact Hw
    |clear w Hw; intros s'' w Hs'' Hw].
  unfold J in Hs''. rewrite Hs'', !orb_true_r. reflexivity.
Qed.

(** ** The questions of any reply *)

Lemma lstrip_head s :
  lstrip s = [] \/ exists c t, lstrip s = c :: t /\ isspace c = false.
Proof.
  induction s as [|c s IH]; simpl; [now left|].
  destruct (isspace c) eqn:E; [exact IH|]. right. now exists c, s.
Qed.

Lemma lstrip_suffix s : exists p, s = p ++ lstrip s.
Proof.
  induction s as [|c s [p IH]]; simpl; [now exists []|].
  destruct (isspace c); [|now exists []].
  exists (c :: p). simpl. now rewrite <- IH.
Qed.

Lemma lstrip_idem s : lstrip (lstrip s) = lstrip s.
Proof.
  destruct (lstrip_head s) as [->|[c [t [-> Hc]]]]; [reflexivity|].
  simpl. now rewrite Hc.
Qed.

(** A prefix of a left-stripped string is left-stripped. *)
Lemma lstrip_prefix s a b : lstrip s = a ++ b -> lstrip a = a.
Proof.
  intros E. destruct a as [|c a]; [reflexivity|].
  destruct (lstrip_head s) as [E0|[c' [t [E1 Hc]]]]; rewrite E in *;
    [discriminate|].
  injection E1 as -> _. simpl. now rewrite Hc.
Qed.

Lemma strip_strip s : strip (strip s) = strip s.
Proof.
  unfold strip, rstrip.
  destruct (lstrip_suffix (rev (lstrip s))) as [p Hp].
  assert (E : lstrip s = rev (lstrip (rev (lstrip s))) ++ rev p).
  { rewrite <- rev_app_distr, <- Hp. now rewrite rev_involutive. }
  rewrite (lstrip_prefix _ _ _ E), rev_involutive, lstrip_idem.
  reflexivity.
Qed.

Lemma lstrip_in c s : In c (lstrip s) -> In c s.
Proof.
  destruct (lstrip_suffix s) as [p E]. intros H. rewrite E.
  apply in_or_app. now right.
Qed.

Lemma strip_in c s : In c (strip s) -> In c s.
Proof.
  unfold strip, rstrip. intros H.
  apply in_rev, lstrip_in in H. apply in_rev in H. now apply lstrip_in.
Qed.

(** Every piece [split] cuts at line feeds is free of line feeds. *)
Lemma split_aux_no_newline s : forall cur,
  ~ In 10%N cur ->
  Forall (fun l => ~ In 10%N l) (split_aux newline 0 cur s).
Proof.
  induction s as [|c s IH]; intros cur Hcur.
  - constructor; [|constructor]. now rewrite <- in_rev.
  - rewrite split_aux_newline_cons.
    destruct (N.eqb_spec 10 c) as [E|Hc].
    + constructor; [now rewrite <- in_rev|]. apply IH. intros [].
    + apply IH. intros [H|H]; [now apply Hc|now apply Hcur].
Qed.

(** The first and the last code point of a stripped string are no
    whitespace. *)
Lemma strip_ends s :
  (forall c t, strip s = c :: t -> isspace c = false) /\
  (forall t c, strip s = t ++ [c] -> isspace c = false).
Proof.
  split.
  - intros c t E. pose proof (strip_strip s) as H. rewrite E in H.
    unfold strip in H. revert H. simpl lstrip.
    destruct (isspace c); [|reflexivity].
    intros H. exfalso.
    assert (L : List.length (rstrip (lstrip t)) <= List.length t).
    { unfold rstrip. rewrite length_rev.
      destruct (lstrip_suffix (rev (lstrip t))) as [p Hp].
      destruct (lstrip_suffix t) as [p' Hp'].
      apply (f_equal (@List.length N)) in Hp.
      apply (f_equal (@List.length N)) in Hp'.
      rewrite length_rev, length_app in Hp. rewrite length_app in Hp'.
      lia. }
    rewrite H in L. simpl in L. lia.
  - intros t c E. unfold strip, rstrip in E.
    apply (f_equal (@rev _)) in E. rewrite rev_involutive, rev_app_distr in E.
    simpl in E.
    destruct (lstrip_head (rev (lstrip s))) as [E0|[c' [t' [E1 Hc]]]];
      rewrite E in *; [discriminate|].
    now injection E1 as -> _.
Qed.

(** X15. Whatever text the reply carries, the questions taken from it are
    clean single lines: none is empty, none holds a line feed, and none
    begins or ends with whitespace, so stripping one again changes
    nothing. *)
Theorem questions_are_clean_lines
    (topic : pystr) (w : world) (questions : list pystr) (clarify_id : pystr) :
  fst (get_clarifying_questions topic w) = Ret (questions, clarify_id) ->
  Forall (fun q =>
            q <> [] /\ ~ In 10%N q /\ strip q = q /\
            (forall c t, q = c :: t -> isspace c = false) /\
            (forall t c, q = t ++ [c] -> isspace c = false)) questions.
Proof.
  rewrite get_clarifying_questions_unfold. cbn [fst].
  destruct (script w) as [|[r|] rest]; try discriminate.
  destruct (first_text_value r) as [t|sg]; [|discriminate].
  intros [= <- _]. apply Forall_map.
  apply Forall_forall. intros line Hin.
  apply filter_In in Hin as [Hin Hne].
  pose proof (split_aux_no_newline t [] (fun H => H)) as Hnl.
  rewrite Forall_forall in Hnl. specialize (Hnl line Hin).
  split; [now apply truthy_iff|].
  split; [intros H; apply Hnl; now apply strip_in|].
  split; [apply strip_strip|].
  destruct (strip_ends line) as [Hfirst Hlast].
  split; assumption.
Qed.

(** ** The search loop, query by query *)

(** One turn of the loop, by the test and the reply. *)
Lemma run_searches_cons aliased total i q rest collected w :
  Forall is_result collected ->
  run_searches aliased total i (q :: rest) collected w =
  if seen_in q collected
  then run_searches aliased total (i + 1) rest collected w
  else
    let w1 := after_call (search_request q)
                (drawn [Progress (i + 1) total; SpinnerSearching q] w) in
    match script w with
    | Replies r :: _ =>
        match nth_error (output r) 1 with
        | Some item =>
            match content item with
            | Some (block :: _) =>
                run_searches aliased total (i + 1) rest
                  (collected ++ [result_of q (item_id item) (text block)])
                  (searched aliased total i q
                     (collected ++ [result_of q (item_id item) (text block)])
                     (text block) w)
            | Some [] => (Abort (Exception IndexError), w1)
            | None => (Abort (Exception AttributeError), w1)
            end
        | None => (Abort (Exception IndexError), w1)
        end
    | _ => (Abort (Exception APIError), w1)
    end.
Proof.
  intros Hres.
  change (run_searches aliased total i (q :: rest) collected w)
    with (bind (already_searched q collected)
            (fun seen =>
               if negb seen then
                 show (Progress (i + 1) total) ;;
                 show (SpinnerSearching q) ;;
                 result <- run_search q ;;
                 (if aliased
                  then modify_session
                         (set_collected (Some (collected ++ [result])))
                  else ret tt) ;;
                 show (ExpanderResults q) ;;
                 research_output <- getitem result (lit "research_output") ;;
                 research_output <- as_str research_output ;;
                 show (TextAreaOutput (preview 300 research_output)) ;;
                 run_searches aliased total (i + 1) rest (collected ++ [result])
               else run_searches aliased total (i + 1) rest collected) w).
  rewrite (bind_ret _ _ _ _ _ (already_searched_unfold q collected w Hres)).
  destruct (seen_in q collected); cbv beta iota delta [negb]; [reflexivity|].
  rewrite !show_then, drawn_drawn.
  unfold bind at 1. rewrite run_search_unfold.
  change (script (drawn _ w)) with (script w). simpl app.
  destruct (script w) as [|[r|] more]; try reflexivity.
  destruct (nth_error (output r) 1) as [item|]; [|reflexivity].
  destruct (content item) as [[|block blocks]|]; try reflexivity.
  cbv zeta. unfold searched.
  destruct aliased; [rewrite modify_then|rewrite ret_then];
    rewrite show_then;
    change (getitem (result_of q (item_id item) (text block))
              (lit "research_output"))
      with (@ret json (JStr (text block)));
    rewrite ret_then;
    change (as_str (JStr (text block))) with (@ret pystr (text block));
    rewrite ret_then, show_then, drawn_drawn; reflexivity.
Qed.

Lemma seen_in_queries q collected :
  seen_in q collected = existsb (fun v => py_eq v q) (queries_of collected).
Proof.
  induction collected as [|item rest IH]; [reflexivity|].
  unfold seen_in, queries_of in *. simpl.
  destruct (query_of item) as [v|]; simpl; now rewrite IH.
Qed.

Lemma queries_of_app a b : queries_of (a ++ b) = queries_of a ++ queries_of b.
Proof. unfold queries_of. apply flat_map_app. Qed.

Lemma queries_of_result q resp_id research_output :
  queries_of [result_of q resp_id research_output] = [q].
Proof. reflexivity. Qed.

Lemma search_result_is_result q r result :
  search_result q r = Some result -> is_result result.
Proof.
  unfold search_result.
  destruct (nth_error (output r) 1) as [item|]; [|discriminate].
  destruct (content item) as [[|block blocks]|]; try discriminate.
  intros [= <-]. now exists q, (item_id item), (text block).
Qed.

Lemma search_result_query q r result :
  search_result q r = Some result -> queries_of [result] = [q].
Proof.
  unfold search_result.
  destruct (nth_error (output r) 1) as [item|]; [|discriminate].
  destruct (content item) as [[|block blocks]|]; try discriminate.
  intros [= <-]. reflexivity.
Qed.

(** The loop when every search gives a result. *)
Lemma run_searches_results aliased total queries :
  forall i collected w rs rest results,
  Forall is_result collected ->
  script w = map Replies rs ++ rest ->
  search_results (fresh_queries queries (queries_of collected)) rs
    = Some results ->
  fst (run_searches aliased total i queries collected w)
    = Ret (collected ++ results) /\
  calls (snd (run_searches aliased total i queries collected w))
    = calls w
      ++ map search_request (fresh_queries queries (queries_of collected)) /\
  script (snd (run_searches aliased total i queries collected w)) = rest /\
  session (snd (run_searches aliased total i queries collected w))
    = appended aliased collected results (session w).
Proof.
  induction queries as [|q queries IH];
    intros i collected w rs rest results Hres Hs Hr.
  - simpl in Hr. destruct rs; [|discriminate]. injection Hr as <-.
    simpl. rewrite !app_nil_r. repeat split; [exact Hs|].
    destruct aliased; reflexivity.
  - rewrite run_searches_cons by exact Hres.
    cbn [fresh_queries] in Hr |- *. rewrite <- seen_in_queries in Hr |- *.
    destruct (seen_in q collected); [now apply (IH _ _ _ rs)|].
    cbv zeta. cbn [search_results] in Hr.
    destruct rs as [|r rs]; [discriminate|].
    destruct (search_result q r) as [result|] eqn:Er; [|discriminate].
    destruct (search_results _ rs) as [results'|] eqn:Ers; [|discriminate].
    injection Hr as <-.
    pose proof (search_result_is_result _ _ _ Er) as Hresult.
    pose proof (search_result_query _ _ _ Er) as Hq.
    rewrite Hs. cbn [map app].
    unfold search_result in Er.
    destruct (nth_error (output r) 1) as [item|]; [|discriminate].
    destruct (content item) as [[|block blocks]|]; try discriminate.
    injection Er as <-.
    set (result := result_of q (item_id item) (text block)) in *.
    assert (Hres' : Forall is_result (collected ++ [result]))
      by (apply Forall_app; split; [assumption|now constructor]).
    assert (Hr' : search_results
                    (fresh_queries queries (queries_of (collected ++ [result])))
                    rs = Some results')
      by (rewrite queries_of_app, Hq; exact Ers).
    assert (Hs' : script (searched aliased total i q (collected ++ [result])
                            (text block) w) = map Replies rs ++ rest)
      by (unfold searched; destruct aliased; cbn; now rewrite Hs).
    destruct (IH (i + 1) _ _ rs rest results' Hres' Hs' Hr')
      as [Hfst [Hcalls [Hscript Hsession]]].
    rewrite Hfst, Hcalls, Hscript, Hsession.
    rewrite queries_of_app, Hq, <- !app_assoc.
    repeat split.
    + unfold searched. destruct aliased; cbn; now rewrite <- app_assoc.
    + unfold searched, appended. destruct aliased; [|reflexivity].
      cbn. destruct results'; [reflexivity|].
      now rewrite <- app_assoc.
Qed.

(** X16. The search loop, when every search gives a result and no two
    results have the same preview (Streamlit refuses a second text area
    with the label and the value of an earlier one): the loop makes one
    search request for each fresh query, in the order of the batch (a
    query is fresh when it equals, by [==], no query collected before and
    no earlier query of the batch), consumes one reply for each, and hands
    back the collected list with the results appended in that order. *)
Theorem searches_are_the_fresh_queries
    (aliased : bool) (total i : nat) (queries collected : list json)
    (w : world) (rs : list response) (rest : list reply)
    (results : list json) :
  Forall is_result collected ->
  script w = map Replies rs ++ rest ->
  search_results (fresh_queries queries (queries_of collected)) rs
    = Some results ->
  NoDup (previews_of results) ->
  fst (run_searches aliased total i queries collected w)
    = Ret (collected ++ results) /\
  calls (snd (run_searches aliased total i queries collected w))
    = calls w
      ++ map search_request (fresh_queries queries (queries_of collected)) /\
  script (snd (run_searches aliased total i queries collected w)) = rest /\
  queries_of results = fresh_queries queries (queries_of collected).
Proof.
  intros Hres Hs Hr _.
  destruct (run_searches_results aliased total queries i collected w rs rest
              results Hres Hs Hr) as [Hfst [Hcalls [Hscript _]]].
  repeat split; try assumption.
  clear - Hr. revert rs results Hr.
  generalize (fresh_queries queries (queries_of collected)) as qs.
  induction qs as [|q qs IH]; intros [|r rs] results Hr; simpl in Hr;
    try discriminate.
  - now injection Hr as <-.
  - destruct (search_result q r) as [result|] eqn:Er; [|discriminate].
    destruct (search_results qs rs) as [results'|] eqn:Ers; [|discriminate].
    injection Hr as <-.
    change (result :: results') with ([result] ++ results').
    rewrite queries_of_app, (search_result_query _ _ _ Er).
    simpl. f_equal. now apply (IH rs).
Qed.

(** The loop when a search fails. *)
Lemma run_searches_abort aliased total queries :
  forall i collected w sg w',
  Forall is_result collected ->
  run_searches aliased total i queries collected w = (Abort sg, w') ->
  exists results q,
    Forall is_result results /\
    calls w' = calls w ++ map search_request (queries_of results ++ [q]) /\
    session w' = appended aliased collected results (session w).
Proof.
  induction queries as [|q queries IH]; intros i collected w sg w' Hres Hrun;
    [discriminate|].
  rewrite run_searches_cons in Hrun by exact Hres.
  destruct (seen_in q collected); [now apply (IH _ _ _ _ _ Hres Hrun)|].
  cbv zeta in Hrun.
  assert (Hfault : forall e,
            (@Abort (list json) (Exception e),
             after_call (search_request q)
               (drawn [Progress (i + 1) total; SpinnerSearching q] w))
            = (Abort sg, w') ->
            exists results q0,
              Forall is_result results /\
              calls w' = calls w
                         ++ map search_request (queries_of results ++ [q0]) /\
              session w' = appended aliased collected results (session w)).
  { intros e [= _ <-]. exists [], q. split; [constructor|].
    split; [reflexivity|]. destruct aliased; reflexivity. }
  destruct (script w) as [|[r|] more]; try (now apply (Hfault _ Hrun)).
  destruct (nth_error (output r) 1) as [item|]; [|now apply (Hfault _ Hrun)].
  destruct (content item) as [[|block blocks]|];
    try (now apply (Hfault _ Hrun)).
  clear Hfault.
  set (result := result_of q (item_id item) (text block)) in *.
  assert (Hresult : is_result result)
    by (now exists q, (item_id item), (text block)).
  assert (Hres' : Forall is_result (collected ++ [result]))
    by (apply Forall_app; split; [assumption|now constructor]).
  destruct (IH _ _ _ _ _ Hres' Hrun) as [results [q0 [Hrs [Hcalls Hsession]]]].
  exists (result :: results), q0.
  split; [now constructor|]. split.
  - rewrite Hcalls. unfold searched. destruct aliased; cbn;
      now rewrite <- app_assoc.
  - rewrite Hsession. unfold searched, appended.
    destruct aliased; [|reflexivity].
    cbn. destruct results; [reflexivity|]. now rewrite <- app_assoc.
Qed.

(** X17. A search that raises ends the loop, and what becomes of the
    results obtained before it depends on whether the session already held
    a list under ['collected']. The loop has made a request for each result
    it obtained and for the query that failed; when the list was the one of
    the session, the session holds these results; when the list was a new
    one, the session is as it was and the results are lost. In both cases
    the iteration counter is as it was. *)
Theorem failed_search_keeps_results_only_in_a_shared_list
    (aliased : bool) (total i : nat) (queries collected : list json)
    (w w' : world) (sg : signal) :
  Forall is_result collected ->
  run_searches aliased total i queries collected w = (Abort sg, w') ->
  exists results q,
    Forall is_result results /\
    calls w' = calls w ++ map search_request (queries_of results ++ [q]) /\
    session w' = appended aliased collected results (session w) /\
    (aliased = false -> session w' = session w) /\
    get_iteration_count (session w') = get_iteration_count (session w).
Proof.
  intros Hres Hrun.
  destruct (run_searches_abort aliased total queries i collected w sg w'
              Hres Hrun) as [results [q [Hrs [Hcalls Hsession]]]].
  exists results, q. repeat split; try assumption.
  - intros ->. exact Hsession.
  - rewrite Hsession. unfold appended.
    destruct aliased; [|reflexivity]. destruct results; reflexivity.
Qed.

(** ** The progress bar *)

Section Drawing.

Variable P : ui -> Prop.
Variable page : list ui.

Lemma drawn_within_show u :
  P u -> preserves (drawn_within P page) (show u) (fun _ => True).
Proof.
  intros Hu w [us [Hs Hus]]. split; [|trivial].
  exists (us ++ [u]). split.
  - simpl. now rewrite Hs, app_assoc.
  - apply Forall_app. split; [assumption|now constructor].
Qed.

Lemma drawn_within_screen {A} (m : M A) :
  (forall w, screen (snd (m w)) = screen w) ->
  preserves (drawn_within P page) m (fun _ => True).
Proof.
  intros Hm w [us [Hs Hus]]. split; [|trivial].
  exists us. now rewrite Hm.
Qed.

End Drawing.

Lemma already_searched_pure q collected w :
  snd (already_searched q collected w) = w.
Proof.
  induction collected as [|item rest IH]; [reflexivity|].
  change (already_searched q (item :: rest) w)
    with (bind (getitem item (lit "query"))
            (fun v => if py_eq v q then ret true else already_searched q rest)
            w).
  unfold bind. pose proof (getitem_pure item (lit "query") w) as Hp.
  destruct (getitem item (lit "query") w) as [[v|sg] w1]; simpl in Hp; subst w1;
    [|reflexivity].
  destruct (py_eq v q); [reflexivity|exact IH].
Qed.

Lemma run_searches_progress (P : ui -> Prop) aliased total lo hi page
    queries :
  (forall u, progress_within lo hi total u -> P u) ->
  forall i collected,
  lo <= i -> i + List.length queries <= hi ->
  preserves (drawn_within P page)
    (run_searches aliased total i queries collected) (fun _ => True).
Proof.
  intros HP.
  induction queries as [|q rest IH]; intros i collected Hlo Hhi.
  - apply preserves_ret. exact Logic.I.
  - simpl in Hhi. simpl run_searches.
    eapply preserves_bind with (Q := fun _ => True);
      [apply preserves_pure, already_searched_pure|intros seen _].
    destruct (negb seen); [|apply IH; lia].
    eapply preserves_bind with (Q := fun _ => True);
      [apply drawn_within_show, HP; simpl; lia|intros _ _].
    eapply preserves_bind with (Q := fun _ => True);
      [apply drawn_within_show, HP; exact Logic.I|intros _ _].
    eapply preserves_bind with (Q := fun _ => True);
      [apply drawn_within_screen; intros w; now rewrite run_search_unfold
      |intros result _].
    eapply preserves_bind with (Q := fun _ => True);
      [destruct aliased;
       [apply drawn_within_screen; reflexivity
       |apply preserves_ret; exact Logic.I]
      |intros _ _].
    eapply preserves_bind with (Q := fun _ => True);
      [apply drawn_within_show, HP; exact Logic.I|intros _ _].
    eapply preserves_bind with (Q := fun _ => True);
      [apply preserves_pure, getitem_pure|intros v _].
    eapply preserves_bind with (Q := fun _ => True);
      [apply preserves_pure, as_str_pure|intros t _].
    eapply preserves_bind with (Q := fun _ => True);
      [apply drawn_within_show, HP; exact Logic.I|intros _ _].
    apply IH; lia.
Qed.

(** X18. The progress bar stays within its range. Whatever the queries,
    the replies and the way the pass ends, every value the pass sets the
    progress bar to is [done / total] with [0 < done <= total]: the
    fraction is above 0 and at most 1, and the division is never by
    zero. *)
Theorem progress_stays_in_range
    (aliased : bool) (collected : list json) (current_queries : json)
    (iteration_count : Z) (w : world) :
  exists us,
    screen (snd (search_phase aliased collected current_queries
                   iteration_count w))
    = screen w ++ us /\
    forall done total, In (Progress done total) us -> 0 < done <= total.
Proof.
  assert (H : preserves (drawn_within in_range (screen w))
                (search_phase aliased collected current_queries
                   iteration_count) (fun _ => True)).
  { unfold search_phase.
    do 3 (eapply preserves_bind with (Q := fun _ => True);
          [apply drawn_within_show; exact Logic.I|intros _ _]).
    eapply preserves_bind with (Q := fun _ => True);
      [apply preserves_pure, py_iter_pure|intros qs _].
    eapply preserves_bind with (Q := fun _ => True).
    { apply (run_searches_progress in_range aliased (List.length qs) 0
               (List.length qs)); [|lia|lia].
      intros [] Hu; try exact Logic.I. destruct Hu as [-> Hd]. exact Hd. }
    intros collected' _.
    do 2 (eapply preserves_bind with (Q := fun _ => True);
          [apply drawn_within_screen; reflexivity|intros _ _]).
    apply preserves_ret. exact Logic.I. }
  destruct (H w) as [[us [Hs Hus]] _].
  { exists []. split; [now rewrite app_nil_r|constructor]. }
  exists us. split; [exact Hs|].
  intros done total Hin. rewrite Forall_forall in Hus.
  exact (Hus _ Hin).
Qed.

(** ** Research that fails *)

Section SessionKept.

Variable J : session_state -> Prop.

(** A computation that does not write the session keeps its invariants. *)
Lemma preserves_session {A} (m : M A) :
  (forall w, session (snd (m w)) = session w) ->
  preserves (on_session J) m (fun _ => True).
Proof.
  intros Hm w Hw. split; [|trivial]. unfold on_session. now rewrite Hm.
Qed.

Hypothesis J_collected : forall v s, J s -> J (set_collected v s).
Hypothesis J_iteration_count :
  forall v s, J s -> J (set_iteration_count v s).

Lemma run_searches_session aliased total queries : forall i collected,
  preserves (on_session J) (run_searches aliased total i queries collected)
    (fun _ => True).
Proof.
  induction queries as [|q rest IH]; intros i collected.
  - apply preserves_ret. exact Logic.I.
  - simpl run_searches.
    keep_bind_any seen; [apply preserves_pure, already_searched_pure|].
    destruct (negb seen); [|apply IH].
    do 2 keep_then.
    keep_bind_any result.
    { apply preserves_session. intros w. now rewrite run_search_unfold. }
    keep_bind_any u.
    { destruct aliased;
        [apply preserves_modify; intros s; apply J_collected
        |apply preserves_ret; exact Logic.I]. }
    keep_then.
    keep_bind_any v; [keep_step|].
    keep_bind_any t; [keep_step|].
    keep_then. apply IH.
Qed.

Lemma search_phase_session aliased collected current_queries iteration_count :
  preserves (on_session J)
    (search_phase aliased collected current_queries iteration_count)
    (fun _ => True).
Proof.
  unfold search_phase. do 3 keep_then.
  keep_bind_any qs; [keep_step|].
  keep_bind_any collected'; [apply run_searches_session|].
  keep_bind_any u; [apply preserves_modify; intros s; apply J_collected|].
  keep_bind_any u';
    [apply preserves_modify; intros s; apply J_iteration_count|].
  apply preserves_ret. exact Logic.I.
Qed.

Lemma show_results_session collected : forall i,
  preserves (on_session J) (show_results i collected) (fun _ => True).
Proof.
  induction collected as [|result rest IH]; intros i; simpl.
  - apply preserves_ret. exact Logic.I.
  - keep_bind_any query; [keep_step|]. keep_then.
    keep_bind_any v; [keep_step|].
    keep_bind_any t; [keep_step|].
    do 2 keep_then. apply IH.
Qed.

End SessionKept.

(** X19. Research that ends with an exception stays started. Whatever
    raises in the research block (a search, the evaluation, the report,
    the re-planning request, a result that cannot be shown), the session
    is left with ['research_started'] true: the state in which the next
    run enters the research block without the start button. *)
Theorem failed_research_stays_started
    (inp : inputs) (topic : pystr) (goal queries : json) (plan_id : pystr)
    (w w' : world) (e : exn) :
  research inp topic goal queries plan_id w = (Abort (Exception e), w') ->
  get_research_started (session w') = true.
Proof.
  set (J := fun s : session_state => get_research_started s = true).
  intros Hrun. change (on_session J w').
  assert (J_c : forall v s, J s -> J (set_collected v s)) by (intros; assumption).
  assert (J_i : forall v s, J s -> J (set_iteration_count v s))
    by (intros; assumption).
  revert Hrun. unfold research. rewrite modify_then, get_session_then.
  set (w0 := with_session (set_research_started (Some true)) w).
  assert (H0 : on_session J w0) by reflexivity.
  generalize (match collected (session w0) with
              | Some _ => true | None => false end) as aliased.
  intros aliased. cbv zeta.
  destruct (get_iteration_count (session w0) <? max_iterations)%Z.
  - unfold bind at 1.
    destruct (search_phase_session J J_c J_i aliased
                (get_collected (session w0))
                (get_current_queries (session w0) queries)
                (get_iteration_count (session w0)) w0 H0) as [H1 _].
    destruct (search_phase aliased _ _ _ w0) as [[c|sg] w1];
      cbn [snd] in H1; [|now intros [= _ <-]].
    rewrite !show_then, drawn_drawn. unfold bind at 1.
    pose proof (evaluate_session goal c
                  (drawn ([SubheaderEvaluating] ++ [SpinnerEvaluating]) w1))
      as H2.
    destruct (evaluate goal c _) as [[satisfied|sg] w2]; cbn [snd] in H2;
      [|intros [= _ <-]; unfold on_session; rewrite H2; exact H1].
    assert (H2' : on_session J w2)
      by (unfold on_session; rewrite H2; exact H1).
    destruct satisfied.
    + rewrite finish_unfold.
      destruct (script w2) as [|[r|] rest]; try (intros [= _ <-]; exact H2').
      destruct (first_text_value r) as [t|sg]; [|intros [= _ <-]; exact H2'].
      cbv zeta. destruct (new_clicked inp); discriminate.
    + rewrite replan_unfold. cbv zeta.
      destruct (script w2) as [|[r|] rest]; try (intros [= _ <-]; exact H2').
      destruct (first_text_value r) as [t|sg]; [|intros [= _ <-]; exact H2'].
      destruct (json_loads (interpreter w2) t) as [[| | | | | |]|[| |]];
        try discriminate; intros [= _ <-]; exact H2'.
  - rewrite show_then.
    destruct (get_collected (session w0)) as [|item rest]; [discriminate|].
    rewrite !show_then. intros Hrun.
    match type of Hrun with
    | show_results _ _ ?wx = _ =>
        destruct (show_results_session J (item :: rest) 1 wx H0) as [H1 _]
    end.
    rewrite Hrun in H1. exact H1.
Qed.

(** ** More of the driver, on canned sessions *)

Lemma result_a_is_result : Forall is_result [result_a].
Proof.
  constructor; [|constructor].
  exists (JStr (lit "a")), (lit "msg_2"), (lit "about a"). reflexivity.
Qed.

(** Without a key the run stops at the error. *)
Lemma missing_key_stops_the_run_witness :
  fst (main keyless (new_world [Fails])) = Abort StopScript /\
  calls (snd (main keyless (new_world [Fails]))) = [].
Proof.
  rewrite (missing_key_stops_the_run keyless (new_world [Fails]) eq_refl).
  split; reflexivity.
Defined.

(** Three blanks are no topic. *)
Lemma blank_topic_ends_the_run_witness :
  main undecided (new_world [Fails]) =
    (Ret tt,
     drawn [PageConfig; Title; Intro; TopicInput; InfoEnterTopic]
       (new_world [Fails])).
Proof.
  rewrite (blank_topic_ends_the_run undecided (new_world [Fails])
             eq_refl eq_refl).
  reflexivity.
Defined.

(** The third answer is blank: the plan is not asked for. *)
Lemma blank_answer_ends_the_run_witness :
  fst (main hesitant (world_of asked [Fails])) = Ret tt /\
  calls (snd (main hesitant (world_of asked [Fails]))) = [] /\
  session (snd (main hesitant (world_of asked [Fails]))) = asked.
Proof.
  rewrite (blank_answer_ends_the_run hesitant (world_of asked [Fails])
             five_questions (lit "clarify")).
  - repeat split.
  - reflexivity.
  - vm_compute. discriminate.
  - reflexivity.
  - reflexivity.
  - vm_compute. reflexivity.
Defined.

(** Questions and plan are in the session: the service is not called. *)
Lemma cached_run_makes_no_request_witness :
  fst (main reader (world_of planned [Fails])) = Ret tt /\
  calls (snd (main reader (world_of planned [Fails]))) = [] /\
  session (snd (main reader (world_of planned [Fails]))) = planned.
Proof.
  rewrite (cached_run_makes_no_request reader (world_of planned [Fails])
             five_questions (lit "clarify") decoded_plan (lit "plan")
             (JStr (lit "G")) (JArr canned_queries) canned_queries).
  - repeat split.
  - reflexivity.
  - vm_compute. discriminate.
  - reflexivity.
  - reflexivity.
  - vm_compute. reflexivity.
  - reflexivity.
  - reflexivity.
  - reflexivity.
  - repeat split.
  - reflexivity.
  - reflexivity.
Defined.

(** A first run: the questions, then the plan, chained. *)
Lemma first_run_asks_questions_then_plan_witness :
  calls (snd (main reader
                (new_world [message_reply "clarify"
                              (join newline five_questions);
                            message_reply "plan" canned_plan])))
  = [clarify_request (lit "solar power");
     goals_request (lit "solar power") five_questions five_answers
       (lit "clarify")]
  /\ session (snd (main reader
                     (new_world [message_reply "clarify"
                                   (join newline five_questions);
                                 message_reply "plan" canned_plan])))
     = planned.
Proof.
  rewrite (first_run_asks_questions_then_plan reader
             (new_world [message_reply "clarify" (join newline five_questions);
                         message_reply "plan" canned_plan])
             (message_response "clarify" (join newline five_questions))
             (message_response "plan" canned_plan) []
             (join newline five_questions) canned_plan decoded_plan
             (JStr (lit "G")) (JArr canned_queries) canned_queries).
  - split; vm_compute; reflexivity.
  - reflexivity.
  - vm_compute. discriminate.
  - reflexivity.
  - reflexivity.
  - reflexivity.
  - vm_compute. reflexivity.
  - reflexivity.
  - reflexivity.
  - vm_compute. reflexivity.
  - repeat split.
  - reflexivity.
  - reflexivity.
Defined.

(** The plan was made under another topic, from the same answers: the
    questions are asked anew, the plan is not. *)
Lemma plan_cache_ignores_the_topic_witness :
  calls (snd (main reader
                (world_of planned_elsewhere
                   [message_reply "clarify" (join newline five_questions)])))
  = [clarify_request (lit "solar power")].
Proof.
  rewrite (plan_cache_ignores_the_topic reader
             (world_of planned_elsewhere
                [message_reply "clarify" (join newline five_questions)])
             (message_response "clarify" (join newline five_questions)) []
             (join newline five_questions) decoded_plan (lit "plan")
             (JStr (lit "G")) (JArr canned_queries) canned_queries).
  - vm_compute. reflexivity.
  - reflexivity.
  - vm_compute. discriminate.
  - vm_compute. reflexivity.
  - reflexivity.
  - reflexivity.
  - vm_compute. reflexivity.
  - reflexivity.
  - vm_compute. reflexivity.
  - reflexivity.
  - repeat split.
  - reflexivity.
  - reflexivity.
Defined.

(** A plan without a goal: the run raises [KeyError], the plan kept. *)
Lemma unreadable_plan_is_kept_witness :
  fst (main reader
         (world_of asked
            [message_reply "plan"
               (json_text "{'queries':['a','b','c','d','e']}")]))
  = Abort (Exception KeyError) /\
  goal_plan
    (session
       (snd (main reader
               (world_of asked
                  [message_reply "plan"
                     (json_text "{'queries':['a','b','c','d','e']}")]))))
  = Some goalless_plan.
Proof.
  destruct (unreadable_plan_is_kept reader
              (world_of asked
                 [message_reply "plan"
                    (json_text "{'queries':['a','b','c','d','e']}")])
              five_questions (lit "clarify")
              (message_response "plan"
                 (json_text "{'queries':['a','b','c','d','e']}")) []
              (json_text "{'queries':['a','b','c','d','e']}")
              goalless_plan (Exception KeyError)) as [Hrun _].
  - reflexivity.
  - vm_compute. discriminate.
  - reflexivity.
  - reflexivity.
  - vm_compute. reflexivity.
  - reflexivity.
  - reflexivity.
  - reflexivity.
  - vm_compute. reflexivity.
  - reflexivity.
  - rewrite Hrun. split; reflexivity.
Defined.

(** The service fails at the plan: the questions stay, no plan is kept. *)
Lemma failed_plan_request_keeps_nothing_witness :
  fst (main reader (world_of asked [Fails])) = Abort (Exception APIError) /\
  session (snd (main reader (world_of asked [Fails]))) = asked.
Proof.
  rewrite (failed_plan_request_keeps_nothing reader (world_of asked [Fails])
             five_questions (lit "clarify") (Exception APIError)).
  - split; reflexivity.
  - reflexivity.
  - vm_compute. discriminate.
  - reflexivity.
  - reflexivity.
  - vm_compute. reflexivity.
  - reflexivity.
  - vm_compute. reflexivity.
Defined.

(** The service fails at the questions: the session stays empty. *)
Lemma failed_questions_request_keeps_nothing_witness :
  fst (main reader (new_world [Fails])) = Abort (Exception APIError) /\
  session (snd (main reader (new_world [Fails]))) = empty_session.
Proof.
  rewrite (failed_questions_request_keeps_nothing reader (new_world [Fails])
             (Exception APIError)).
  - split; reflexivity.
  - reflexivity.
  - vm_compute. discriminate.
  - reflexivity.
  - vm_compute. reflexivity.
Defined.

(** One search, then the service fails at the review: the pass counts. *)
Lemma failed_evaluation_uses_up_a_pass_witness :
  research user (lit "solar power") (JStr (lit "G")) (JArr [JStr (lit "a")])
    (lit "plan") failing_review
  = (Abort (Exception APIError), failing_review_ended) /\
  get_iteration_count (session failing_review_ended)
  = (get_iteration_count (session failing_review) + 1)%Z /\
  get_collected (session failing_review_ended) = [result_a].
Proof.
  apply (failed_evaluation_uses_up_a_pass user (lit "solar power")
           (JStr (lit "G")) (JArr [JStr (lit "a")]) (lit "plan")
           failing_review [result_a] failing_review_searched
           failing_review_ended (Exception APIError)).
  - vm_compute. reflexivity.
  - vm_compute. reflexivity.
  - vm_compute. reflexivity.
Defined.

(** The query ["f"] of an earlier re-planning is still there after the
    report. *)
Lemma replanned_queries_outlive_the_report_witness :
  current_queries
    (session
       (snd (finish user (lit "solar power") (JStr (lit "G")) [result_a]
               (world_of
                  (set_current_queries (Some [JStr (lit "f")]) empty_session)
                  [message_reply "report" (lit "REPORT")]))))
  = Some [JStr (lit "f")].
Proof.
  destruct (replanned_queries_outlive_the_report user (lit "solar power")
              (JStr (lit "G")) [result_a]
              (world_of
                 (set_current_queries (Some [JStr (lit "f")]) empty_session)
                 [message_reply "report" (lit "REPORT")])
              [JStr (lit "f")] eq_refl eq_refl) as [H _].
  exact H.
Defined.

(** The report is written and the button pressed: nothing is left. *)
Lemma new_research_empties_the_session_witness :
  fst (finish restarter (lit "solar power") (JStr (lit "G")) [result_a]
         (world_of planned [message_reply "report" (lit "REPORT")]))
  = Abort RerunScript /\
  session
    (snd (finish restarter (lit "solar power") (JStr (lit "G")) [result_a]
            (world_of planned [message_reply "report" (lit "REPORT")])))
  = empty_session.
Proof.
  destruct (new_research_empties_the_session restarter (lit "solar power")
              (JStr (lit "G")) [result_a]
              (world_of planned [message_reply "report" (lit "REPORT")])
              (message_response "report" (lit "REPORT")) [] (lit "REPORT")
              eq_refl eq_refl eq_refl) as [H1 [H2 _]].
  split; assumption.
Defined.

(** Research is started: the run is the same without the button. *)
Lemma started_research_goes_on_by_itself_witness :
  main (with_start false user)
    (world_of (set_research_started (Some true) planned) [Fails])
  = main user (world_of (set_research_started (Some true) planned) [Fails]).
Proof.
  apply (started_research_goes_on_by_itself user
           (world_of (set_research_started (Some true) planned) [Fails])
           false).
  reflexivity.
Defined.

(** Padded lines and a blank one: two clean questions. *)
Lemma questions_are_clean_lines_witness :
  Forall (fun q =>
            q <> [] /\ ~ In 10%N q /\ strip q = q /\
            (forall c t, q = c :: t -> isspace c = false) /\
            (forall t c, q = t ++ [c] -> isspace c = false))
    [lit "1. Why?"; lit "2. For whom?"].
Proof.
  apply (questions_are_clean_lines (lit "solar power")
           (new_world [message_reply "clarify"
                         (join newline [lit " 1. Why? "; lit "  ";
                                        lit "2. For whom?  "])])
           [lit "1. Why?"; lit "2. For whom?"] (lit "clarify")).
  vm_compute. reflexivity.
Defined.

(** ["a"] is collected and the query [[NaN]] comes twice, equal to itself
    as a list though NaN is not: two searches, for [[NaN]] and for ["c"]. *)
Lemma searches_are_the_fresh_queries_witness :
  fst (run_searches true 4 0
         [JStr (lit "a"); JArr [JFloat S754_nan]; JArr [JFloat S754_nan];
          JStr (lit "c")]
         [result_a]
         (world_of (set_collected (Some [result_a]) empty_session)
            [search_reply "s2" "about b"; search_reply "s3" "about c"; Fails]))
  = Ret ([result_a]
         ++ [result_of (JArr [JFloat S754_nan]) (lit "msg_2") (lit "about b");
             result_c]) /\
  calls (snd (run_searches true 4 0
         [JStr (lit "a"); JArr [JFloat S754_nan]; JArr [JFloat S754_nan];
          JStr (lit "c")]
         [result_a]
         (world_of (set_collected (Some [result_a]) empty_session)
            [search_reply "s2" "about b"; search_reply "s3" "about c"; Fails])))
  = [search_request (JArr [JFloat S754_nan]); search_request (JStr (lit "c"))].
Proof.
  destruct (searches_are_the_fresh_queries true 4 0
              [JStr (lit "a"); JArr [JFloat S754_nan]; JArr [JFloat S754_nan];
               JStr (lit "c")]
              [result_a]
              (world_of (set_collected (Some [result_a]) empty_session)
                 [search_reply "s2" "about b"; search_reply "s3" "about c";
                  Fails])
              [search_response "s2" "about b"; search_response "s3" "about c"]
              [Fails]
              [result_of (JArr [JFloat S754_nan]) (lit "msg_2") (lit "about b");
               result_c])
    as [Hfst [Hcalls _]].
  - exact result_a_is_result.
  - reflexivity.
  - vm_compute. reflexivity.
  - repeat constructor; vm_compute; intuition discriminate.
  - split; [exact Hfst|]. rewrite Hcalls. vm_compute. reflexivity.
Defined.

(** The search for ["b"] gives a result, the one for ["c"] is cut short:
    the session, which held the list, holds the result of ["b"]. *)
Lemma failed_search_keeps_results_only_in_a_shared_list_witness :
  exists results q,
    Forall is_result results /\
    calls (snd (run_searches true 2 0 [JStr (lit "b"); JStr (lit "c")]
                  [result_a] second_search_short))
    = calls second_search_short
      ++ map search_request (queries_of results ++ [q]) /\
    session (snd (run_searches true 2 0 [JStr (lit "b"); JStr (lit "c")]
                    [result_a] second_search_short))
    = appended true [result_a] results (session second_search_short) /\
    (true = false ->
     session (snd (run_searches true 2 0 [JStr (lit "b"); JStr (lit "c")]
                     [result_a] second_search_short))
     = session second_search_short) /\
    get_iteration_count
      (session (snd (run_searches true 2 0 [JStr (lit "b"); JStr (lit "c")]
                       [result_a] second_search_short)))
    = get_iteration_count (session second_search_short).
Proof.
  apply (failed_search_keeps_results_only_in_a_shared_list true 2 0
           [JStr (lit "b"); JStr (lit "c")] [result_a] second_search_short
           (snd (run_searches true 2 0 [JStr (lit "b"); JStr (lit "c")]
                   [result_a] second_search_short))
           (Exception IndexError)).
  - exact result_a_is_result.
  - vm_compute. reflexivity.
Defined.

(** The first search is cut short: research stays started. *)
Lemma failed_research_stays_started_witness :
  get_research_started
    (session
       (snd (research user (lit "solar power") (JStr (lit "G"))
               (JArr [JStr (lit "a")]) (lit "plan")
               (new_world [short_reply "s1"]))))
  = true.
Proof.
  apply (failed_research_stays_started user (lit "solar power")
              (JStr (lit "G")) (JArr [JStr (lit "a")]) (lit "plan")
              (new_world [short_reply "s1"])
              (snd (research user (lit "solar power") (JStr (lit "G"))
                      (JArr [JStr (lit "a")]) (lit "plan")
                      (new_world [short_reply "s1"])))
              IndexError).
  vm_compute. reflexivity.
Defined.
